(** * Submission verification and reward/reputation pipeline

    A shallow embedding of the verification pipeline of the mining
    platform: [claude_verification.py] (verdict parser and
    orchestrator), [frontend/services.py] (storage services),
    [main.py] and [backend/app.py] (the two [submit_inference]
    handlers), followed by the properties proved about them.

    Conventions.
    - Python [str] is a Rocq [string], read as UTF-8 bytes; the
      characters the code inspects (braces, quotes, digits) are ASCII.
    - Python [float] is a primitive binary64 [float]; Python [int] is [Z].
    - A Python object of unknown shape ([Any], the result of
      [json.loads]) is a [value].
    - A raised exception is the left injection of a sum; mutations made
      before the raise stay in the state.

    What comes from outside.
    - The judge: the outcome of the API call (an exception or the reply
      text) and the measured time are inputs of a verification call
      (record [Judge]).  The prompt sent to it is not modelled.
    - The standard library: [json.loads], [float] and [repr] on a
      [str], [uuid4] and the clock are parameters (class [Runtime]);
      a reference runtime, with a JSON decoder following CPython's,
      runs the pipeline on sample data.
    - The hosted tables: their calls are taken to raise nothing. *)

From Stdlib Require Import ZArith String Ascii List Bool Lia DecimalString.
From Stdlib Require Import PrimFloat SpecFloat FloatOps.
From stdpp Require Import base option list strings gmap.

Set Warnings "-inexact-float,-register-all".
Local Open Scope string_scope.
Local Open Scope Z_scope.

(** ** Python values *)

Inductive value : Type :=
  | VNone
  | VBool (b : bool)
  | VInt (z : Z)
  | VFloat (f : float)
  | VStr (s : string)
  | VList (l : list value)
  | VDict (d : list (string * value)).

(** [bool(v)]: the truth value an [if] statement tests. *)
Definition truthy (v : value) : bool :=
  match v with
  | VNone => false
  | VBool b => b
  | VInt z => negb (z =? 0)
  | VFloat f => negb (PrimFloat.eqb f 0%float)
  | VStr s => negb (String.eqb s "")
  | VList l => match l with [] => false | _ => true end
  | VDict d => match d with [] => false | _ => true end
  end.

(** [type(v).__name__], as it appears in error messages. *)
Definition type_name (v : value) : string :=
  match v with
  | VNone => "NoneType"
  | VBool _ => "bool"
  | VInt _ => "int"
  | VFloat _ => "float"
  | VStr _ => "str"
  | VList _ => "list"
  | VDict _ => "dict"
  end.

(** A dict keeps one binding per key, in insertion order. *)
Fixpoint dict_lookup (d : list (string * value)) (k : string) : option value :=
  match d with
  | [] => None
  | (k', v) :: d' => if String.eqb k' k then Some v else dict_lookup d' k
  end.

(** [d[k] = v]: overwrite in place, or append. *)
Fixpoint dict_set (k : string) (v : value) (d : list (string * value))
  : list (string * value) :=
  match d with
  | [] => [(k, v)]
  | (k', v') :: d' =>
      if String.eqb k' k then (k', v) :: d' else (k', v') :: dict_set k v d'
  end.

(** [d.get(k, default)] *)
Definition dict_get (d : list (string * value)) (k : string) (default : value)
  : value :=
  match dict_lookup d k with
  | Some v => v
  | None => default
  end.

(** ** Exceptions *)

Inductive exn_class : Type :=
  | ValueError
  | TypeError
  | AttributeError
  | OverflowError
  | TimeoutError
  | JSONDecodeError
  | VerificationError
  | JudgeError.  (* whatever the Anthropic client raises *)

(** An exception object: its class, [str(e)], and [__cause__]
    (set by [raise ... from e]). *)
Inductive exn : Type :=
  | Exn (cls : exn_class) (msg : string) (cause : option exn).

Definition exn_cls (e : exn) : exn_class := let 'Exn c _ _ := e in c.
Definition str (e : exn) : string := let 'Exn _ m _ := e in m.
Definition exn_cause (e : exn) : option exn := let 'Exn _ _ c := e in c.

(** [fastapi.HTTPException(status_code, detail)] *)
Record HTTPException := {
  status_code : Z;
  detail : string;
}.

(** The double quote character, and a string written with apostrophes
    in place of double quotes. *)
Definition quote : ascii := "034"%char.

Fixpoint dq (s : string) : string :=
  match s with
  | EmptyString => EmptyString
  | String c s' => String (if Ascii.eqb c "'" then quote else c) (dq s')
  end.

(** [str(n)] for an [int]. *)
Definition str_int (n : Z) : string := NilZero.string_of_int (Z.to_int n).

(** [float(n)] for an [int]: round to nearest even; [None] stands for
    [OverflowError]. *)
Definition float_of_int (n : Z) : option float :=
  let f := SF2Prim (binary_normalize prec emax n 0 false) in
  if PrimFloat.is_infinity f then None else Some f.

(** ** The standard library's JSON decoder

    [json.loads] and the builtin [float] are not code of this
    repository.  The pipeline is parameterised by them (class
    [Runtime] below); this module is a reference decoder, following
    CPython's scanner, on which the pipeline can be run on concrete
    judge replies. *)

Module Json.

Definition is_ws (c : ascii) : bool :=
  let n := nat_of_ascii c in
  (n =? 32)%nat || (n =? 9)%nat || (n =? 10)%nat || (n =? 13)%nat.

Fixpoint skip_ws (s : string) : string :=
  match s with
  | String c s' => if is_ws c then skip_ws s' else s
  | EmptyString => s
  end.

Definition digit_val (c : ascii) : option Z :=
  let n := nat_of_ascii c in
  if (48 <=? n)%nat && (n <=? 57)%nat then Some (Z.of_nat (n - 48)) else None.

Definition hex_val (c : ascii) : option Z :=
  let n := nat_of_ascii c in
  if (48 <=? n)%nat && (n <=? 57)%nat then Some (Z.of_nat (n - 48))
  else if (97 <=? n)%nat && (n <=? 102)%nat then Some (Z.of_nat (n - 87))
  else if (65 <=? n)%nat && (n <=? 70)%nat then Some (Z.of_nat (n - 55))
  else None.

(** Reads the longest run of digits: the number they add to [acc],
    how many there are, and the rest. *)
Fixpoint scan_digits (s : string) (acc : Z) (count : Z) : Z * Z * string :=
  match s with
  | String c s' =>
      match digit_val c with
      | Some d => scan_digits s' (acc * 10 + d) (count + 1)
      | None => (acc, count, s)
      end
  | EmptyString => (acc, count, s)
  end.

(** The double nearest to [(-1)^neg * m * 10^e10] (ties to even), as
    [float] computes it from a decimal literal. *)
Definition float_of_decimal (neg : bool) (m : Z) (e10 : Z) : float :=
  match m with
  | Zpos p =>
      if 0 <=? e10 then
        SF2Prim (binary_normalize prec emax
                   (if neg then - (m * 10 ^ e10) else m * 10 ^ e10) 0 false)
      else
        match 10 ^ (- e10) with
        | Zpos q =>
            SF2Prim (SFdiv prec emax (S754_finite neg p 0) (S754_finite false q 0))
        | _ => nan
        end
  | _ => if neg then neg_zero else zero
  end.

(** The exponent part: e or E, an optional sign, one or more digits;
    not consumed when malformed. *)
Definition scan_exponent (s : string) : option (Z * string) :=
  match s with
  | String c s1 =>
      if (nat_of_ascii c =? 101)%nat || (nat_of_ascii c =? 69)%nat then
        let '(eneg, s2) :=
          match s1 with
          | String "-" r => (true, r)
          | String "+" r => (false, r)
          | _ => (false, s1)
          end in
        match scan_digits s2 0 0 with
        | (e, n, s3) => if 0 <? n then Some (if eneg then - e else e, s3) else None
        end
      else None
  | EmptyString => None
  end.

(** The fraction part: a dot and one or more digits; not consumed
    when malformed. *)
Definition scan_fraction (s : string) (ip : Z) : option (Z * Z * string) :=
  match s with
  | String "." s1 =>
      match scan_digits s1 ip 0 with
      | (m, n, s2) => if 0 <? n then Some (m, n, s2) else None
      end
  | _ => None
  end.

(** A number: an optional minus sign, an integer part without a
    leading zero, an optional fraction, an optional exponent.  It is
    an [int] when there is neither fraction nor exponent, else a
    [float]. *)
Definition scan_number (s : string) : option (value * string) :=
  let '(neg, s1) :=
    match s with
    | String "-" r => (true, r)
    | _ => (false, s)
    end in
  match s1 with
  | String c r =>
      match digit_val c with
      | None => None
      | Some d =>
          let '(ip, _, s2) := if d =? 0 then (0, 1, r) else scan_digits r d 1 in
          let '(is_float, m, fl, s3) :=
            match scan_fraction s2 ip with
            | Some (m, n, s3) => (true, m, n, s3)
            | None => (false, ip, 0, s2)
            end in
          match scan_exponent s3 with
          | Some (e, s4) => Some (VFloat (float_of_decimal neg m (e - fl)), s4)
          | None =>
              if is_float then Some (VFloat (float_of_decimal neg m (- fl)), s3)
              else Some (VInt (if neg then - ip else ip), s3)
          end
      end
  | EmptyString => None
  end.

(** UTF-8 bytes of a code point. *)
Definition byte (n : Z) : ascii := ascii_of_nat (Z.to_nat n).

Definition utf8 (cp : Z) : string :=
  if cp <? 128 then String (byte cp) ""
  else if cp <? 2048 then
    String (byte (192 + cp / 64)) (String (byte (128 + cp mod 64)) "")
  else if cp <? 65536 then
    String (byte (224 + cp / 4096))
      (String (byte (128 + (cp / 64) mod 64))
         (String (byte (128 + cp mod 64)) ""))
  else
    String (byte (240 + cp / 262144))
      (String (byte (128 + (cp / 4096) mod 64))
         (String (byte (128 + (cp / 64) mod 64))
            (String (byte (128 + cp mod 64)) ""))).

(** Four hexadecimal digits. *)
Definition scan_hex4 (s : string) : option (Z * string) :=
  match s with
  | String a (String b (String c (String d r))) =>
      match hex_val a, hex_val b, hex_val c, hex_val d with
      | Some x, Some y, Some z, Some w => Some (((x * 16 + y) * 16 + z) * 16 + w, r)
      | _, _, _, _ => None
      end
  | _ => None
  end.

(** After [\u]: the code point, joining a surrogate pair. *)
Definition scan_unicode_escape (s : string) : option (Z * string) :=
  match scan_hex4 s with
  | Some (hi, r) =>
      if (55296 <=? hi) && (hi <=? 56319) then
        match r with
        | String "\" (String "u" r1) =>
            match scan_hex4 r1 with
            | Some (lo, r2) =>
                if (56320 <=? lo) && (lo <=? 57343)
                then Some (65536 + (hi - 55296) * 1024 + (lo - 56320), r2)
                else Some (hi, r)
            | None => Some (hi, r)
            end
        | _ => Some (hi, r)
        end
      else Some (hi, r)
  | None => None
  end.

Definition simple_escape (c : ascii) : option ascii :=
  if Ascii.eqb c quote then Some quote
  else match c with
       | "\"%char => Some "\"%char
       | "/"%char => Some "/"%char
       | "b"%char => Some "008"%char
       | "f"%char => Some "012"%char
       | "n"%char => Some "010"%char
       | "r"%char => Some "013"%char
       | "t"%char => Some "009"%char
       | _ => None
       end.

(** The body of a string literal, after its opening quote (strict
    mode: no raw control character). *)
Fixpoint scan_string (fuel : nat) (s : string) : option (string * string) :=
  match fuel with
  | O => None
  | S fuel' =>
      match s with
      | EmptyString => None
      | String c r =>
          if Ascii.eqb c quote then Some ("", r)
          else if Ascii.eqb c "\" then
            match r with
            | String "u" r1 =>
                match scan_unicode_escape r1 with
                | Some (cp, r2) =>
                    match scan_string fuel' r2 with
                    | Some (body, rest) => Some (utf8 cp +:+ body, rest)
                    | None => None
                    end
                | None => None
                end
            | String e r1 =>
                match simple_escape e with
                | Some ch =>
                    match scan_string fuel' r1 with
                    | Some (body, rest) => Some (String ch body, rest)
                    | None => None
                    end
                | None => None
                end
            | EmptyString => None
            end
          else if (nat_of_ascii c <? 32)%nat then None
          else
            match scan_string fuel' r with
            | Some (body, rest) => Some (String c body, rest)
            | None => None
            end
      end
  end.

(** [s] without its prefix [p], when it starts with it. *)
Fixpoint strip_prefix (p s : string) : option string :=
  match p, s with
  | EmptyString, _ => Some s
  | String a p', String b s' => if Ascii.eqb a b then strip_prefix p' s' else None
  | String _ _, EmptyString => None
  end.

Definition literal (rest : string) (v : value) (s : string)
  : option (value * string) :=
  match strip_prefix rest s with
  | Some s' => Some (v, s')
  | None => None
  end.

(** One JSON value at the head of [s] ([scan_once]), the members of
    an object after its first key's quote is due ([scan_members]) and
    the elements of an array ([scan_elements]). *)
Fixpoint scan_once (fuel : nat) (s : string) {struct fuel}
  : option (value * string) :=
  match fuel with
  | O => None
  | S fuel' =>
      match s with
      | EmptyString => None
      | String c r =>
          if Ascii.eqb c quote then
            match scan_string (S (String.length r)) r with
            | Some (body, rest) => Some (VStr body, rest)
            | None => None
            end
          else
            match c with
            | "{"%char =>
                match skip_ws r with
                | String "}" r' => Some (VDict [], r')
                | r1 => scan_members fuel' r1 []
                end
            | "["%char =>
                match skip_ws r with
                | String "]" r' => Some (VList [], r')
                | r1 => scan_elements fuel' r1 []
                end
            | "n"%char => literal "ull" VNone r
            | "t"%char => literal "rue" (VBool true) r
            | "f"%char => literal "alse" (VBool false) r
            | "N"%char => literal "aN" (VFloat nan) r
            | "I"%char => literal "nfinity" (VFloat infinity) r
            | "-"%char =>
                match strip_prefix "Infinity" r with
                | Some r' => Some (VFloat neg_infinity, r')
                | None => scan_number s
                end
            | _ => scan_number s
            end
      end
  end
with scan_members (fuel : nat) (s : string) (acc : list (string * value))
  {struct fuel} : option (value * string) :=
  match fuel with
  | O => None
  | S fuel' =>
      match s with
      | EmptyString => None
      | String c r =>
          if Ascii.eqb c quote then
            match scan_string (S (String.length r)) r with
            | Some (key, r1) =>
                match skip_ws r1 with
                | String ":" r2 =>
                    match scan_once fuel' (skip_ws r2) with
                    | Some (v, r3) =>
                        let acc' := dict_set key v acc in
                        match skip_ws r3 with
                        | String "}" r4 => Some (VDict acc', r4)
                        | String "," r4 => scan_members fuel' (skip_ws r4) acc'
                        | _ => None
                        end
                    | None => None
                    end
                | _ => None
                end
            | None => None
            end
          else None
      end
  end
with scan_elements (fuel : nat) (s : string) (acc : list value)
  {struct fuel} : option (value * string) :=
  match fuel with
  | O => None
  | S fuel' =>
      match scan_once fuel' s with
      | Some (v, r1) =>
          match skip_ws r1 with
          | String "]" r2 => Some (VList (acc ++ [v]), r2)
          | String "," r2 => scan_elements fuel' (skip_ws r2) (acc ++ [v])
          | _ => None
          end
      | None => None
      end
  end.

(** [json.loads(s)]: one value, surrounded by white space only.
    [None] stands for [JSONDecodeError]. *)
Definition loads (s : string) : option value :=
  match scan_once (2 * String.length s + 2) (skip_ws s) with
  | Some (v, rest) =>
      match skip_ws rest with
      | EmptyString => Some v
      | String _ _ => None
      end
  | None => None
  end.

End Json.

(** ** The builtins [float] (on a [str]) and [repr] (on a [str]) *)

Module Builtins.

Definition is_digit (c : ascii) : bool :=
  match Json.digit_val c with Some _ => true | None => false end.

(** The white space [float] strips from an ASCII text: the space and
    the characters 9 to 13. *)
Definition is_space (c : ascii) : bool :=
  let n := nat_of_ascii c in
  ((9 <=? n)%nat && (n <=? 13)%nat) || (n =? 32)%nat.

Fixpoint lstrip (s : string) : string :=
  match s with
  | String c r => if is_space c then lstrip r else s
  | EmptyString => s
  end.

Fixpoint rstrip (s : string) : string :=
  match s with
  | EmptyString => EmptyString
  | String c r =>
      match rstrip r with
      | EmptyString => if is_space c then EmptyString else String c EmptyString
      | r' => String c r'
      end
  end.

Definition strip (s : string) : string := rstrip (lstrip s).

(** An underscore is dropped when it stands between two digits and
    refused elsewhere. *)
Fixpoint drop_underscores (prev : ascii) (s : string) : option string :=
  match s with
  | EmptyString => if Ascii.eqb prev "_" then None else Some EmptyString
  | String c r =>
      if Ascii.eqb c "_" then
        if is_digit prev then drop_underscores c r else None
      else if Ascii.eqb prev "_" && negb (is_digit c) then None
      else
        match drop_underscores c r with
        | Some r' => Some (String c r')
        | None => None
        end
  end.

Definition lower (c : ascii) : ascii :=
  let n := nat_of_ascii c in
  if (65 <=? n)%nat && (n <=? 90)%nat then ascii_of_nat (n + 32) else c.

Fixpoint lowercase (s : string) : string :=
  match s with
  | EmptyString => EmptyString
  | String c r => String (lower c) (lowercase r)
  end.

(** A decimal literal: digits, an optional dot and digits, with one
    digit at least, and an optional exponent; nothing may follow. *)
Definition decimal (neg : bool) (s : string) : option float :=
  let '(ip, n1, s1) := Json.scan_digits s 0 0 in
  let '(m, n2, s2) :=
    match s1 with
    | String "." r => Json.scan_digits r ip 0
    | _ => (ip, 0, s1)
    end in
  if 0 <? n1 + n2 then
    match s2 with
    | EmptyString => Some (Json.float_of_decimal neg m (- n2))
    | String _ _ =>
        match Json.scan_exponent s2 with
        | Some (e, EmptyString) => Some (Json.float_of_decimal neg m (e - n2))
        | _ => None
        end
    end
  else None.

(** [float(s)]; [None] stands for [ValueError]. *)
Definition float_of_str (s : string) : option float :=
  match drop_underscores "000" (strip s) with
  | None => None
  | Some t =>
      let '(neg, u) :=
        match t with
        | String "-" r => (true, r)
        | String "+" r => (false, r)
        | _ => (false, t)
        end in
      let l := lowercase u in
      if String.eqb l "nan" then Some nan
      else if String.eqb l "inf" || String.eqb l "infinity"
      then Some (if neg then neg_infinity else infinity)
      else decimal neg u
  end.

Fixpoint contains (c : ascii) (s : string) : bool :=
  match s with
  | EmptyString => false
  | String c' r => Ascii.eqb c c' || contains c r
  end.

Definition hex_digit (n : nat) : ascii :=
  if (n <? 10)%nat then ascii_of_nat (48 + n) else ascii_of_nat (87 + n).

Fixpoint escape (q : ascii) (s : string) : string :=
  match s with
  | EmptyString => EmptyString
  | String c r =>
      let n := nat_of_ascii c in
      if Ascii.eqb c q || Ascii.eqb c "\" then String "\" (String c (escape q r))
      else if (n =? 10)%nat then String "\" (String "n" (escape q r))
      else if (n =? 13)%nat then String "\" (String "r" (escape q r))
      else if (n =? 9)%nat then String "\" (String "t" (escape q r))
      else if (n <? 32)%nat || (n =? 127)%nat then
        String "\" (String "x" (String (hex_digit (n / 16))
                                  (String (hex_digit (n mod 16)) (escape q r))))
      else String c (escape q r)
  end.

(** [repr(s)]: single quotes, unless [s] has one and no double quote. *)
Definition repr (s : string) : string :=
  let q := if contains "'" s && negb (contains quote s) then quote else "'"%char in
  String q (escape q s +:+ String q EmptyString).

End Builtins.

(** ** The environment of the pipeline

    What the code takes from outside the repository: the JSON decoder,
    two builtins, the random identifiers and the clock. *)

Class Runtime := {
  (** [json.loads]; it raises [JSONDecodeError] on a text that is
      not JSON *)
  json_loads : string -> exn + value;
  (** [float(s)] for a [str]; [None] is a [ValueError] *)
  float_of_str : string -> option float;
  (** [repr(s)] for a [str] *)
  repr_str : string -> string;
  (** [str(uuid.uuid4())], the n-th time it is drawn *)
  uuid4 : nat -> string;
  (** [datetime.utcnow()], the n-th time the clock is read *)
  utcnow : nat -> string;
}.

(** The reference runtime: the decoder and builtins above.  The
    decoder's diagnostic text (message, line, column) is not modelled;
    every rejected document is reported with the text [rejected]. *)
Definition rejected : string := "invalid JSON document".

Definition reference_runtime : Runtime := {|
  json_loads := fun s =>
    match Json.loads s with
    | Some v => inr v
    | None => inl (Exn JSONDecodeError rejected None)
    end;
  float_of_str := Builtins.float_of_str;
  repr_str := Builtins.repr;
  uuid4 := fun n => "uuid-" +:+ str_int (Z.of_nat n);
  utcnow := fun n => "t" +:+ str_int (Z.of_nat n);
|}.


(** A small state monad, for the handlers that thread a store. *)
Definition St (S A : Type) : Type := S -> A * S.

Definition ret {S A : Type} (a : A) : St S A := fun s => (a, s).

Definition bind {S A B : Type} (c : St S A) (k : A -> St S B) : St S B :=
  fun s => let '(a, s') := c s in k a s'.

Definition gets {S A : Type} (f : S -> A) : St S A := fun s => (f s, s).

Definition modify {S : Type} (f : S -> S) : St S unit := fun s => (tt, f s).

Notation "x <- c ;; k" := (bind c (fun x => k))
  (at level 100, c at next level, right associativity).
Notation "c ;;; k" := (bind c (fun _ => k))
  (at level 100, right associativity).

(** ** [claude_verification.py] *)

Module claude_verification.

Inductive TaskType : Type :=
  | EVALUATION
  | PREDICTION
  | CODE_EXECUTION
  | CLASSIFICATION
  | ANNOTATION
  | HUMAN_REVIEW.

Definition TaskType_value (t : TaskType) : string :=
  match t with
  | EVALUATION => "evaluation"
  | PREDICTION => "prediction"
  | CODE_EXECUTION => "code_execution"
  | CLASSIFICATION => "classification"
  | ANNOTATION => "annotation"
  | HUMAN_REVIEW => "human_review"
  end.

Definition TaskType_members : list TaskType :=
  [EVALUATION; PREDICTION; CODE_EXECUTION; CLASSIFICATION; ANNOTATION;
   HUMAN_REVIEW].

Record VerificationResult := {
  submission_id : string;
  task_id : string;
  is_valid : value;
  ai_score : float;
  feedback : value;
  model_used : string;
  verification_timestamp : option float;
  execution_time_ms : Z;
}.

Definition set_execution_time_ms (r : VerificationResult) (t : Z)
  : VerificationResult :=
  {| submission_id := submission_id r;
     task_id := task_id r;
     is_valid := is_valid r;
     ai_score := ai_score r;
     feedback := feedback r;
     model_used := model_used r;
     verification_timestamp := verification_timestamp r;
     execution_time_ms := t |}.

(** What one verification call observes of the outside world. *)
Record Judge := {
  (** [os.getenv("CLAUDE_API_KEY")] *)
  CLAUDE_API_KEY : option string;
  (** the outcome of [client.messages.create(...)] and of reading
      [message.content[0].text]: an exception or the reply text *)
  reply : exn + string;
  (** [int((time.time() - start_time) * 1000)], read after parsing *)
  elapsed_ms : Z;
  (** [time.time()], read when the result object is built *)
  time_time : float;
}.

(** The text of the [TimeoutError]. *)
Definition timeout_text (execution_time timeout_seconds : Z) : string :=
  "Verification took " +:+ str_int execution_time +:+ "ms, exceeded "
    +:+ str_int timeout_seconds +:+ "s limit".

(** [re.search(r'\{.*\}', text, re.DOTALL)]: the greedy match runs
    from the first opening brace to the last closing brace after it. *)
Fixpoint from_first (c : ascii) (s : string) : option string :=
  match s with
  | EmptyString => None
  | String a r => if Ascii.eqb a c then Some s else from_first c r
  end.

Fixpoint upto_last (c : ascii) (s : string) : option string :=
  match s with
  | EmptyString => None
  | String a r =>
      match upto_last c r with
      | Some p => Some (String a p)
      | None => if Ascii.eqb a c then Some (String a EmptyString) else None
      end
  end.

Definition re_search_braces (text : string) : option string :=
  match from_first "{" text with
  | Some (String _ r) =>
      match upto_last "}" r with
      | Some p => Some (String "{" p)
      | None => None
      end
  | _ => None
  end.

Section with_runtime.
Context {rt : Runtime}.

(** [TaskType(s)]: lookup by value. *)
Definition TaskType_of (s : string) : exn + TaskType :=
  match List.find (fun t => String.eqb (TaskType_value t) s) TaskType_members with
  | Some t => inr t
  | None => inl (Exn ValueError (repr_str s +:+ " is not a valid TaskType") None)
  end.

(** [response_data.get(key, default)] on whatever [json.loads] gave. *)
Definition get (response_data : value) (key : string) (default : value)
  : exn + value :=
  match response_data with
  | VDict d => inr (dict_get d key default)
  | v => inl (Exn AttributeError
                ("'" +:+ type_name v +:+ "' object has no attribute 'get'") None)
  end.

(** The builtin [float(v)]. *)
Definition float_ (v : value) : exn + float :=
  match v with
  | VFloat f => inr f
  | VInt z =>
      match float_of_int z with
      | Some f => inr f
      | None => inl (Exn OverflowError "int too large to convert to float" None)
      end
  | VBool b => inr (if b then 1%float else 0%float)
  | VStr s =>
      match float_of_str s with
      | Some f => inr f
      | None => inl (Exn ValueError
                       ("could not convert string to float: " +:+ repr_str s) None)
      end
  | v => inl (Exn TypeError
                ("float() argument must be a string or a real number, not '"
                   +:+ type_name v +:+ "'") None)
  end.

(** The [VerificationResult(...)] call that ends
    [_parse_claude_response]; its arguments are evaluated in order. *)
Definition build_result (j : Judge) (response_data : value)
    (submission_id task_id : string) : exn + VerificationResult :=
  match get response_data "is_valid" (VBool false) with
  | inl e => inl e
  | inr is_valid =>
      match get response_data "score" (VFloat 0%float) with
      | inl e => inl e
      | inr score =>
          match float_ score with
          | inl e => inl e
          | inr ai_score =>
              match get response_data "feedback" (VStr "No feedback provided") with
              | inl e => inl e
              | inr feedback =>
                  inr {| submission_id := submission_id;
                         task_id := task_id;
                         is_valid := is_valid;
                         ai_score := ai_score;
                         feedback := feedback;
                         model_used := "claude-3-5-sonnet-20241022";
                         verification_timestamp := Some (time_time j);
                         execution_time_ms := 0 |}
              end
          end
      end
  end.

Definition _parse_claude_response (j : Judge) (response_text : string)
    (submission_id task_id : string) : exn + VerificationResult :=
  match json_loads response_text with
  | inr response_data => build_result j response_data submission_id task_id
  | inl e =>
      match exn_cls e with
      | JSONDecodeError =>
          match re_search_braces response_text with
          | Some json_match =>
              match json_loads json_match with
              | inr response_data =>
                  build_result j response_data submission_id task_id
              | inl e' => inl e'
              end
          | None =>
              inl (Exn VerificationError
                     ("Could not parse Claude response: " +:+ response_text) None)
          end
      | _ => inl e
      end
  end.

(** [ClaudeVerificationClient.__init__]: the key in use, or the
    [ValueError] raised when there is none. *)
Definition ClaudeVerificationClient (j : Judge) (api_key : option string)
  : exn + string :=
  let api_key :=
    match api_key with
    | None => CLAUDE_API_KEY j
    | Some k => Some k
    end in
  match api_key with
  | Some (String c k) => inr (String c k)
  | _ => inl (Exn ValueError
                "CLAUDE_API_KEY not set in environment or passed as argument" None)
  end.

(** The body of the [try] in [ClaudeVerificationClient.verify_submission].
    The prompt is rendered from the task and the submission and sent;
    rendering raises nothing, and the judge's reply is an input. *)
Definition verify_attempt (j : Judge) (submission_id task_id : string)
    (timeout_seconds : Z) : exn + VerificationResult :=
  match reply j with
  | inl e => inl e
  | inr response_text =>
      match _parse_claude_response j response_text submission_id task_id with
      | inl e => inl e
      | inr result =>
          let execution_time := elapsed_ms j in
          let result := set_execution_time_ms result execution_time in
          if timeout_seconds * 1000 <? execution_time then
            inl (Exn TimeoutError
                   (timeout_text execution_time timeout_seconds) None)
          else inr result
      end
  end.

(** [ClaudeVerificationClient.verify_submission] *)
Definition client_verify_submission (j : Judge) (submission_id task_id : string)
    (timeout_seconds : Z) : exn + VerificationResult :=
  match verify_attempt j submission_id task_id timeout_seconds with
  | inr result => inr result
  | inl e => inl (Exn VerificationError ("Verification failed: " +:+ str e) (Some e))
  end.

(** The module-level [verify_submission]: builds a client, then
    calls it with the default budget of 30 seconds. *)
Definition verify_submission (j : Judge) (submission_id task_id : string)
    (api_key : option string) : exn + VerificationResult :=
  match ClaudeVerificationClient j api_key with
  | inl e => inl e
  | inr _ => client_verify_submission j submission_id task_id 30
  end.

End with_runtime.

End claude_verification.

(** ** [frontend/services.py]

    The hosted tables are lists of rows, oldest first.  A [select] with
    [.eq(column, x)] keeps the rows whose column equals [x], an
    [update] rewrites every such row, and an [insert] appends the row
    and answers with it.  Storage is taken to be reliable: its calls
    raise nothing. *)

Module services.

Record Task := {
  t_id : string;
  t_developer_id : string;
  t_title : string;
  t_description : string;
  t_task_type : string;
  t_difficulty_level : string;
  t_reward_per_submission : float;
  t_total_budget : float;
  t_verification_criteria : value;
  t_instructions : value;
  t_max_submissions : option Z;
  t_status : string;
  t_current_submissions : Z;
  t_created_at : string;
}.

Record User := {
  u_id : string;
  u_wallet_address : string;
  u_username : string;
  u_reputation_score : Z;
  u_total_tasks_completed : Z;
  u_total_rewards_earned : Z;
  u_created_at : string;
}.

Record Submission := {
  s_id : string;
  s_task_id : string;
  s_user_id : string;
  s_submission_data : value;
  s_ai_score : option float;
  s_is_valid : option value;
  s_feedback : option value;
  s_reward_earned : float;
  s_is_paid : bool;
  s_created_at : string;
}.

Record ReputationEvent := {
  e_id : string;
  e_user_id : string;
  e_event_type : string;
  e_reason : value;
  e_delta : Z;
  e_created_at : string;
}.

(** The four tables, and how many identifiers and clock readings
    have been taken so far. *)
Record Db := {
  tasks : list Task;
  users : list User;
  submissions : list Submission;
  reputation_events : list ReputationEvent;
  uuids_drawn : nat;
  clock_reads : nat;
}.

Definition with_tasks (f : list Task -> list Task) (db : Db) : Db :=
  {| tasks := f (tasks db); users := users db; submissions := submissions db;
     reputation_events := reputation_events db;
     uuids_drawn := uuids_drawn db; clock_reads := clock_reads db |}.

Definition with_users (f : list User -> list User) (db : Db) : Db :=
  {| tasks := tasks db; users := f (users db); submissions := submissions db;
     reputation_events := reputation_events db;
     uuids_drawn := uuids_drawn db; clock_reads := clock_reads db |}.

Definition with_submissions (f : list Submission -> list Submission) (db : Db) : Db :=
  {| tasks := tasks db; users := users db; submissions := f (submissions db);
     reputation_events := reputation_events db;
     uuids_drawn := uuids_drawn db; clock_reads := clock_reads db |}.

Definition with_reputation_events
    (f : list ReputationEvent -> list ReputationEvent) (db : Db) : Db :=
  {| tasks := tasks db; users := users db; submissions := submissions db;
     reputation_events := f (reputation_events db);
     uuids_drawn := uuids_drawn db; clock_reads := clock_reads db |}.

Definition set_current_submissions (n : Z) (t : Task) : Task :=
  {| t_id := t_id t; t_developer_id := t_developer_id t; t_title := t_title t;
     t_description := t_description t; t_task_type := t_task_type t;
     t_difficulty_level := t_difficulty_level t;
     t_reward_per_submission := t_reward_per_submission t;
     t_total_budget := t_total_budget t;
     t_verification_criteria := t_verification_criteria t;
     t_instructions := t_instructions t;
     t_max_submissions := t_max_submissions t; t_status := t_status t;
     t_current_submissions := n; t_created_at := t_created_at t |}.

Definition set_reputation_score (n : Z) (u : User) : User :=
  {| u_id := u_id u; u_wallet_address := u_wallet_address u;
     u_username := u_username u; u_reputation_score := n;
     u_total_tasks_completed := u_total_tasks_completed u;
     u_total_rewards_earned := u_total_rewards_earned u;
     u_created_at := u_created_at u |}.

(** What a nullable column holds once a Python value was written to
    it: [None] is stored as null, which is also what the column of a
    row holds before it was ever written. *)
Definition nullable (v : value) : option value :=
  match v with
  | VNone => None
  | v => Some v
  end.

Definition set_verification (ai_score : float) (is_valid feedback : value)
    (reward_earned : float) (s : Submission) : Submission :=
  {| s_id := s_id s; s_task_id := s_task_id s; s_user_id := s_user_id s;
     s_submission_data := s_submission_data s;
     s_ai_score := Some ai_score; s_is_valid := nullable is_valid;
     s_feedback := nullable feedback; s_reward_earned := reward_earned;
     s_is_paid := s_is_paid s; s_created_at := s_created_at s |}.

(** [.update(fields).eq(column, x)]: rewrite the matching rows. *)
Definition update_where {A : Type} (p : A -> bool) (f : A -> A) (rows : list A)
  : list A :=
  List.map (fun r => if p r then f r else r) rows.

Section with_runtime.
Context {rt : Runtime}.

Definition draw_uuid : St Db string :=
  fun db =>
    (uuid4 (uuids_drawn db),
     {| tasks := tasks db; users := users db; submissions := submissions db;
        reputation_events := reputation_events db;
        uuids_drawn := S (uuids_drawn db); clock_reads := clock_reads db |}).

Definition read_clock : St Db string :=
  fun db =>
    (utcnow (clock_reads db),
     {| tasks := tasks db; users := users db; submissions := submissions db;
        reputation_events := reputation_events db;
        uuids_drawn := uuids_drawn db; clock_reads := S (clock_reads db) |}).

(** *** [TaskService] *)

Definition get_task (task_id : string) : St Db (option Task) :=
  rows <- gets (fun db => List.filter (fun t => String.eqb (t_id t) task_id) (tasks db)) ;;
  ret (List.head rows).

Definition update_task_submission_count (task_id : string) : St Db unit :=
  task <- gets (fun db => List.filter (fun t => String.eqb (t_id t) task_id) (tasks db)) ;;
  match task with
  | [] => ret tt
  | row :: _ =>
      let current := t_current_submissions row in
      modify (with_tasks
                (update_where (fun t => String.eqb (t_id t) task_id)
                              (set_current_submissions (current + 1))))
  end.

(** *** [UserService] *)

Definition get_or_create_user (wallet_address : string) (username : option string)
  : St Db User :=
  response <- gets (fun db =>
    List.filter (fun u => String.eqb (u_wallet_address u) wallet_address) (users db)) ;;
  match response with
  | row :: _ => ret row
  | [] =>
      user_id <- draw_uuid ;;
      let username :=
        match username with
        | Some (String c n) => String c n
        | _ => "miner_" +:+ String.substring 0 8 wallet_address
        end in
      created_at <- read_clock ;;
      let user_data :=
        {| u_id := user_id;
           u_wallet_address := wallet_address;
           u_username := username;
           u_reputation_score := 50;
           u_total_tasks_completed := 0;
           u_total_rewards_earned := 0;
           u_created_at := created_at |} in
      modify (with_users (fun rows => (rows ++ [user_data])%list)) ;;;
      ret user_data
  end.

Definition get_user_by_wallet (wallet_address : string) : St Db (option User) :=
  response <- gets (fun db =>
    List.filter (fun u => String.eqb (u_wallet_address u) wallet_address) (users db)) ;;
  ret (List.head response).

Definition update_user_reputation (user_id : string) (delta : Z) : St Db unit :=
  user <- gets (fun db => List.filter (fun u => String.eqb (u_id u) user_id) (users db)) ;;
  match user with
  | [] => ret tt
  | row :: _ =>
      let current_rep := u_reputation_score row in
      let new_rep := Z.max 0 (Z.min 100 (current_rep + delta)) in
      modify (with_users
                (update_where (fun u => String.eqb (u_id u) user_id)
                              (set_reputation_score new_rep)))
  end.

(** *** [SubmissionService] *)

Definition create_submission (task_id user_id : string) (submission_data : value)
  : St Db Submission :=
  submission_id <- draw_uuid ;;
  created_at <- read_clock ;;
  let submission_obj :=
    {| s_id := submission_id;
       s_task_id := task_id;
       s_user_id := user_id;
       s_submission_data := submission_data;
       s_ai_score := None;
       s_is_valid := None;
       s_feedback := None;
       s_reward_earned := 0;
       s_is_paid := false;
       s_created_at := created_at |} in
  modify (with_submissions (fun rows => (rows ++ [submission_obj])%list)) ;;;
  ret submission_obj.

Definition get_submission (submission_id : string) : St Db (option Submission) :=
  response <- gets (fun db =>
    List.filter (fun s => String.eqb (s_id s) submission_id) (submissions db)) ;;
  ret (List.head response).

Definition update_submission_verification (submission_id : string)
    (ai_score : float) (is_valid feedback : value) (reward_earned : float)
  : St Db unit :=
  modify (with_submissions
            (update_where (fun s => String.eqb (s_id s) submission_id)
                          (set_verification ai_score is_valid feedback reward_earned))).

(** *** [ReputationService] *)

Definition create_reputation_event (user_id event_type : string) (reason : value)
    (delta : Z) : St Db unit :=
  event_id <- draw_uuid ;;
  created_at <- read_clock ;;
  let event_data :=
    {| e_id := event_id;
       e_user_id := user_id;
       e_event_type := event_type;
       e_reason := reason;
       e_delta := delta;
       e_created_at := created_at |} in
  modify (with_reputation_events (fun rows => (rows ++ [event_data])%list)) ;;;
  update_user_reputation user_id delta.

End with_runtime.

End services.

(** ** [main.py]: the handler backed by the storage services *)

Module main.
Import claude_verification services.

Record SubmitInferenceRequest := {
  miner_wallet : string;
  submission_data : value;
}.

(** The JSON body of a successful answer. *)
Record Response := {
  r_status : string;
  r_submission_id : string;
  r_verification : VerificationResult;
  r_reward_earned : float;
}.

Section with_runtime.
Context {rt : Runtime}.

(** The call that opens the inner [try]: the task type is looked
    up, then the submission is verified. *)
Definition verify (j : Judge) (task : Task) (submission : Submission)
    (task_id : string) : exn + VerificationResult :=
  match TaskType_of (t_task_type task) with
  | inl e => inl e
  | inr _ => verify_submission j (s_id submission) task_id None
  end.

(** The handler's steps between finding the task and the inner
    [try]: the user is found or created, then a pending submission
    is stored.  The properties below name their results. *)
Definition enter_pending (task_id : string) (request : SubmitInferenceRequest)
  : St Db (User * Submission) :=
  user <- get_or_create_user (miner_wallet request) None ;;
  submission <- create_submission task_id (u_id user) (submission_data request) ;;
  ret (user, submission).

Definition submit_inference (j : Judge) (task_id : string)
    (request : SubmitInferenceRequest) : St Db (HTTPException + Response) :=
  task <- get_task task_id ;;
  match task with
  | None => ret (inl {| status_code := 404; detail := "Task not found" |})
  | Some task =>
      user <- get_or_create_user (miner_wallet request) None ;;
      submission <- create_submission task_id (u_id user) (submission_data request) ;;
      match verify j task submission task_id with
      | inr verification_result =>
          let reward_earned :=
            (t_reward_per_submission task * ai_score verification_result)%float in
          update_submission_verification (s_id submission)
            (ai_score verification_result) (is_valid verification_result)
            (feedback verification_result) reward_earned ;;;
          let '(reputation_delta, event_type) :=
            if truthy (is_valid verification_result)
            then (5, "submission_accepted")
            else (-2, "submission_rejected") in
          create_reputation_event (u_id user) event_type
            (feedback verification_result) reputation_delta ;;;
          update_task_submission_count task_id ;;;
          ret (inr {| r_status := "success";
                      r_submission_id := s_id submission;
                      r_verification := verification_result;
                      r_reward_earned := reward_earned |})
      | inl e =>
          update_submission_verification (s_id submission) 0 (VBool false)
            (VStr ("Verification error: " +:+ str e)) 0 ;;;
          create_reputation_event (u_id user) "submission_rejected"
            (VStr "Verification failed") (-1) ;;;
          ret (inl {| status_code := 500;
                      detail := "Verification failed: " +:+ str e |})
      end
  end.

End with_runtime.

End main.

(** ** [backend/app.py]: the handler backed by in-memory dicts,
    with a mock verifier *)

Module app.
Import claude_verification.

Record Task := {
  id : string;
  title : string;
  description : string;
  task_type : string;
  difficulty_level : string;
  reward_per_submission : float;
  total_budget : float;
  max_submissions : option Z;
  verification_criteria : value;
  instructions : value;
  created_at : string;
  status : string;
  current_submissions : Z;
}.

(** The keys written when the submission is verified. *)
Record Verified := {
  v_ai_score : float;
  v_is_valid : value;
  v_feedback : value;
  v_reward_earned : float;
  v_verified_at : string;
  v_model_used : string;
  v_verification_time_ms : Z;
  v_verification_type : string;
}.

Record Submission := {
  sub_id : string;
  sub_task_id : string;
  sub_submission_data : value;
  sub_created_at : string;
  sub_status : string;
  sub_verified : option Verified;
}.

(** The module's two global dicts. *)
Record State := {
  tasks_db : gmap string Task;
  submissions_db : gmap string Submission;
  uuids_drawn : nat;
  clock_reads : nat;
}.

Record Verification := {
  a_is_valid : value;
  a_ai_score : float;
  a_feedback : value;
  a_model_used : string;
  a_verification_time_ms : Z;
  a_verification_type : string;
}.

Record Response := {
  r_status : string;
  r_submission_id : string;
  r_verification : Verification;
  r_reward_earned : float;
  r_message : string;
}.

Definition get_mock_verification_result_object (submission_id task_id : string)
    (submission_data : value) : VerificationResult :=
  {| claude_verification.submission_id := submission_id;
     claude_verification.task_id := task_id;
     is_valid := VBool true;
     ai_score := 0.85;
     feedback :=
       VStr "Mock verification: Submission appears correct based on task requirements";
     model_used := "mock-verifier";
     verification_timestamp := None;
     execution_time_ms := 100 |}.

Definition increment_submissions (t : Task) : Task :=
  {| id := id t; title := title t; description := description t;
     task_type := task_type t; difficulty_level := difficulty_level t;
     reward_per_submission := reward_per_submission t;
     total_budget := total_budget t; max_submissions := max_submissions t;
     verification_criteria := verification_criteria t;
     instructions := instructions t; created_at := created_at t;
     status := status t; current_submissions := current_submissions t + 1 |}.

Definition complete (v : Verified) (s : Submission) : Submission :=
  {| sub_id := sub_id s; sub_task_id := sub_task_id s;
     sub_submission_data := sub_submission_data s;
     sub_created_at := sub_created_at s;
     sub_status := "completed"; sub_verified := Some v |}.

Section with_runtime.
Context {rt : Runtime}.

Definition draw_uuid : St State string :=
  fun st =>
    (uuid4 (uuids_drawn st),
     {| tasks_db := tasks_db st; submissions_db := submissions_db st;
        uuids_drawn := S (uuids_drawn st); clock_reads := clock_reads st |}).

Definition read_clock : St State string :=
  fun st =>
    (utcnow (clock_reads st),
     {| tasks_db := tasks_db st; submissions_db := submissions_db st;
        uuids_drawn := uuids_drawn st; clock_reads := S (clock_reads st) |}).

Definition with_submissions_db
    (f : gmap string Submission -> gmap string Submission) (st : State) : State :=
  {| tasks_db := tasks_db st; submissions_db := f (submissions_db st);
     uuids_drawn := uuids_drawn st; clock_reads := clock_reads st |}.

Definition with_tasks_db (f : gmap string Task -> gmap string Task) (st : State)
  : State :=
  {| tasks_db := f (tasks_db st); submissions_db := submissions_db st;
     uuids_drawn := uuids_drawn st; clock_reads := clock_reads st |}.

(** The body of the [try]: the task type is looked up, then the
    submission is verified. *)
Definition live (j : Judge) (task : Task) (submission_id task_id : string)
  : exn + VerificationResult :=
  match TaskType_of (task_type task) with
  | inl e => inl e
  | inr _ => verify_submission j submission_id task_id None
  end.

(** The [if CLAUDE_AVAILABLE: try ... except ... else ...] block:
    the verdict in use and how it was obtained. *)
Definition choose_verification (CLAUDE_AVAILABLE : bool) (j : Judge)
    (task : Task) (submission_id task_id : string) (submission_data : value)
  : VerificationResult * string :=
  if CLAUDE_AVAILABLE then
    match live j task submission_id task_id with
    | inr verification_result => (verification_result, "claude_ai")
    | inl claude_error =>
        (get_mock_verification_result_object submission_id task_id submission_data,
         "mock_fallback")
    end
  else
    (get_mock_verification_result_object submission_id task_id submission_data,
     "mock").

Definition submit_inference (CLAUDE_AVAILABLE : bool) (j : Judge)
    (task_id : string) (submission_data : value)
  : St State (HTTPException + Response) :=
  task <- gets (fun st => tasks_db st !! task_id) ;;
  match task with
  | None => ret (inl {| status_code := 404; detail := "Task not found" |})
  | Some task =>
      submission_id <- draw_uuid ;;
      created <- read_clock ;;
      modify (with_submissions_db
                <[submission_id :=
                    {| sub_id := submission_id;
                       sub_task_id := task_id;
                       sub_submission_data := submission_data;
                       sub_created_at := created;
                       sub_status := "pending";
                       sub_verified := None |}]>) ;;;
      let '(verification_result, verification_type) :=
        choose_verification CLAUDE_AVAILABLE j task submission_id task_id
          submission_data in
      let reward_earned :=
        (reward_per_submission task * ai_score verification_result)%float in
      verified_at <- read_clock ;;
      modify (with_submissions_db
                (alter (complete
                          {| v_ai_score := ai_score verification_result;
                             v_is_valid := is_valid verification_result;
                             v_feedback := feedback verification_result;
                             v_reward_earned := reward_earned;
                             v_verified_at := verified_at;
                             v_model_used := model_used verification_result;
                             v_verification_time_ms :=
                               execution_time_ms verification_result;
                             v_verification_type := verification_type |})
                       submission_id)) ;;;
      modify (with_tasks_db (alter increment_submissions task_id)) ;;;
      ret (inr {| r_status := "success";
                  r_submission_id := submission_id;
                  r_verification :=
                    {| a_is_valid := is_valid verification_result;
                       a_ai_score := ai_score verification_result;
                       a_feedback := feedback verification_result;
                       a_model_used := model_used verification_result;
                       a_verification_time_ms :=
                         execution_time_ms verification_result;
                       a_verification_type := verification_type |};
                  r_reward_earned := reward_earned;
                  r_message :=
                    "Submission verified successfully using "
                      +:+ verification_type |})
  end.

End with_runtime.

End app.

(** ** Two notions as the specification words them

    The specification clamps the reputation with [clamp], and
    describes the fallback of the verdict parser as taking the first
    balanced brace-delimited substring. *)

Module Spec.
Import claude_verification.

(** [clamp(x, lo, hi)] *)
Definition clamp (x lo hi : Z) : Z :=
  if x <? lo then lo else if hi <? x then hi else x.

(** The text up to the brace that closes the current one; [depth]
    counts the braces opened since. *)
Fixpoint close_brace (depth : nat) (s : string) : option string :=
  match s with
  | EmptyString => None
  | String c r =>
      if Ascii.eqb c "}" then
        match depth with
        | O => Some (String c EmptyString)
        | S d => option_map (String c) (close_brace d r)
        end
      else if Ascii.eqb c "{" then option_map (String c) (close_brace (S depth) r)
      else option_map (String c) (close_brace depth r)
  end.

(** The balanced brace-delimited substring that starts first. *)
Fixpoint first_balanced (s : string) : option string :=
  match s with
  | EmptyString => None
  | String c r =>
      if Ascii.eqb c "{" then
        match close_brace 0 r with
        | Some body => Some (String c body)
        | None => first_balanced r
        end
      else first_balanced r
  end.

(** The two-stage parse with that extraction in place of the
    regular expression. *)
Definition parse_verdict {rt : Runtime} (j : Judge) (response_text : string)
    (submission_id task_id : string) : exn + VerificationResult :=
  match json_loads response_text with
  | inr response_data => build_result j response_data submission_id task_id
  | inl e =>
      match exn_cls e with
      | JSONDecodeError =>
          match first_balanced response_text with
          | Some json_match =>
              match json_loads json_match with
              | inr response_data =>
                  build_result j response_data submission_id task_id
              | inl e' => inl e'
              end
          | None =>
              inl (Exn VerificationError
                     ("Could not parse Claude response: " +:+ response_text) None)
          end
      | _ => inl e
      end
  end.

End Spec.

(** ** [frontend/services.py]: creating a task *)

Module services_tasks.
Import services.

Section with_runtime.
Context {rt : Runtime}.

(** [TaskService.create_task]: the developer gets a random identifier
    when none (or an empty one) is given. *)
Definition create_task (title description task_type difficulty_level : string)
    (reward_per_submission total_budget : float)
    (verification_criteria instructions : value)
    (max_submissions : option Z) (developer_id : option string) : St Db Task :=
  task_id <- draw_uuid ;;
  developer_id <-
    match developer_id with
    | Some (String c s) => ret (String c s)
    | _ => draw_uuid
    end ;;
  created_at <- read_clock ;;
  let task_data :=
    {| t_id := task_id;
       t_developer_id := developer_id;
       t_title := title;
       t_description := description;
       t_task_type := task_type;
       t_difficulty_level := difficulty_level;
       t_reward_per_submission := reward_per_submission;
       t_total_budget := total_budget;
       t_verification_criteria := verification_criteria;
       t_instructions := instructions;
       t_max_submissions := max_submissions;
       t_status := "active";
       t_current_submissions := 0;
       t_created_at := created_at |} in
  modify (with_tasks (fun rows => (rows ++ [task_data])%list)) ;;;
  ret task_data.

End with_runtime.

End services_tasks.

(** ** [main.py]: the other endpoints

    An answer is modelled by its payload; the constant
    [status: success] entry is left out. *)

Module main_endpoints.
Import services.

Record CreateTaskRequest := {
  title : string;
  description : string;
  task_type : string;
  difficulty_level : string;
  reward_per_submission : float;
  total_budget : float;
  max_submissions : option Z;
  verification_criteria : value;
  instructions : value;
}.

(** The answer of [get_miner_reputation]. *)
Record Reputation := {
  wallet : string;
  reputation_score : Z;
  total_tasks_completed : Z;
  total_rewards_earned : Z;
}.

Section with_runtime.
Context {rt : Runtime}.

Definition create_task (request : CreateTaskRequest) : St Db (HTTPException + Task) :=
  task <- services_tasks.create_task (title request) (description request)
            (task_type request) (difficulty_level request)
            (reward_per_submission request) (total_budget request)
            (verification_criteria request) (instructions request)
            (max_submissions request) None ;;
  ret (inr task).

Definition get_task (task_id : string) : St Db (HTTPException + Task) :=
  task <- services.get_task task_id ;;
  match task with
  | None => ret (inl {| status_code := 404; detail := "Task not found" |})
  | Some task => ret (inr task)
  end.

Definition get_submission_status (task_id submission_id : string)
  : St Db (HTTPException + Submission) :=
  submission <- get_submission submission_id ;;
  match submission with
  | None => ret (inl {| status_code := 404; detail := "Submission not found" |})
  | Some submission => ret (inr submission)
  end.

Definition get_miner_reputation (wallet_address : string)
  : St Db (HTTPException + Reputation) :=
  user <- get_user_by_wallet wallet_address ;;
  match user with
  | None => ret (inl {| status_code := 404; detail := "User not found" |})
  | Some user =>
      ret (inr {| wallet := wallet_address;
                  reputation_score := u_reputation_score user;
                  total_tasks_completed := u_total_tasks_completed user;
                  total_rewards_earned := u_total_rewards_earned user |})
  end.

End with_runtime.

End main_endpoints.

(** ** [backend/app.py]: the other endpoints *)

Module app_endpoints.
Import app.

Record CreateTaskRequest := {
  q_title : string;
  q_description : string;
  q_task_type : string;
  q_difficulty_level : string;
  q_reward_per_submission : float;
  q_total_budget : float;
  q_max_submissions : option Z;
  q_verification_criteria : value;
  q_instructions : value;
}.

(** The answer of [create_task]. *)
Record Created := {
  c_task_id : string;
  c_message : string;
  c_data : CreateTaskRequest;
}.

Section with_runtime.
Context {rt : Runtime}.

Definition create_task (task_data : CreateTaskRequest)
  : St State (HTTPException + Created) :=
  task_id <- draw_uuid ;;
  created <- read_clock ;;
  modify (with_tasks_db
            <[task_id :=
                {| id := task_id;
                   title := q_title task_data;
                   description := q_description task_data;
                   task_type := q_task_type task_data;
                   difficulty_level := q_difficulty_level task_data;
                   reward_per_submission := q_reward_per_submission task_data;
                   total_budget := q_total_budget task_data;
                   max_submissions := q_max_submissions task_data;
                   verification_criteria := q_verification_criteria task_data;
                   instructions := q_instructions task_data;
                   created_at := created;
                   status := "active";
                   current_submissions := 0 |}]>) ;;;
  ret (inr {| c_task_id := task_id;
              c_message := "Task created successfully";
              c_data := task_data |}).

Definition get_task (task_id : string) : St State (HTTPException + Task) :=
  task <- gets (fun st => tasks_db st !! task_id) ;;
  match task with
  | None => ret (inl {| status_code := 404; detail := "Task not found" |})
  | Some task => ret (inr task)
  end.

Definition get_submission_status (task_id submission_id : string)
  : St State (HTTPException + Submission) :=
  submission <- gets (fun st => submissions_db st !! submission_id) ;;
  match submission with
  | None => ret (inl {| status_code := 404; detail := "Submission not found" |})
  | Some submission => ret (inr submission)
  end.

End with_runtime.

End app_endpoints.

(** ** [backend/production_main.py]: the handler without a mock

    Tasks are the dicts of [backend/app.py]; a submission ends
    [completed] or [failed]. *)

Module production_main.
Import claude_verification.

(** The keys written when the submission leaves [pending]; the last
    two are written on completion only. *)
Record Outcome := {
  o_ai_score : float;
  o_is_valid : value;
  o_feedback : value;
  o_reward_earned : float;
  o_verified_at : string;
  o_model_used : option string;
  o_verification_time_ms : option Z;
}.

Record Submission := {
  sub_id : string;
  sub_task_id : string;
  sub_submission_data : value;
  sub_created_at : string;
  sub_status : string;
  sub_outcome : option Outcome;
}.

Record State := {
  tasks_db : gmap string app.Task;
  submissions_db : gmap string Submission;
  uuids_drawn : nat;
  clock_reads : nat;
}.

Record Verification := {
  a_is_valid : value;
  a_ai_score : float;
  a_feedback : value;
  a_model_used : string;
  a_verification_time_ms : Z;
}.

Record Response := {
  r_submission_id : string;
  r_verification : Verification;
  r_reward_earned : float;
  r_message : string;
}.

Definition finish (status : string) (o : Outcome) (s : Submission) : Submission :=
  {| sub_id := sub_id s; sub_task_id := sub_task_id s;
     sub_submission_data := sub_submission_data s;
     sub_created_at := sub_created_at s;
     sub_status := status; sub_outcome := Some o |}.

Definition with_submissions_db
    (f : gmap string Submission -> gmap string Submission) (st : State) : State :=
  {| tasks_db := tasks_db st; submissions_db := f (submissions_db st);
     uuids_drawn := uuids_drawn st; clock_reads := clock_reads st |}.

Definition with_tasks_db (f : gmap string app.Task -> gmap string app.Task)
    (st : State) : State :=
  {| tasks_db := f (tasks_db st); submissions_db := submissions_db st;
     uuids_drawn := uuids_drawn st; clock_reads := clock_reads st |}.

Section with_runtime.
Context {rt : Runtime}.

Definition draw_uuid : St State string :=
  fun st =>
    (uuid4 (uuids_drawn st),
     {| tasks_db := tasks_db st; submissions_db := submissions_db st;
        uuids_drawn := S (uuids_drawn st); clock_reads := clock_reads st |}).

Definition read_clock : St State string :=
  fun st =>
    (utcnow (clock_reads st),
     {| tasks_db := tasks_db st; submissions_db := submissions_db st;
        uuids_drawn := uuids_drawn st; clock_reads := S (clock_reads st) |}).

(** The call that opens the inner [try]. *)
Definition verify (j : Judge) (task : app.Task) (submission_id task_id : string)
  : exn + VerificationResult :=
  match TaskType_of (app.task_type task) with
  | inl e => inl e
  | inr _ => verify_submission j submission_id task_id None
  end.

(** What the two [except] clauses store and raise: the first takes a
    [VerificationError], the second anything else. *)
Definition failure_feedback (e : exn) : string :=
  match exn_cls e with
  | VerificationError => "Verification error: " +:+ str e
  | _ => "System error: " +:+ str e
  end.

Definition failure_detail (e : exn) : string :=
  match exn_cls e with
  | VerificationError => "Verification failed: " +:+ str e
  | _ => "System error during verification: " +:+ str e
  end.

Definition submit_inference (j : Judge) (task_id : string) (submission_data : value)
  : St State (HTTPException + Response) :=
  task <- gets (fun st => tasks_db st !! task_id) ;;
  match task with
  | None => ret (inl {| status_code := 404; detail := "Task not found" |})
  | Some task =>
      submission_id <- draw_uuid ;;
      created <- read_clock ;;
      modify (with_submissions_db
                <[submission_id :=
                    {| sub_id := submission_id;
                       sub_task_id := task_id;
                       sub_submission_data := submission_data;
                       sub_created_at := created;
                       sub_status := "pending";
                       sub_outcome := None |}]>) ;;;
      match verify j task submission_id task_id with
      | inr verification_result =>
          let reward_earned :=
            (app.reward_per_submission task * ai_score verification_result)%float in
          verified_at <- read_clock ;;
          modify (with_submissions_db
                    (alter (finish "completed"
                              {| o_ai_score := ai_score verification_result;
                                 o_is_valid := is_valid verification_result;
                                 o_feedback := feedback verification_result;
                                 o_reward_earned := reward_earned;
                                 o_verified_at := verified_at;
                                 o_model_used := Some (model_used verification_result);
                                 o_verification_time_ms :=
                                   Some (execution_time_ms verification_result) |})
                           submission_id)) ;;;
          modify (with_tasks_db (alter app.increment_submissions task_id)) ;;;
          ret (inr {| r_submission_id := submission_id;
                      r_verification :=
                        {| a_is_valid := is_valid verification_result;
                           a_ai_score := ai_score verification_result;
                           a_feedback := feedback verification_result;
                           a_model_used := model_used verification_result;
                           a_verification_time_ms :=
                             execution_time_ms verification_result |};
                      r_reward_earned := reward_earned;
                      r_message :=
                        "Submission verified successfully with Claude AI" |})
      | inl e =>
          verified_at <- read_clock ;;
          modify (with_submissions_db
                    (alter (finish "failed"
                              {| o_ai_score := 0;
                                 o_is_valid := VBool false;
                                 o_feedback := VStr (failure_feedback e);
                                 o_reward_earned := 0;
                                 o_verified_at := verified_at;
                                 o_model_used := None;
                                 o_verification_time_ms := None |})
                           submission_id)) ;;;
          ret (inl {| status_code := 500; detail := failure_detail e |})
      end
  end.

End with_runtime.

End production_main.

(** ** [backend/auth.py]: the JWKS cache, token verification and the
    wallet address of a token

    The HTTP request for the key set and [jose.jwt.decode] come from
    outside: the n-th request's outcome and the decoder are inputs
    (record [Outside]). *)

Module auth.
Import claude_verification.

(** An [HTTPException] with its [headers] argument. *)
Record Refusal := {
  exception : HTTPException;
  headers : list (string * string);
}.

(** What a function of this module raises: an [HTTPException], or an
    exception no clause of it catches. *)
Inductive raised : Type :=
  | Http (r : Refusal)
  | Uncaught (e : exn).

(** The outcome of fetching the key set: the decoded body, an
    [httpx.HTTPError] (a failed request or an error status), or
    another exception. *)
Inductive FetchOutcome : Type :=
  | Fetched (body : value)
  | HTTPError (msg : string)
  | FetchRaises (e : exn).

(** The outcome of [jwt.decode]: the payload, a [JWTError] with its
    message, or another exception. *)
Inductive DecodeOutcome : Type :=
  | Decoded (payload : value)
  | JWTError (msg : string)
  | DecodeRaises (e : exn).

Record Outside := {
  (** [os.getenv("DYNAMIC_ENVIRONMENT_ID")], read at import *)
  DYNAMIC_ENVIRONMENT_ID : option string;
  (** the outcome of the n-th request for the key set *)
  fetch : nat -> FetchOutcome;
  (** [jwt.decode(token, jwks, algorithms=["RS256"], ...)] *)
  jwt_decode : string -> value -> DecodeOutcome;
}.

(** The module's global [_jwks_cache] ([None] when it holds [None]),
    and how many requests were made. *)
Record State := {
  _jwks_cache : option value;
  requests_made : nat;
}.

Definition unauthorized (detail : string) (headers : list (string * string)) : raised :=
  Http {| exception := {| status_code := 401; detail := detail |};
          headers := headers |}.

Definition bearer : list (string * string) := [("WWW-Authenticate", "Bearer")].

(** What an assignment to the global leaves in it. *)
Definition cached (body : value) : option value :=
  match body with
  | VNone => None
  | v => Some v
  end.

Definition get_jwks (o : Outside) : St State (raised + value) :=
  fun st =>
    match _jwks_cache st with
    | Some jwks => (inr jwks, st)
    | None =>
        match DYNAMIC_ENVIRONMENT_ID o with
        | Some (String _ _) =>
            let st' := {| _jwks_cache := None;
                          requests_made := S (requests_made st) |} in
            match fetch o (requests_made st) with
            | Fetched body =>
                (inr body,
                 {| _jwks_cache := cached body;
                    requests_made := S (requests_made st) |})
            | HTTPError _ =>
                (inl (Http {| exception :=
                                {| status_code := 503;
                                   detail := "Could not reach Dynamic.xyz to verify credentials. Try again." |};
                              headers := [] |}), st')
            | FetchRaises e => (inl (Uncaught e), st')
            end
        | _ =>
            (inl (Http {| exception :=
                            {| status_code := 500;
                               detail := "DYNAMIC_ENVIRONMENT_ID is not set in environment variables" |};
                          headers := [] |}), st)
        end
    end.

Definition clear_jwks_cache : St State unit :=
  modify (fun st => {| _jwks_cache := None; requests_made := requests_made st |}).

(** [needle in text] for two [str]. *)
Fixpoint occurs_in (needle text : string) : bool :=
  String.prefix needle text
  || match text with
     | EmptyString => false
     | String _ rest => occurs_in needle rest
     end.

Definition invalid_token : raised :=
  unauthorized "Invalid or expired token. Please reconnect your wallet." bearer.

Definition verify_dynamic_token (o : Outside) (token : string)
  : St State (raised + value) :=
  jwks <- get_jwks o ;;
  match jwks with
  | inl r => ret (inl r)
  | inr jwks =>
      match jwt_decode o token jwks with
      | Decoded payload => ret (inr payload)
      | DecodeRaises e => ret (inl (Uncaught e))
      | JWTError error_msg =>
          if occurs_in "signature" (Builtins.lowercase error_msg) then
            clear_jwks_cache ;;;
            fresh_jwks <- get_jwks o ;;
            match fresh_jwks with
            | inl r => ret (inl r)
            | inr fresh_jwks =>
                match jwt_decode o token fresh_jwks with
                | Decoded payload => ret (inr payload)
                | DecodeRaises e => ret (inl (Uncaught e))
                | JWTError _ => ret (inl invalid_token)
                end
            end
          else ret (inl invalid_token)
      end
  end.

(** [x == s] for a [str] [s]. *)
Definition equals_str (x : value) (s : string) : bool :=
  match x with
  | VStr t => String.eqb t s
  | _ => false
  end.

(** What [for cred in credentials] goes through.  A [str] yields its
    characters and a [dict] its keys, each a [str]. *)
Definition items (credentials : value) : exn + list value :=
  match credentials with
  | VList l => inr l
  | VStr s => inr (List.map (fun c => VStr (String c EmptyString)) (list_ascii_of_string s))
  | VDict d => inr (List.map (fun kv => VStr (fst kv)) d)
  | v => inl (Exn TypeError ("'" +:+ type_name v +:+ "' object is not iterable") None)
  end.

(** One of the two loops: the address of the first credential of the
    given chain whose address is not empty. *)
Fixpoint first_on_chain (chain_name : string) (credentials : list value)
  : exn + option value :=
  match credentials with
  | [] => inr None
  | cred :: rest =>
      match get cred "chain" (VStr "") with
      | inl e => inl e
      | inr chain =>
          match get cred "address" (VStr "") with
          | inl e => inl e
          | inr address =>
              if equals_str chain chain_name && truthy address
              then inr (Some address)
              else first_on_chain chain_name rest
          end
      end
  end.

Definition extract_wallet_address (payload : value) : raised + value :=
  match get payload "verified_credentials" (VList []) with
  | inl e => inl (Uncaught e)
  | inr credentials =>
      if negb (truthy credentials) then
        inl (unauthorized "No verified wallet credentials found in token." [])
      else
        match items credentials with
        | inl e => inl (Uncaught e)
        | inr creds =>
            match first_on_chain "eip155" creds with
            | inl e => inl (Uncaught e)
            | inr (Some address) => inr address
            | inr None =>
                match first_on_chain "solana" creds with
                | inl e => inl (Uncaught e)
                | inr (Some address) => inr address
                | inr None =>
                    match creds with
                    | [] =>
                        (* not reached: what is iterated is not empty *)
                        inl (unauthorized
                               "No verified wallet credentials found in token." [])
                    | first :: _ =>
                        match get first "address" (VStr "") with
                        | inl e => inl (Uncaught e)
                        | inr first_address =>
                            if truthy first_address then inr first_address
                            else inl (unauthorized
                                        "Could not extract wallet address from token." [])
                        end
                    end
                end
            end
        end
  end.

(** A credential that the loop for a chain passes over: a dict
    that is not of the chain, or has no address. *)
Definition passed_over (chain_name : string) (cred : value) : bool :=
  match cred with
  | VDict d =>
      negb (equals_str (dict_get d "chain" (VStr "")) chain_name
            && truthy (dict_get d "address" (VStr "")))
  | _ => false
  end.

(** [require_developer]: every authenticated user may post tasks. *)
Definition require_developer {A : Type} (current_user : A) : A := current_user.

End auth.

(** ** Sample data

    A task paying 10.0 per submission, a miner whose reputation is 98,
    and judges that answer in the ways the pipeline distinguishes. *)

Module Sample.
Import claude_verification.

Definition wallet : string := "0x52908400098527886E0F7030069857D2E4169EE7".

Definition task : services.Task :=
  {| services.t_id := "task-1";
     services.t_developer_id := "dev-1";
     services.t_title := "Dogs or cats";
     services.t_description := "Say whether the text is about dogs or cats";
     services.t_task_type := "classification";
     services.t_difficulty_level := "easy";
     services.t_reward_per_submission := 10;
     services.t_total_budget := 1000;
     services.t_verification_criteria := VDict [("correct_answer", VStr "dogs")];
     services.t_instructions := VDict [("prompt", VStr "Is this text about dogs or cats?")];
     services.t_max_submissions := None;
     services.t_status := "active";
     services.t_current_submissions := 3;
     services.t_created_at := "2025-01-01T00:00:00" |}.

Definition user : services.User :=
  {| services.u_id := "user-1";
     services.u_wallet_address := wallet;
     services.u_username := "miner_0x529084";
     services.u_reputation_score := 98;
     services.u_total_tasks_completed := 0;
     services.u_total_rewards_earned := 0;
     services.u_created_at := "2025-01-01T00:00:00" |}.

Definition db : services.Db :=
  {| services.tasks := [task];
     services.users := [user];
     services.submissions := [];
     services.reputation_events := [];
     services.uuids_drawn := 0;
     services.clock_reads := 0 |}.

Definition request : main.SubmitInferenceRequest :=
  {| main.miner_wallet := wallet;
     main.submission_data := VDict [("answer", VStr "dogs")] |}.

(** A judge that answers [text] after [ms] milliseconds. *)
Definition answers (text : string) (ms : Z) : Judge :=
  {| CLAUDE_API_KEY := Some "sk-test";
     reply := inr text;
     elapsed_ms := ms;
     time_time := 1700000000 |}.

(** A judge whose call raises. *)
Definition unreachable : Judge :=
  {| CLAUDE_API_KEY := Some "sk-test";
     reply := inl (Exn JudgeError "rate limited" None);
     elapsed_ms := 5;
     time_time := 1700000000 |}.

Definition plain_verdict : string :=
  dq "{'is_valid':true,'score':0.72,'feedback':'ok'}".

Definition wrapped_verdict : string :=
  dq "Sure! {'is_valid': false, 'score': 0.1, 'feedback': 'bad'} thanks".

Definition refusal : string := "I cannot comply".

Definition two_braces : string :=
  dq "{'is_valid': true, 'score': 0.9, 'feedback': 'ok'} I hope this helps {smile}".

Definition overscored : string :=
  dq "{'is_valid': true, 'score': 5, 'feedback': 'superb'}".

Definition mock_scored : string :=
  dq "{'is_valid': true, 'score': 0.85, 'feedback': 'fine'}".

Definition app_task : app.Task :=
  {| app.id := "task-1";
     app.title := "Dogs or cats";
     app.description := "Say whether the text is about dogs or cats";
     app.task_type := "classification";
     app.difficulty_level := "easy";
     app.reward_per_submission := 10;
     app.total_budget := 1000;
     app.max_submissions := None;
     app.verification_criteria := VDict [("correct_answer", VStr "dogs")];
     app.instructions := VDict [("prompt", VStr "Is this text about dogs or cats?")];
     app.created_at := "2025-01-01T00:00:00";
     app.status := "active";
     app.current_submissions := 0 |}.

Definition app_state : app.State :=
  {| app.tasks_db := {[ "task-1" := app_task ]};
     app.submissions_db := ∅;
     app.uuids_drawn := 0;
     app.clock_reads := 0 |}.

End Sample.

(** ** More sample data

    A table with a second task, of a type the verifier does not know,
    a second miner and an earlier submission; requests to the other
    endpoints; tokens and a key-set service. *)

Module Cases.
Import claude_verification.

Definition new_wallet : string := "0x1111111111111111111111111111111111111111".

Definition second_wallet : string := "0xB0B0B0B0B0B0B0B0B0B0B0B0B0B0B0B0B0B0B0B0".

Definition odd_task : services.Task :=
  {| services.t_id := "task-2";
     services.t_developer_id := "dev-1";
     services.t_title := "A poem";
     services.t_description := "Write a poem about the sea";
     services.t_task_type := "poetry";
     services.t_difficulty_level := "hard";
     services.t_reward_per_submission := 4;
     services.t_total_budget := 100;
     services.t_verification_criteria := VDict [("rhymes", VBool true)];
     services.t_instructions := VDict [("prompt", VStr "Write a poem")];
     services.t_max_submissions := Some 10;
     services.t_status := "active";
     services.t_current_submissions := 0;
     services.t_created_at := "2025-01-02T00:00:00" |}.

Definition second_miner : services.User :=
  {| services.u_id := "user-2";
     services.u_wallet_address := second_wallet;
     services.u_username := "bob";
     services.u_reputation_score := 1;
     services.u_total_tasks_completed := 0;
     services.u_total_rewards_earned := 0;
     services.u_created_at := "2025-01-02T00:00:00" |}.

Definition earlier : services.Submission :=
  {| services.s_id := "sub-0";
     services.s_task_id := "task-1";
     services.s_user_id := "user-2";
     services.s_submission_data := VDict [("answer", VStr "cats")];
     services.s_ai_score := Some 0.2%float;
     services.s_is_valid := Some (VBool false);
     services.s_feedback := Some (VStr "wrong");
     services.s_reward_earned := 2;
     services.s_is_paid := false;
     services.s_created_at := "2025-01-03T00:00:00" |}.

Definition db : services.Db :=
  {| services.tasks := [Sample.task; odd_task];
     services.users := [Sample.user; second_miner];
     services.submissions := [earlier];
     services.reputation_events := [];
     services.uuids_drawn := 0;
     services.clock_reads := 0 |}.

(** A miner the table does not hold. *)
Definition newcomer : main.SubmitInferenceRequest :=
  {| main.miner_wallet := new_wallet;
     main.submission_data := VDict [("answer", VStr "dogs")] |}.

Definition second_request : main.SubmitInferenceRequest :=
  {| main.miner_wallet := second_wallet;
     main.submission_data := VDict [("answer", VStr "cats")] |}.

(** Verdicts whose score is null, an integer and a string. *)
Definition null_score : string :=
  dq "{'is_valid': true, 'score': null, 'feedback': 'ok'}".

Definition integer_score : string :=
  dq "{'is_valid': true, 'score': 1, 'feedback': 'ok'}".

Definition string_score : string :=
  dq "{'is_valid': 'yes', 'score': '0.5', 'feedback': 'ok'}".


(** A verdict that leaves the validity open. *)
Definition null_validity : string :=
  dq "{'is_valid': null, 'score': 0.5, 'feedback': 'unsure'}".

(** A judge with no API key in its environment. *)
Definition keyless : Judge :=
  {| CLAUDE_API_KEY := None;
     reply := inr Sample.plain_verdict;
     elapsed_ms := 5;
     time_time := 1700000000 |}.

Definition create_request : main_endpoints.CreateTaskRequest :=
  {| main_endpoints.title := "Sentiment";
     main_endpoints.description := "Say whether the review is positive";
     main_endpoints.task_type := "classification";
     main_endpoints.difficulty_level := "medium";
     main_endpoints.reward_per_submission := 2.5;
     main_endpoints.total_budget := 50;
     main_endpoints.max_submissions := None;
     main_endpoints.verification_criteria := VDict [("labels", VStr "pos/neg")];
     main_endpoints.instructions := VDict [("prompt", VStr "Positive or negative?")] |}.

Definition production_state : production_main.State :=
  {| production_main.tasks_db := {[ "task-1" := Sample.app_task ]};
     production_main.submissions_db := ∅;
     production_main.uuids_drawn := 0;
     production_main.clock_reads := 0 |}.

(** Credentials: a Solana wallet first, an EVM credential without
    address, an EVM wallet, and an entry that is no dict. *)
Definition credential (chain address : string) : value :=
  VDict [("address", VStr address); ("chain", VStr chain)].

Definition mixed_payload : value :=
  VDict [("sub", VStr "user-uuid");
         ("verified_credentials",
          VList [credential "solana" "So1ana"; credential "eip155" "";
                 credential "eip155" "0xE"; VInt 7])].

(** Credentials on other chains only, the first without address. *)
Definition other_chains_payload : value :=
  VDict [("verified_credentials",
          VList [credential "cosmos" ""; credential "bitcoin" "bc1"])].

(** A key-set service that rotates its key at every request, and a
    decoder that accepts the token under the second key set only. *)
Definition key_set (n : nat) : value :=
  VDict [("keys", VList [VInt (Z.of_nat n)])].

Definition outside : auth.Outside :=
  {| auth.DYNAMIC_ENVIRONMENT_ID := Some "env-1";
     auth.fetch := fun n => auth.Fetched (key_set n);
     auth.jwt_decode := fun token jwks =>
       match jwks with
       | VDict [(_, VList [VInt 1])] => auth.Decoded mixed_payload
       | _ => auth.JWTError "Signature verification failed."
       end |}.

Definition cold : auth.State :=
  {| auth._jwks_cache := None; auth.requests_made := 0 |}.

End Cases.

(** * Properties *)

(** Unfolds the monadic combinators. *)
Ltac run := unfold bind, gets, modify, ret in *; cbn beta iota in *.

(** ** Rows and tables *)

Lemma update_where_In {A : Type} (p : A -> bool) (f : A -> A) (rows : list A) (y : A) :
  In y (services.update_where p f rows) ->
  exists x, In x rows /\ y = (if p x then f x else x).
Proof.
  unfold services.update_where. intros Hy.
  apply in_map_iff in Hy. destruct Hy as [x [Hx Hin]]. exists x. auto.
Qed.

Lemma In_update_where {A : Type} (p : A -> bool) (f : A -> A) (rows : list A) (x : A) :
  In x rows -> In (if p x then f x else x) (services.update_where p f rows).
Proof.
  unfold services.update_where. intros Hx.
  apply in_map_iff. exists x. auto.
Qed.

Lemma filter_head_In {A : Type} (p : A -> bool) (rows : list A) (x : A) (rest : list A) :
  List.filter p rows = x :: rest -> In x rows /\ p x = true.
Proof.
  intros H. apply filter_In. rewrite H. left. reflexivity.
Qed.

Lemma clamp_max_min (x : Z) : Z.max 0 (Z.min 100 x) = Spec.clamp x 0 100.
Proof.
  unfold Spec.clamp.
  destruct (Z.ltb_spec x 0); [lia|].
  destruct (Z.ltb_spec 100 x); lia.
Qed.

Lemma clamp_range (x : Z) : 0 <= Spec.clamp x 0 100 <= 100.
Proof.
  unfold Spec.clamp.
  destruct (Z.ltb_spec x 0); [lia|].
  destruct (Z.ltb_spec 100 x); lia.
Qed.

(** ** Reputation *)

Section reputation.
Context {rt : Runtime}.
Import services.

(** The users table after a reputation update, when the user exists. *)
Lemma update_user_reputation_users user_id delta db row rest :
  List.filter (fun u => String.eqb (u_id u) user_id) (users db) = row :: rest ->
  users (snd (update_user_reputation user_id delta db)) =
    update_where (fun u => String.eqb (u_id u) user_id)
      (set_reputation_score (Spec.clamp (u_reputation_score row + delta) 0 100))
      (users db).
Proof.
  intros Hrow. unfold update_user_reputation. run. rewrite Hrow. cbn.
  rewrite clamp_max_min. reflexivity.
Qed.

Lemma update_user_reputation_absent user_id delta db :
  List.filter (fun u => String.eqb (u_id u) user_id) (users db) = [] ->
  snd (update_user_reputation user_id delta db) = db.
Proof.
  intros Hrow. unfold update_user_reputation. run. rewrite Hrow. reflexivity.
Qed.

(** The score stays within 0..100 whatever the table held. *)
Lemma update_user_reputation_range user_id delta db :
  (forall u, In u (users db) -> 0 <= u_reputation_score u <= 100) ->
  forall u, In u (users (snd (update_user_reputation user_id delta db))) ->
            0 <= u_reputation_score u <= 100.
Proof.
  intros Hinv u Hu.
  destruct (List.filter (fun u => String.eqb (u_id u) user_id) (users db))
    as [|row rest] eqn:Hrow.
  - rewrite update_user_reputation_absent in Hu by assumption. auto.
  - rewrite (update_user_reputation_users _ _ _ _ _ Hrow) in Hu.
    apply update_where_In in Hu. destruct Hu as [x [Hx ->]].
    destruct (String.eqb (u_id x) user_id); [apply clamp_range | auto].
Qed.

(** Recording an event leaves the users table to the reputation
    update alone. *)
Lemma create_reputation_event_users user_id event_type reason delta db :
  users (snd (create_reputation_event user_id event_type reason delta db)) =
  users (snd (update_user_reputation user_id delta db)).
Proof.
  unfold create_reputation_event, update_user_reputation, draw_uuid, read_clock.
  run. cbn.
  destruct (List.filter (fun u => String.eqb (u_id u) user_id) (users db));
    reflexivity.
Qed.

Lemma create_reputation_event_range user_id event_type reason delta db :
  (forall u, In u (users db) -> 0 <= u_reputation_score u <= 100) ->
  forall u, In u (users (snd (create_reputation_event user_id event_type reason delta db))) ->
            0 <= u_reputation_score u <= 100.
Proof.
  intros Hinv u Hu. rewrite create_reputation_event_users in Hu.
  exact (update_user_reputation_range _ _ _ Hinv _ Hu).
Qed.

(** C2. A reputation update persists [clamp(old_score + delta, 0, 100)]
    for the user it addresses, leaves every other user as it was, and
    so keeps every score within 0..100, also when it is made by
    recording a reputation event. *)
Theorem reputation_update_clamps user_id delta db row rest :
  List.filter (fun u => String.eqb (u_id u) user_id) (users db) = row :: rest ->
  let old_score := u_reputation_score row in
  let db' := snd (update_user_reputation user_id delta db) in
  (exists u', In u' (users db') /\ u_id u' = user_id) /\
  (forall u', In u' (users db') -> u_id u' = user_id ->
              u_reputation_score u' = Spec.clamp (old_score + delta) 0 100 /\
              0 <= u_reputation_score u' <= 100) /\
  (forall u', In u' (users db') -> u_id u' <> user_id -> In u' (users db)) /\
  ((forall u, In u (users db) -> 0 <= u_reputation_score u <= 100) ->
   (forall u, In u (users db') -> 0 <= u_reputation_score u <= 100) /\
   (forall event_type reason u,
      In u (users (snd (create_reputation_event user_id event_type reason delta db))) ->
      0 <= u_reputation_score u <= 100)).
Proof.
  intros Hrow old_score db'. subst db' old_score.
  pose proof (filter_head_In _ _ _ _ Hrow) as [Hin Hid].
  assert (Hmem : forall u',
    In u' (users (snd (update_user_reputation user_id delta db))) ->
    exists x, In x (users db) /\
      u' = (if String.eqb (u_id x) user_id
            then set_reputation_score
                   (Spec.clamp (u_reputation_score row + delta) 0 100) x
            else x)).
  { intros u' Hu'. rewrite (update_user_reputation_users _ _ _ _ _ Hrow) in Hu'.
    apply update_where_In in Hu'. exact Hu'. }
  split; [|split; [|split]].
  - exists (set_reputation_score
              (Spec.clamp (u_reputation_score row + delta) 0 100) row).
    split.
    + rewrite (update_user_reputation_users _ _ _ _ _ Hrow).
      pose proof (In_update_where (fun u => String.eqb (u_id u) user_id)
        (set_reputation_score (Spec.clamp (u_reputation_score row + delta) 0 100))
        _ row Hin) as H.
      cbn beta in H. rewrite Hid in H. exact H.
    + cbn. apply String.eqb_eq. exact Hid.
  - intros u' Hu' Hid'. destruct (Hmem u' Hu') as [x [Hx ->]].
    destruct (String.eqb (u_id x) user_id) eqn:E.
    + cbn. split; [reflexivity | apply clamp_range].
    + apply String.eqb_neq in E. contradiction.
  - intros u' Hu' Hne. destruct (Hmem u' Hu') as [x [Hx ->]].
    destruct (String.eqb (u_id x) user_id) eqn:E; [|assumption].
    apply String.eqb_eq in E. cbn in Hne. contradiction.
  - intros Hinv. split.
    + intros u Hu. exact (update_user_reputation_range _ _ _ Hinv _ Hu).
    + intros event_type reason u Hu.
      exact (create_reputation_event_range _ _ _ _ _ Hinv _ Hu).
Qed.

End reputation.

(** ** Users *)

Section users.
Context {rt : Runtime}.
Import services.

Lemma filter_none {A : Type} (p : A -> bool) (rows : list A) :
  (forall x, In x rows -> p x = false) -> List.filter p rows = [].
Proof.
  induction rows as [|x rows IH]; intros H; [reflexivity|].
  cbn. rewrite (H x (or_introl eq_refl)). apply IH.
  intros y Hy. apply H. right. exact Hy.
Qed.

(** C10. A wallet without a user record gets a new user with
    reputation 50 and both totals at 0, appended to the users table
    and returned; a wallet with a record gets the oldest such record
    back and nothing changes. *)
Theorem get_or_create_user_spec wallet_address username db :
  ((forall u, In u (users db) -> u_wallet_address u <> wallet_address) ->
   exists user,
     get_or_create_user wallet_address username db =
       (user, with_users (fun rows => (rows ++ [user])%list)
                (snd (read_clock (snd (draw_uuid db))))) /\
     u_reputation_score user = 50 /\
     u_total_tasks_completed user = 0 /\
     u_total_rewards_earned user = 0 /\
     u_wallet_address user = wallet_address /\
     u_id user = uuid4 (uuids_drawn db)) /\
  (forall row rest,
     List.filter (fun u => String.eqb (u_wallet_address u) wallet_address) (users db)
       = row :: rest ->
     get_or_create_user wallet_address username db = (row, db) /\
     In row (users db) /\ u_wallet_address row = wallet_address).
Proof.
  split.
  - intros Hnone.
    assert (Hf : List.filter (fun u => String.eqb (u_wallet_address u) wallet_address)
                   (users db) = []).
    { apply filter_none. intros x Hx. apply String.eqb_neq. auto. }
    unfold get_or_create_user. run. rewrite Hf.
    eexists. split; [reflexivity|]. cbn. repeat split; reflexivity.
  - intros row rest Hf.
    pose proof (filter_head_In _ _ _ _ Hf) as [Hin Hw].
    unfold get_or_create_user. run. rewrite Hf.
    repeat split; [assumption | apply String.eqb_eq; assumption].
Qed.

End users.

(** ** The verdict parser *)

Section parser.
Context {rt : Runtime}.
Import claude_verification.

Lemma append_nil (s : string) : EmptyString +:+ s = s.
Proof. reflexivity. Qed.

Lemma append_cons (a : ascii) (s t : string) :
  String a s +:+ t = String a (s +:+ t).
Proof. reflexivity. Qed.

Lemma from_first_skip c pre rest :
  Builtins.contains c pre = false ->
  from_first c (pre +:+ String c rest) = Some (String c rest).
Proof.
  induction pre as [|a pre IH]; rewrite ?append_nil, ?append_cons;
    cbn [from_first Builtins.contains]; intros H.
  - rewrite Ascii.eqb_refl. reflexivity.
  - apply orb_false_iff in H. destruct H as [Ha Hpre].
    rewrite Ascii.eqb_sym, Ha. auto.
Qed.

Lemma upto_last_none c post :
  Builtins.contains c post = false -> upto_last c post = None.
Proof.
  induction post as [|a post IH]; cbn [upto_last Builtins.contains]; intros H;
    [reflexivity|].
  apply orb_false_iff in H. destruct H as [Ha Hpost].
  rewrite (IH Hpost), Ascii.eqb_sym, Ha. reflexivity.
Qed.

Lemma upto_last_app c mid post :
  Builtins.contains c post = false ->
  upto_last c (mid +:+ String c post) = Some (mid +:+ String c EmptyString).
Proof.
  intros Hpost.
  induction mid as [|a mid IH]; rewrite ?append_nil, ?append_cons; cbn [upto_last].
  - rewrite (upto_last_none _ _ Hpost), Ascii.eqb_refl. reflexivity.
  - rewrite IH. reflexivity.
Qed.

(** The regular expression matches from the first opening brace to
    the last closing brace. *)
Lemma re_search_braces_greedy pre mid post :
  Builtins.contains "{" pre = false ->
  Builtins.contains "}" post = false ->
  re_search_braces (pre +:+ String "{" (mid +:+ String "}" post)) =
    Some (String "{" (mid +:+ String "}" EmptyString)).
Proof.
  intros Hpre Hpost. unfold re_search_braces.
  rewrite (from_first_skip _ _ _ Hpre), (upto_last_app _ _ _ Hpost). reflexivity.
Qed.

(** C3, as amended. When the whole reply is not JSON, the parser
    takes the text from the first opening brace to the last closing
    brace and parses that. *)
Theorem parse_fallback_first_to_last j pre mid post e submission_id task_id :
  Builtins.contains "{" pre = false ->
  Builtins.contains "}" post = false ->
  json_loads (pre +:+ String "{" (mid +:+ String "}" post)) = inl e ->
  exn_cls e = JSONDecodeError ->
  _parse_claude_response j (pre +:+ String "{" (mid +:+ String "}" post))
      submission_id task_id =
    match json_loads (String "{" (mid +:+ String "}" EmptyString)) with
    | inr response_data => build_result j response_data submission_id task_id
    | inl e' => inl e'
    end.
Proof.
  intros Hpre Hpost Hwhole Hcls. unfold _parse_claude_response.
  rewrite Hwhole, Hcls, (re_search_braces_greedy _ _ _ Hpre Hpost). reflexivity.
Qed.

(** C4, as amended. When the whole reply is a JSON object, the parser
    looks at the object's [score], [0.0] when the key is absent.  A
    float is taken as it is, an integer and a boolean are converted
    to the float of the same value, a string is read as [float] reads
    it; the result then carries that number, the object's [is_valid]
    ([False] when absent) and its [feedback] (a fixed text when
    absent), both as they are.  On any other score ([null], an array,
    an object) the parser raises a [TypeError], on a string that
    [float] rejects a [ValueError], on an integer beyond the doubles an
    [OverflowError], and no verdict is returned.  An object holding a
    boolean, a float and a string comes back unchanged. *)
Theorem parse_object_fields j response_text d submission_id task_id :
  json_loads response_text = inr (VDict d) ->
  let verdict (score : float) : exn + VerificationResult :=
    inr {| submission_id := submission_id;
           task_id := task_id;
           is_valid := dict_get d "is_valid" (VBool false);
           ai_score := score;
           feedback := dict_get d "feedback" (VStr "No feedback provided");
           model_used := "claude-3-5-sonnet-20241022";
           verification_timestamp := Some (time_time j);
           execution_time_ms := 0 |} in
  _parse_claude_response j response_text submission_id task_id =
    match dict_get d "score" (VFloat 0) with
    | VFloat x => verdict x
    | VInt n =>
        match float_of_int n with
        | Some x => verdict x
        | None => inl (Exn OverflowError "int too large to convert to float" None)
        end
    | VBool b => verdict (if b then 1%float else 0%float)
    | VStr text =>
        match float_of_str text with
        | Some x => verdict x
        | None => inl (Exn ValueError
                         ("could not convert string to float: " +:+ repr_str text)
                         None)
        end
    | v => inl (Exn TypeError
                  ("float() argument must be a string or a real number, not '"
                     +:+ type_name v +:+ "'") None)
    end /\
  (forall b x f,
     dict_lookup d "is_valid" = Some (VBool b) ->
     dict_lookup d "score" = Some (VFloat x) ->
     dict_lookup d "feedback" = Some (VStr f) ->
     exists result,
       _parse_claude_response j response_text submission_id task_id = inr result /\
       is_valid result = VBool b /\ ai_score result = x /\
       feedback result = VStr f).
Proof.
  intros Hloads verdict.
  assert (Hgen : _parse_claude_response j response_text submission_id task_id =
    match float_ (dict_get d "score" (VFloat 0)) with
    | inl e => inl e
    | inr score => verdict score
    end).
  { unfold _parse_claude_response. rewrite Hloads.
    unfold build_result, get.
    destruct (float_ (dict_get d "score" (VFloat 0))); reflexivity. }
  split.
  - rewrite Hgen. unfold float_.
    destruct (dict_get d "score" (VFloat 0)) as [|b|n|x|text|l|o]; try reflexivity.
    + destruct (float_of_int n); reflexivity.
    + destruct (float_of_str text); reflexivity.
  - intros b x f Hb Hx Hf. rewrite Hgen. unfold dict_get.
    rewrite Hx. cbn [float_]. subst verdict. cbv beta. unfold dict_get.
    rewrite Hb, Hf. eexists. split; [reflexivity|]. cbn. auto.
Qed.

End parser.

(** ** The orchestrator *)

Section orchestrator.
Context {rt : Runtime}.
Import claude_verification.

(** The orchestrator either returns the result of its [try] body or
    wraps what the body raised. *)
Lemma client_verify_submission_wraps j submission_id task_id timeout_seconds :
  match client_verify_submission j submission_id task_id timeout_seconds with
  | inr result => verify_attempt j submission_id task_id timeout_seconds = inr result
  | inl e =>
      exists cause,
        verify_attempt j submission_id task_id timeout_seconds = inl cause /\
        e = Exn VerificationError ("Verification failed: " +:+ str cause) (Some cause)
  end.
Proof.
  unfold client_verify_submission.
  destruct (verify_attempt j submission_id task_id timeout_seconds) as [cause|result].
  - exists cause. split; reflexivity.
  - reflexivity.
Qed.

(** A result is returned on one path only. *)
Lemma verify_attempt_returns j submission_id task_id timeout_seconds result :
  verify_attempt j submission_id task_id timeout_seconds = inr result ->
  exists response_text parsed,
    reply j = inr response_text /\
    _parse_claude_response j response_text submission_id task_id = inr parsed /\
    elapsed_ms j <= timeout_seconds * 1000 /\
    result = set_execution_time_ms parsed (elapsed_ms j).
Proof.
  unfold verify_attempt. intros H.
  destruct (reply j) as [e|response_text]; [discriminate|].
  destruct (_parse_claude_response j response_text submission_id task_id)
    as [e|parsed] eqn:Hparse; [discriminate|].
  destruct (Z.ltb_spec (timeout_seconds * 1000) (elapsed_ms j)); [discriminate|].
  injection H as <-. exists response_text, parsed. repeat split; auto.
Qed.

(** C5. When a verdict was obtained and parsed but the measured time
    exceeds the budget, the call fails with a [TimeoutError] (wrapped,
    as every failure is); whenever a result is returned, the measured
    time is within the budget and is the one recorded in it. *)
Theorem timeout_checked_after_the_call j submission_id task_id timeout_seconds :
  (forall response_text parsed,
     reply j = inr response_text ->
     _parse_claude_response j response_text submission_id task_id = inr parsed ->
     timeout_seconds * 1000 < elapsed_ms j ->
     client_verify_submission j submission_id task_id timeout_seconds =
       inl (Exn VerificationError
              ("Verification failed: "
                 +:+ timeout_text (elapsed_ms j) timeout_seconds)
              (Some (Exn TimeoutError
                       (timeout_text (elapsed_ms j) timeout_seconds) None)))) /\
  (forall result,
     client_verify_submission j submission_id task_id timeout_seconds = inr result ->
     elapsed_ms j <= timeout_seconds * 1000 /\
     execution_time_ms result = elapsed_ms j).
Proof.
  split.
  - intros response_text parsed Hreply Hparse Hslow.
    unfold client_verify_submission, verify_attempt.
    rewrite Hreply, Hparse.
    destruct (Z.ltb_spec (timeout_seconds * 1000) (elapsed_ms j)); [|lia].
    reflexivity.
  - intros result Hres.
    pose proof (client_verify_submission_wraps j submission_id task_id timeout_seconds)
      as Hw.
    rewrite Hres in Hw.
    apply verify_attempt_returns in Hw.
    destruct Hw as (response_text & parsed & _ & _ & Hle & ->).
    split; [exact Hle | reflexivity].
Qed.


(** A reply without an opening brace, or without a closing one, holds
    no brace-delimited substring. *)
Lemma re_search_braces_none response_text :
  Builtins.contains "{" response_text = false \/
  Builtins.contains "}" response_text = false ->
  re_search_braces response_text = None.
Proof.
  assert (Hfrom : forall s t, from_first "{" s = Some t ->
            Builtins.contains "{" s = true /\
            (Builtins.contains "}" s = false -> Builtins.contains "}" t = false)).
  { induction s as [|a s IH]; cbn [from_first Builtins.contains]; intros t H;
      [discriminate|].
    destruct (Ascii.eqb a "{") eqn:E.
    - injection H as <-. rewrite Ascii.eqb_sym, E. cbn. auto.
    - destruct (IH t H) as [H1 H2]. rewrite H1, orb_true_r. split; [reflexivity|].
      intros Hn. apply orb_false_iff in Hn. destruct Hn as [_ Hn]. auto. }
  unfold re_search_braces. intros H.
  destruct (from_first "{" response_text) as [[|c r]|] eqn:Hf; try reflexivity.
  destruct (Hfrom _ _ Hf) as [H1 H2].
  destruct H as [H|H]; [congruence|].
  specialize (H2 H). cbn [Builtins.contains] in H2.
  apply orb_false_iff in H2. destruct H2 as [_ H2].
  rewrite (upto_last_none _ _ H2). reflexivity.
Qed.


End orchestrator.

(** ** The storage-backed handler *)

Section handler.
Context {rt : Runtime}.
Import claude_verification services main.

(** What each service call leaves untouched. *)

Lemma get_task_reads task_id db :
  get_task task_id db =
    (List.head (List.filter (fun t => String.eqb (t_id t) task_id) (tasks db)), db).
Proof. reflexivity. Qed.

Lemma enter_pending_frame task_id request db user submission db2 :
  enter_pending task_id request db = (user, submission, db2) ->
  tasks db2 = tasks db /\
  reputation_events db2 = reputation_events db /\
  submissions db2 = (submissions db ++ [submission])%list /\
  s_ai_score submission = None /\ s_is_valid submission = None.
Proof.
  unfold enter_pending, get_or_create_user, create_submission, draw_uuid, read_clock.
  run.
  destruct (List.filter _ (users db)) as [|row rest]; cbn;
    intros H; injection H as <- <- <-; cbn; auto.
Qed.

Lemma update_submission_verification_frame sid a v f r db :
  let db' := snd (update_submission_verification sid a v f r db) in
  tasks db' = tasks db /\ users db' = users db /\
  reputation_events db' = reputation_events db /\
  submissions db' =
    update_where (fun s => String.eqb (s_id s) sid) (set_verification a v f r)
      (submissions db).
Proof. cbn. auto. Qed.

Lemma create_reputation_event_frame user_id event_type reason delta db :
  let db' := snd (create_reputation_event user_id event_type reason delta db) in
  tasks db' = tasks db /\ submissions db' = submissions db /\
  reputation_events db' =
    (reputation_events db ++
       [{| e_id := uuid4 (uuids_drawn db);
           e_user_id := user_id;
           e_event_type := event_type;
           e_reason := reason;
           e_delta := delta;
           e_created_at := utcnow (clock_reads db) |}])%list.
Proof.
  unfold create_reputation_event, update_user_reputation, draw_uuid, read_clock.
  run. cbn.
  destruct (List.filter (fun u => String.eqb (u_id u) user_id) (users db));
    cbn; auto.
Qed.

Lemma update_task_submission_count_frame task_id db :
  let db' := snd (update_task_submission_count task_id db) in
  submissions db' = submissions db /\ users db' = users db /\
  reputation_events db' = reputation_events db /\
  tasks db' =
    match List.filter (fun t => String.eqb (t_id t) task_id) (tasks db) with
    | [] => tasks db
    | row :: _ =>
        update_where (fun t => String.eqb (t_id t) task_id)
          (set_current_submissions (t_current_submissions row + 1)) (tasks db)
    end.
Proof.
  unfold update_task_submission_count. run.
  destruct (List.filter (fun t => String.eqb (t_id t) task_id) (tasks db));
    cbn; auto.
Qed.

(** The handler, path by path. *)

Lemma submit_inference_unknown_task j task_id request db :
  fst (get_task task_id db) = None ->
  submit_inference j task_id request db =
    (inl {| status_code := 404; detail := "Task not found" |}, db).
Proof.
  rewrite get_task_reads. cbn [fst]. intros H.
  unfold submit_inference. run. rewrite get_task_reads, H. reflexivity.
Qed.

Lemma submit_inference_completed j task_id request db task user submission db2 vr :
  fst (get_task task_id db) = Some task ->
  enter_pending task_id request db = (user, submission, db2) ->
  verify j task submission task_id = inr vr ->
  let reward_earned := (t_reward_per_submission task * ai_score vr)%float in
  submit_inference j task_id request db =
    (inr {| r_status := "success";
            r_submission_id := s_id submission;
            r_verification := vr;
            r_reward_earned := reward_earned |},
     snd (update_task_submission_count task_id
       (snd (create_reputation_event (u_id user)
               (if truthy (is_valid vr) then "submission_accepted"
                else "submission_rejected")
               (feedback vr)
               (if truthy (is_valid vr) then 5 else -2)
          (snd (update_submission_verification (s_id submission) (ai_score vr)
                  (is_valid vr) (feedback vr) reward_earned db2)))))).
Proof.
  rewrite get_task_reads. cbn [fst]. intros Htask Hpending Hverify. cbv zeta.
  unfold submit_inference. unfold enter_pending in Hpending. run.
  rewrite get_task_reads, Htask.
  destruct (get_or_create_user (miner_wallet request) None db) as [user' db1].
  destruct (create_submission task_id (u_id user') (submission_data request) db1)
    as [submission' db2'].
  injection Hpending as -> -> ->.
  rewrite Hverify.
  destruct (truthy (is_valid vr));
    destruct (update_submission_verification _ _ _ _ _ db2) as [[] db3];
    cbn [snd];
    destruct (create_reputation_event _ _ _ _ db3) as [[] db4];
    cbn [snd];
    destruct (update_task_submission_count task_id db4) as [[] db5];
    reflexivity.
Qed.

Lemma submit_inference_failed j task_id request db task user submission db2 e :
  fst (get_task task_id db) = Some task ->
  enter_pending task_id request db = (user, submission, db2) ->
  verify j task submission task_id = inl e ->
  submit_inference j task_id request db =
    (inl {| status_code := 500; detail := "Verification failed: " +:+ str e |},
     snd (create_reputation_event (u_id user) "submission_rejected"
            (VStr "Verification failed") (-1)
            (snd (update_submission_verification (s_id submission) 0 (VBool false)
                    (VStr ("Verification error: " +:+ str e)) 0 db2)))).
Proof.
  rewrite get_task_reads. cbn [fst]. intros Htask Hpending Hverify.
  unfold submit_inference. unfold enter_pending in Hpending. run.
  rewrite get_task_reads, Htask.
  destruct (get_or_create_user (miner_wallet request) None db) as [user' db1].
  destruct (create_submission task_id (u_id user') (submission_data request) db1)
    as [submission' db2'].
  injection Hpending as -> -> ->.
  rewrite Hverify.
  destruct (update_submission_verification _ _ _ _ _ db2) as [[] db3];
    cbn [snd];
    destruct (create_reputation_event _ _ _ _ db3) as [[] db4];
    reflexivity.
Qed.

(** The rows of the pending submission after its verification was
    stored. *)
Lemma stored_verification sid a v f r rows :
  (forall row,
     In row (update_where (fun s => String.eqb (s_id s) sid)
               (set_verification a v f r) rows) ->
     s_id row = sid ->
     s_ai_score row = Some a /\ s_is_valid row = nullable v /\
     s_feedback row = nullable f /\ s_reward_earned row = r).
Proof.
  intros row Hrow Hid. apply update_where_In in Hrow.
  destruct Hrow as [x [Hx ->]].
  destruct (String.eqb (s_id x) sid) eqn:E; [cbn; auto|].
  apply String.eqb_neq in E. contradiction.
Qed.

Lemma stored_verification_exists sid a v f r rows submission :
  s_id submission = sid ->
  exists row,
    In row (update_where (fun s => String.eqb (s_id s) sid)
              (set_verification a v f r) (rows ++ [submission])%list) /\
    s_id row = sid.
Proof.
  intros Hid. exists (set_verification a v f r submission). split; [|exact Hid].
  pose proof (In_update_where (fun s => String.eqb (s_id s) sid)
    (set_verification a v f r) (rows ++ [submission])%list submission) as H.
  cbn beta in H. rewrite Hid, String.eqb_refl in H. apply H.
  apply in_or_app. right. left. reflexivity.
Qed.

(** C7. Every verification outcome appends exactly one reputation
    event for the submitting user: delta +5, [submission_accepted]
    and the verdict's feedback when [is_valid] is true; delta -2,
    [submission_rejected] and the verdict's feedback when it is
    false; delta -1, [submission_rejected] and the fixed reason when
    verification raised.  The delta recorded is the one requested. *)
Theorem one_reputation_event_per_outcome j task_id request db task user submission db2 :
  fst (get_task task_id db) = Some task ->
  enter_pending task_id request db = (user, submission, db2) ->
  let db' := snd (submit_inference j task_id request db) in
  exists event,
    reputation_events db' = (reputation_events db ++ [event])%list /\
    e_user_id event = u_id user /\
    match verify j task submission task_id with
    | inr verification_result =>
        e_reason event = feedback verification_result /\
        if truthy (is_valid verification_result)
        then e_delta event = 5 /\ e_event_type event = "submission_accepted"
        else e_delta event = -2 /\ e_event_type event = "submission_rejected"
    | inl _ =>
        e_delta event = -1 /\ e_event_type event = "submission_rejected" /\
        e_reason event = VStr "Verification failed"
    end.
Proof.
  intros Htask Hpending db'. subst db'.
  destruct (enter_pending_frame _ _ _ _ _ _ Hpending) as (_ & Hev & _).
  destruct (verify j task submission task_id) as [e|vr] eqn:Hverify.
  - rewrite (submit_inference_failed _ _ _ _ _ _ _ _ _ Htask Hpending Hverify).
    cbn [snd].
    match goal with
    | |- context [create_reputation_event ?u ?t ?r ?d ?d0] =>
        destruct (create_reputation_event_frame u t r d d0) as (_ & _ & ->)
    end.
    eexists. split.
    + cbn [reputation_events update_submission_verification modify snd
           with_submissions]. rewrite Hev. reflexivity.
    + cbn. auto.
  - rewrite (submit_inference_completed _ _ _ _ _ _ _ _ _ Htask Hpending Hverify).
    cbn [snd].
    match goal with
    | |- context [update_task_submission_count ?t ?d0] =>
        destruct (update_task_submission_count_frame t d0) as (_ & _ & -> & _)
    end.
    match goal with
    | |- context [create_reputation_event ?u ?t ?r ?d ?d0] =>
        destruct (create_reputation_event_frame u t r d d0) as (_ & _ & ->)
    end.
    eexists. split.
    + cbn [reputation_events update_submission_verification modify snd
           with_submissions]. rewrite Hev. reflexivity.
    + cbn. destruct (truthy (is_valid vr)); auto.
Qed.

(** C8. A completed verification raises the task's submission count
    by exactly one; a failed one leaves the tasks table as it was and
    stores the submission with score 0.0, validity false, reward 0.0
    and the error message (after the words [Verification error:])
    as feedback. *)
Theorem count_moves_only_on_completion j task_id request db task user submission db2 :
  fst (get_task task_id db) = Some task ->
  enter_pending task_id request db = (user, submission, db2) ->
  let db' := snd (submit_inference j task_id request db) in
  match verify j task submission task_id with
  | inr _ =>
      (exists task',
         fst (get_task task_id db') = Some task' /\
         t_current_submissions task' = t_current_submissions task + 1) /\
      tasks db' =
        update_where (fun t => String.eqb (t_id t) task_id)
          (set_current_submissions (t_current_submissions task + 1)) (tasks db)
  | inl e =>
      tasks db' = tasks db /\
      fst (get_task task_id db') = Some task /\
      (exists row, In row (submissions db') /\ s_id row = s_id submission) /\
      (forall row,
         In row (submissions db') -> s_id row = s_id submission ->
         s_ai_score row = Some 0%float /\
         s_is_valid row = Some (VBool false) /\
         s_feedback row = Some (VStr ("Verification error: " +:+ str e)) /\
         s_reward_earned row = 0%float)
  end.
Proof.
  intros Htask Hpending db'. subst db'.
  destruct (enter_pending_frame _ _ _ _ _ _ Hpending) as (Htasks & _ & Hsubs & _).
  pose proof Htask as Hhead. rewrite get_task_reads in Hhead. cbn [fst] in Hhead.
  destruct (verify j task submission task_id) as [e|vr] eqn:Hverify.
  - rewrite (submit_inference_failed _ _ _ _ _ _ _ _ _ Htask Hpending Hverify).
    cbn [snd]. rewrite get_task_reads. cbn [fst].
    match goal with
    | |- context [create_reputation_event ?u ?t ?r ?d ?d0] =>
        destruct (create_reputation_event_frame u t r d d0) as (-> & -> & _)
    end.
    cbn [tasks submissions update_submission_verification modify snd
         with_submissions].
    rewrite Htasks, Hsubs.
    split; [reflexivity|]. split; [exact Hhead|]. split.
    + apply stored_verification_exists. reflexivity.
    + intros row Hrow Hid. exact (stored_verification _ _ _ _ _ _ row Hrow Hid).
  - rewrite (submit_inference_completed _ _ _ _ _ _ _ _ _ Htask Hpending Hverify).
    cbn [snd].
    assert (Hfinal :
      tasks (snd (update_task_submission_count task_id
        (snd (create_reputation_event (u_id user)
                (if truthy (is_valid vr) then "submission_accepted"
                 else "submission_rejected")
                (feedback vr) (if truthy (is_valid vr) then 5 else -2)
           (snd (update_submission_verification (s_id submission) (ai_score vr)
                   (is_valid vr) (feedback vr)
                   (t_reward_per_submission task * ai_score vr)%float db2))))))
      = update_where (fun t => String.eqb (t_id t) task_id)
          (set_current_submissions (t_current_submissions task + 1)) (tasks db)).
    { match goal with
      | |- context [update_task_submission_count ?t ?d0] =>
          destruct (update_task_submission_count_frame t d0) as (_ & _ & _ & ->)
      end.
      match goal with
      | |- context [create_reputation_event ?u ?t ?r ?d ?d0] =>
          destruct (create_reputation_event_frame u t r d d0) as (-> & _ & _)
      end.
      cbn [tasks update_submission_verification modify snd with_submissions].
      rewrite Htasks.
      destruct (List.filter (fun t => String.eqb (t_id t) task_id) (tasks db))
        as [|row rest]; [discriminate|].
      cbn in Hhead. injection Hhead as ->. reflexivity. }
    split; [|exact Hfinal].
    rewrite get_task_reads. cbn [fst]. rewrite Hfinal.
    destruct (List.filter (fun t => String.eqb (t_id t) task_id) (tasks db))
      as [|row rest] eqn:Hf; [discriminate|].
    cbn in Hhead. injection Hhead as ->.
    exists (set_current_submissions (t_current_submissions task + 1) task).
    split; [|reflexivity].
    assert (Hfm : forall rows,
      List.filter (fun t => String.eqb (t_id t) task_id)
        (update_where (fun t => String.eqb (t_id t) task_id)
           (set_current_submissions (t_current_submissions task + 1)) rows)
      = List.map (set_current_submissions (t_current_submissions task + 1))
          (List.filter (fun t => String.eqb (t_id t) task_id) rows)).
    { induction rows as [|x rows IH]; [reflexivity|]. cbn.
      destruct (String.eqb (t_id x) task_id) eqn:E; cbn; rewrite E; cbn;
        rewrite <- IH; reflexivity. }
    rewrite Hfm, Hf. reflexivity.
Qed.

(** The reward stored and returned on the completed path. *)
Lemma completed_reward j task_id request db task user submission db2 vr :
  fst (get_task task_id db) = Some task ->
  enter_pending task_id request db = (user, submission, db2) ->
  verify j task submission task_id = inr vr ->
  let reward := (t_reward_per_submission task * ai_score vr)%float in
  let db' := snd (submit_inference j task_id request db) in
  (exists response,
     fst (submit_inference j task_id request db) = inr response /\
     r_verification response = vr /\
     r_submission_id response = s_id submission /\
     r_reward_earned response = reward) /\
  (exists row, In row (submissions db') /\ s_id row = s_id submission) /\
  (forall row,
     In row (submissions db') -> s_id row = s_id submission ->
     s_ai_score row = Some (ai_score vr) /\ s_reward_earned row = reward).
Proof.
  intros Htask Hpending Hverify reward db'. subst db' reward.
  destruct (enter_pending_frame _ _ _ _ _ _ Hpending) as (_ & _ & Hsubs & _).
  rewrite (submit_inference_completed _ _ _ _ _ _ _ _ _ Htask Hpending Hverify).
  cbn [fst snd].
  split; [eexists; split; [reflexivity|cbn; auto]|].
  match goal with
  | |- context [update_task_submission_count ?t ?d0] =>
      destruct (update_task_submission_count_frame t d0) as (-> & _ & _ & _)
  end.
  match goal with
  | |- context [create_reputation_event ?u ?t ?r ?d ?d0] =>
      destruct (create_reputation_event_frame u t r d d0) as (_ & -> & _)
  end.
  cbn [submissions update_submission_verification modify snd with_submissions].
  rewrite Hsubs. split.
  - apply stored_verification_exists. reflexivity.
  - intros row Hrow Hid.
    destruct (stored_verification _ _ _ _ _ _ row Hrow Hid) as (? & _ & _ & ?).
    auto.
Qed.

End handler.

(** ** The in-memory handler and its mock verifier *)

Section mock.
Context {rt : Runtime}.
Import claude_verification app.

Lemma choose_verification_cases CLAUDE_AVAILABLE j task submission_id task_id data :
  choose_verification CLAUDE_AVAILABLE j task submission_id task_id data =
    if CLAUDE_AVAILABLE then
      match live j task submission_id task_id with
      | inr verification_result => (verification_result, "claude_ai")
      | inl _ =>
          (get_mock_verification_result_object submission_id task_id data,
           "mock_fallback")
      end
    else (get_mock_verification_result_object submission_id task_id data, "mock").
Proof. reflexivity. Qed.

(** The handler on a known task: it always answers with a completed
    submission. *)
Lemma submit_inference_known CLAUDE_AVAILABLE j task_id data st task :
  tasks_db st !! task_id = Some task ->
  let submission_id := uuid4 (uuids_drawn st) in
  let chosen := choose_verification CLAUDE_AVAILABLE j task submission_id task_id data in
  let reward_earned := (reward_per_submission task * ai_score (fst chosen))%float in
  let verified :=
    {| v_ai_score := ai_score (fst chosen);
       v_is_valid := is_valid (fst chosen);
       v_feedback := feedback (fst chosen);
       v_reward_earned := reward_earned;
       v_verified_at := utcnow (S (clock_reads st));
       v_model_used := model_used (fst chosen);
       v_verification_time_ms := execution_time_ms (fst chosen);
       v_verification_type := snd chosen |} in
  submit_inference CLAUDE_AVAILABLE j task_id data st =
    (inr {| r_status := "success";
            r_submission_id := submission_id;
            r_verification :=
              {| a_is_valid := is_valid (fst chosen);
                 a_ai_score := ai_score (fst chosen);
                 a_feedback := feedback (fst chosen);
                 a_model_used := model_used (fst chosen);
                 a_verification_time_ms := execution_time_ms (fst chosen);
                 a_verification_type := snd chosen |};
            r_reward_earned := reward_earned;
            r_message := "Submission verified successfully using " +:+ snd chosen |},
     {| tasks_db := alter increment_submissions task_id (tasks_db st);
        submissions_db :=
          <[submission_id :=
              {| sub_id := submission_id;
                 sub_task_id := task_id;
                 sub_submission_data := data;
                 sub_created_at := utcnow (clock_reads st);
                 sub_status := "completed";
                 sub_verified := Some verified |}]> (submissions_db st);
        uuids_drawn := S (uuids_drawn st);
        clock_reads := S (S (clock_reads st)) |}).
Proof.
  intros Htask. cbv zeta.
  unfold submit_inference, draw_uuid, read_clock. run. rewrite Htask. cbn.
  destruct (choose_verification CLAUDE_AVAILABLE j task (uuid4 (uuids_drawn st))
              task_id data) as [vr vtype].
  cbn. f_equal. unfold with_tasks_db, with_submissions_db. cbn. f_equal.
  apply map_eq. intros k. rewrite lookup_alter.
  destruct (decide (uuid4 (uuids_drawn st) = k)) as [<-|Hne].
  - rewrite !lookup_insert_eq. reflexivity.
  - rewrite !lookup_insert_ne by assumption. reflexivity.
Qed.

(** C9, as amended. The mock verdict (valid, score 0.85, a fixed
    feedback text, model [mock-verifier]) is used when the verifier
    could not be loaded at start, and also, in live mode, whenever one
    verification call fails; the live verdict is used only when the
    call succeeds.  In every case the submission is completed and the
    handler answers with success. *)
Theorem mock_replaces_failed_calls CLAUDE_AVAILABLE j task_id data st task :
  tasks_db st !! task_id = Some task ->
  let submission_id := uuid4 (uuids_drawn st) in
  let mock := get_mock_verification_result_object submission_id task_id data in
  (is_valid mock = VBool true /\ ai_score mock = 0.85%float /\
   model_used mock = "mock-verifier" /\
   feedback mock =
     VStr "Mock verification: Submission appears correct based on task requirements") /\
  exists response st',
    submit_inference CLAUDE_AVAILABLE j task_id data st = (inr response, st') /\
    r_submission_id response = submission_id /\
    (exists submission,
       submissions_db st' !! submission_id = Some submission /\
       sub_status submission = "completed") /\
    (exists task',
       tasks_db st' !! task_id = Some task' /\
       current_submissions task' = current_submissions task + 1) /\
    let used := r_verification response in
    match CLAUDE_AVAILABLE, live j task submission_id task_id with
    | false, _ =>
        a_verification_type used = "mock" /\
        a_is_valid used = is_valid mock /\ a_ai_score used = ai_score mock /\
        a_feedback used = feedback mock /\ a_model_used used = model_used mock
    | true, inl _ =>
        a_verification_type used = "mock_fallback" /\
        a_is_valid used = is_valid mock /\ a_ai_score used = ai_score mock /\
        a_feedback used = feedback mock /\ a_model_used used = model_used mock
    | true, inr verification_result =>
        a_verification_type used = "claude_ai" /\
        a_is_valid used = is_valid verification_result /\
        a_ai_score used = ai_score verification_result /\
        a_feedback used = feedback verification_result /\
        a_model_used used = model_used verification_result
    end.
Proof.
  intros Htask submission_id mock. split; [cbn; auto|].
  rewrite (submit_inference_known _ _ _ _ _ _ Htask).
  eexists. eexists. split; [reflexivity|].
  split; [reflexivity|]. split; [|split].
  - eexists. cbn [submissions_db]. rewrite lookup_insert_eq. split; reflexivity.
  - exists (increment_submissions task). cbn [tasks_db].
    rewrite lookup_alter, decide_True by reflexivity. rewrite Htask.
    split; reflexivity.
  - cbn [r_verification]. rewrite choose_verification_cases.
    fold submission_id. fold mock.
    destruct CLAUDE_AVAILABLE; [|cbn; auto].
    destruct (live j task submission_id task_id); cbn; auto.
Qed.

End mock.

(** ** Rewards *)

Section rewards.
Context {rt : Runtime}.
Import claude_verification.

(** C1. On a successful verification the reward, as answered and as
    stored, is the product of the task's [reward_per_submission] and
    the verdict's [ai_score], whatever that score is: in the
    storage-backed handler, and in the in-memory handler. *)
Theorem reward_is_rate_times_score :
  (forall j task_id request db task user submission db2 verification_result,
     fst (services.get_task task_id db) = Some task ->
     main.enter_pending task_id request db = (user, submission, db2) ->
     main.verify j task submission task_id = inr verification_result ->
     let reward :=
       (services.t_reward_per_submission task * ai_score verification_result)%float in
     let db' := snd (main.submit_inference j task_id request db) in
     (exists response,
        fst (main.submit_inference j task_id request db) = inr response /\
        main.r_verification response = verification_result /\
        main.r_submission_id response = services.s_id submission /\
        main.r_reward_earned response = reward) /\
     (exists row,
        In row (services.submissions db') /\
        services.s_id row = services.s_id submission) /\
     (forall row,
        In row (services.submissions db') ->
        services.s_id row = services.s_id submission ->
        services.s_ai_score row = Some (ai_score verification_result) /\
        services.s_reward_earned row = reward)) /\
  (forall CLAUDE_AVAILABLE j task_id data st task,
     app.tasks_db st !! task_id = Some task ->
     exists response st',
       app.submit_inference CLAUDE_AVAILABLE j task_id data st = (inr response, st') /\
       app.r_reward_earned response =
         (app.reward_per_submission task
            * app.a_ai_score (app.r_verification response))%float /\
       exists submission verified,
         app.submissions_db st' !! app.r_submission_id response = Some submission /\
         app.sub_verified submission = Some verified /\
         app.v_ai_score verified = app.a_ai_score (app.r_verification response) /\
         app.v_reward_earned verified =
           (app.reward_per_submission task * app.v_ai_score verified)%float).
Proof.
  split.
  - intros j task_id request db task user submission db2 vr Htask Hpending Hverify.
    exact (completed_reward j task_id request db task user submission db2 vr
             Htask Hpending Hverify).
  - intros CLAUDE_AVAILABLE j task_id data st task Htask.
    rewrite (submit_inference_known _ _ _ _ _ _ Htask).
    eexists. eexists. split; [reflexivity|]. split; [reflexivity|].
    eexists. eexists. cbn [app.r_submission_id app.submissions_db].
    rewrite lookup_insert_eq. split; [reflexivity|].
    cbn. auto.
Qed.

End rewards.

(** ** More on the verdict parser and the orchestrator *)

Section parser_more.
Context {rt : Runtime}.
Import claude_verification.

Lemma from_first_split c s t :
  from_first c s = Some t ->
  exists pre rest,
    s = pre +:+ String c rest /\ t = String c rest /\
    Builtins.contains c pre = false.
Proof.
  revert t. induction s as [|a s IH]; cbn [from_first]; intros t H; [discriminate|].
  destruct (Ascii.eqb a c) eqn:E.
  - apply Ascii.eqb_eq in E. subst a. injection H as <-.
    exists EmptyString, s. auto.
  - destruct (IH t H) as (pre & rest & -> & -> & Hpre).
    exists (String a pre), rest. repeat split.
    cbn [Builtins.contains]. rewrite Ascii.eqb_sym, E, Hpre. reflexivity.
Qed.

Lemma upto_last_None c s :
  upto_last c s = None -> Builtins.contains c s = false.
Proof.
  induction s as [|a s IH]; cbn [upto_last Builtins.contains]; intros H;
    [reflexivity|].
  destruct (upto_last c s); [discriminate|].
  destruct (Ascii.eqb a c) eqn:E; [discriminate|].
  rewrite Ascii.eqb_sym, E, IH; reflexivity.
Qed.

Lemma upto_last_split c s p :
  upto_last c s = Some p ->
  exists mid post,
    s = mid +:+ String c post /\ p = mid +:+ String c EmptyString /\
    Builtins.contains c post = false.
Proof.
  revert p. induction s as [|a s IH]; cbn [upto_last]; intros p H; [discriminate|].
  destruct (upto_last c s) as [p'|] eqn:Hs.
  - injection H as <-. destruct (IH p' eq_refl) as (mid & post & -> & -> & Hpost).
    exists (String a mid), post. auto.
  - destruct (Ascii.eqb a c) eqn:E; [|discriminate].
    apply Ascii.eqb_eq in E. subst a. injection H as <-.
    exists EmptyString, s. repeat split. apply upto_last_None. exact Hs.
Qed.

(** X1. The regular expression finds a match exactly when the text
    splits as [pre {mid} post] with no opening brace in [pre] and no
    closing brace in [post]; the match is then [{mid}], and searching
    the match again gives the match back. *)
Theorem re_search_braces_spec text m :
  (re_search_braces text = Some m <->
   exists pre mid post,
     text = pre +:+ String "{" (mid +:+ String "}" post) /\
     Builtins.contains "{" pre = false /\
     Builtins.contains "}" post = false /\
     m = String "{" (mid +:+ String "}" EmptyString)) /\
  (re_search_braces text = Some m -> re_search_braces m = Some m).
Proof.
  assert (Hfwd : re_search_braces text = Some m ->
    exists pre mid post,
      text = pre +:+ String "{" (mid +:+ String "}" post) /\
      Builtins.contains "{" pre = false /\
      Builtins.contains "}" post = false /\
      m = String "{" (mid +:+ String "}" EmptyString)).
  { unfold re_search_braces. intros H.
    destruct (from_first "{" text) as [t|] eqn:Hf; [|discriminate].
    destruct (from_first_split _ _ _ Hf) as (pre & rest & -> & -> & Hpre).
    destruct (upto_last "}" rest) as [p|] eqn:Hu; [|discriminate].
    destruct (upto_last_split _ _ _ Hu) as (mid & post & -> & -> & Hpost).
    injection H as <-. exists pre, mid, post. auto. }
  split; [split|].
  - exact Hfwd.
  - intros (pre & mid & post & -> & Hpre & Hpost & ->).
    apply re_search_braces_greedy; assumption.
  - intros H. destruct (Hfwd H) as (pre & mid & post & _ & _ & _ & ->).
    exact (re_search_braces_greedy EmptyString mid EmptyString eq_refl eq_refl).
Qed.

(** X2. A reply that is JSON but not an object (an array, a number, a
    string, [null]) makes the parser raise the [AttributeError] of the
    missing [get], which the orchestrator reports as a verification
    failure. *)
Theorem non_object_reply_is_refused j response_text v submission_id task_id
    timeout_seconds :
  reply j = inr response_text ->
  json_loads response_text = inr v ->
  (forall d, v <> VDict d) ->
  let cause :=
    Exn AttributeError ("'" +:+ type_name v +:+ "' object has no attribute 'get'")
      None in
  _parse_claude_response j response_text submission_id task_id = inl cause /\
  client_verify_submission j submission_id task_id timeout_seconds =
    inl (Exn VerificationError ("Verification failed: " +:+ str cause) (Some cause)).
Proof.
  intros Hreply Hloads Hv cause.
  assert (Hp : _parse_claude_response j response_text submission_id task_id
               = inl cause).
  { unfold _parse_claude_response. rewrite Hloads. unfold build_result, get.
    destruct v; try reflexivity. exfalso. exact (Hv d eq_refl). }
  split; [exact Hp|].
  unfold client_verify_submission, verify_attempt. rewrite Hreply, Hp. reflexivity.
Qed.

(** X3. When the reply is not JSON and the brace-delimited substring
    found in it is not JSON either, the decoder's error on that
    substring is what the orchestrator reports; the reply itself is
    not part of the message. *)
Theorem unparsable_substring_surfaces_decoder_error j response_text json_match e e'
    submission_id task_id timeout_seconds :
  reply j = inr response_text ->
  json_loads response_text = inl e ->
  exn_cls e = JSONDecodeError ->
  re_search_braces response_text = Some json_match ->
  json_loads json_match = inl e' ->
  _parse_claude_response j response_text submission_id task_id = inl e' /\
  client_verify_submission j submission_id task_id timeout_seconds =
    inl (Exn VerificationError ("Verification failed: " +:+ str e') (Some e')).
Proof.
  intros Hreply H1 Hc H2 H3.
  assert (Hp : _parse_claude_response j response_text submission_id task_id = inl e').
  { unfold _parse_claude_response. rewrite H1, Hc, H2, H3. reflexivity. }
  split; [exact Hp|].
  unfold client_verify_submission, verify_attempt. rewrite Hreply, Hp. reflexivity.
Qed.

(** X4. Without an API key (none given, and the environment variable
    unset or empty) the module-level [verify_submission] raises a
    [ValueError], not a [VerificationError], whatever the judge would
    answer; so it does when the key given is empty, whatever the
    environment holds; a key given that is not empty makes the
    environment irrelevant. *)
Theorem missing_api_key_is_a_value_error j submission_id task_id :
  (CLAUDE_API_KEY j = None \/ CLAUDE_API_KEY j = Some EmptyString ->
   verify_submission j submission_id task_id None =
     inl (Exn ValueError
            "CLAUDE_API_KEY not set in environment or passed as argument" None)) /\
  verify_submission j submission_id task_id (Some EmptyString) =
    inl (Exn ValueError
           "CLAUDE_API_KEY not set in environment or passed as argument" None) /\
  (forall c key,
     verify_submission j submission_id task_id (Some (String c key)) =
       client_verify_submission j submission_id task_id 30).
Proof.
  split; [|split].
  - intros [H|H]; unfold verify_submission, ClaudeVerificationClient; rewrite H;
      reflexivity.
  - reflexivity.
  - intros c key. reflexivity.
Qed.

(** X5. A result obtained within a budget is obtained, unchanged,
    within every larger budget; so a call that fails under a budget
    fails under every smaller one. *)
Theorem larger_budget_keeps_result j submission_id task_id budget budget' :
  budget <= budget' ->
  (forall result,
     client_verify_submission j submission_id task_id budget = inr result ->
     client_verify_submission j submission_id task_id budget' = inr result) /\
  (forall e,
     client_verify_submission j submission_id task_id budget' = inl e ->
     exists e', client_verify_submission j submission_id task_id budget = inl e').
Proof.
  intros Hle.
  assert (Hup : forall result,
    client_verify_submission j submission_id task_id budget = inr result ->
    client_verify_submission j submission_id task_id budget' = inr result).
  { intros result H.
    pose proof (client_verify_submission_wraps j submission_id task_id budget) as Hw.
    rewrite H in Hw. apply verify_attempt_returns in Hw.
    destruct Hw as (text & parsed & Hreply & Hparse & Hin & ->).
    unfold client_verify_submission, verify_attempt. rewrite Hreply, Hparse.
    destruct (Z.ltb_spec (budget' * 1000) (elapsed_ms j)); [lia|reflexivity]. }
  split; [exact Hup|].
  intros e H.
  destruct (client_verify_submission j submission_id task_id budget) as [e'|result]
    eqn:Hb; [eauto|].
  rewrite (Hup result eq_refl) in H. discriminate.
Qed.

(** X6. A returned result names the submission and the task it was
    asked about, the fixed model, the measured time and the clock
    reading. *)
Theorem result_echoes_the_call j submission_id task_id api_key result :
  verify_submission j submission_id task_id api_key = inr result ->
  claude_verification.submission_id result = submission_id /\
  claude_verification.task_id result = task_id /\
  model_used result = "claude-3-5-sonnet-20241022" /\
  execution_time_ms result = elapsed_ms j /\
  verification_timestamp result = Some (time_time j).
Proof.
  unfold verify_submission. intros H.
  destruct (ClaudeVerificationClient j api_key); [discriminate|].
  pose proof (client_verify_submission_wraps j submission_id task_id 30) as Hw.
  rewrite H in Hw. apply verify_attempt_returns in Hw.
  destruct Hw as (text & parsed & _ & Hparse & _ & ->).
  assert (Hb : forall v, build_result j v submission_id task_id = inr parsed ->
    claude_verification.submission_id parsed = submission_id /\
    claude_verification.task_id parsed = task_id /\
    model_used parsed = "claude-3-5-sonnet-20241022" /\
    verification_timestamp parsed = Some (time_time j)).
  { intros v Hv. unfold build_result in Hv.
    destruct (get v "is_valid" (VBool false)); [discriminate|].
    destruct (get v "score" (VFloat 0)); [discriminate|].
    destruct (float_ v1); [discriminate|].
    destruct (get v "feedback" (VStr "No feedback provided")); [discriminate|].
    injection Hv as <-. cbn. auto. }
  unfold _parse_claude_response in Hparse.
  assert (Hparsed : exists v, build_result j v submission_id task_id = inr parsed).
  { destruct (json_loads text) as [e|v]; [|eauto].
    destruct (exn_cls e); try discriminate.
    destruct (re_search_braces text) as [m|]; [|discriminate].
    destruct (json_loads m) as [e'|v]; [discriminate|eauto]. }
  destruct Hparsed as [v Hv]. destruct (Hb v Hv) as (? & ? & ? & ?).
  cbn. auto.
Qed.

End parser_more.

(** ** More on the storage services *)

Section services_more.
Context {rt : Runtime}.
Import services.

Lemma filter_app_single {A : Type} (p : A -> bool) (rows : list A) (x : A) :
  List.filter p (rows ++ [x])%list =
    (List.filter p rows ++ (if p x then [x] else []))%list.
Proof. rewrite List.filter_app. reflexivity. Qed.

Lemma filter_nil_iff {A : Type} (p : A -> bool) (rows : list A) :
  List.filter p rows = [] <-> (forall x, In x rows -> p x = false).
Proof.
  split; [|apply filter_none].
  intros H x Hx. destruct (p x) eqn:E; [|reflexivity].
  assert (Hin : In x (List.filter p rows)) by (apply filter_In; auto).
  rewrite H in Hin. destruct Hin.
Qed.

(** X7. Get-or-create is idempotent: asked again for the same wallet,
    whatever the user name given, it returns the same record and
    changes nothing; and the look-up by wallet finds that record. *)
Theorem get_or_create_user_is_idempotent wallet_address username username' db user db1 :
  get_or_create_user wallet_address username db = (user, db1) ->
  get_or_create_user wallet_address username' db1 = (user, db1) /\
  get_user_by_wallet wallet_address db1 = (Some user, db1) /\
  u_wallet_address user = wallet_address.
Proof.
  unfold get_or_create_user, get_user_by_wallet, draw_uuid, read_clock. run.
  destruct (List.filter (fun u => String.eqb (u_wallet_address u) wallet_address)
              (users db)) as [|row rest] eqn:Hf.
  - cbn. intros H. injection H as <- <-. cbn.
    rewrite filter_app_single, Hf. cbn. rewrite String.eqb_refl. cbn. auto.
  - intros H. injection H as <- <-. rewrite Hf.
    destruct (filter_head_In _ _ _ _ Hf) as [_ Hw].
    apply String.eqb_eq in Hw. auto.
Qed.

Lemma update_where_map {A B : Type} (p : A -> bool) (f : A -> A) (g : A -> B)
    (rows : list A) :
  (forall x, g (f x) = g x) ->
  List.map g (update_where p f rows) = List.map g rows.
Proof.
  intros H. unfold update_where. rewrite List.map_map.
  apply List.map_ext. intros x. destruct (p x); auto.
Qed.

Lemma update_user_reputation_keeps {B : Type} (g : User -> B) user_id delta db :
  (forall n u, g (set_reputation_score n u) = g u) ->
  List.map g (users (snd (update_user_reputation user_id delta db))) =
    List.map g (users db).
Proof.
  intros Hg. unfold update_user_reputation. run.
  destruct (List.filter (fun u => String.eqb (u_id u) user_id) (users db));
    [reflexivity|].
  cbn. apply update_where_map. intros x. apply Hg.
Qed.

(** The handler touches the users table through get-or-create and the
    reputation update only. *)
Lemma submit_inference_users {B : Type} (g : User -> B) j task_id request db :
  (forall n u, g (set_reputation_score n u) = g u) ->
  List.map g (users (snd (main.submit_inference j task_id request db))) =
    List.map g (users db) \/
  List.map g (users (snd (main.submit_inference j task_id request db))) =
    List.map g (users (snd (get_or_create_user (main.miner_wallet request) None db))).
Proof.
  intros Hg.
  destruct (fst (get_task task_id db)) as [task|] eqn:Htask.
  - right.
    destruct (main.enter_pending task_id request db) as [[user submission] db2]
      eqn:Hpending.
    assert (Hu2 : users db2 =
                  users (snd (get_or_create_user (main.miner_wallet request) None db))).
    { revert Hpending. unfold main.enter_pending, create_submission, draw_uuid,
        read_clock. run.
      destruct (get_or_create_user (main.miner_wallet request) None db) as [u d1].
      cbn. intros H. injection H as _ _ <-. reflexivity. }
    destruct (main.verify j task submission task_id) as [e|vr] eqn:Hverify.
    + rewrite (submit_inference_failed _ _ _ _ _ _ _ _ _ Htask Hpending Hverify).
      cbn [snd]. rewrite create_reputation_event_users.
      rewrite update_user_reputation_keeps by exact Hg.
      cbn. rewrite Hu2. reflexivity.
    + rewrite (submit_inference_completed _ _ _ _ _ _ _ _ _ Htask Hpending Hverify).
      cbn [snd].
      match goal with
      | |- context [update_task_submission_count ?t ?d0] =>
          destruct (update_task_submission_count_frame t d0) as (_ & -> & _ & _)
      end.
      rewrite create_reputation_event_users.
      rewrite update_user_reputation_keeps by exact Hg.
      cbn. rewrite Hu2. reflexivity.
  - left. rewrite (submit_inference_unknown_task _ _ _ _ Htask). reflexivity.
Qed.

Lemma get_or_create_user_wallets wallet_address username db :
  List.map u_wallet_address (users (snd (get_or_create_user wallet_address username db)))
    = List.map u_wallet_address (users db) \/
  (~ In wallet_address (List.map u_wallet_address (users db)) /\
   List.map u_wallet_address
     (users (snd (get_or_create_user wallet_address username db)))
     = (List.map u_wallet_address (users db) ++ [wallet_address])%list).
Proof.
  unfold get_or_create_user, draw_uuid, read_clock. run.
  destruct (List.filter (fun u => String.eqb (u_wallet_address u) wallet_address)
              (users db)) as [|row rest] eqn:Hf.
  - right. split.
    + intros Hin. apply in_map_iff in Hin. destruct Hin as (u & Hw & Hu).
      apply (proj1 (filter_nil_iff _ _) Hf) in Hu.
      rewrite Hw, String.eqb_refl in Hu. discriminate.
    + cbn. rewrite List.map_app. reflexivity.
  - left. reflexivity.
Qed.

Lemma NoDup_snoc {A : Type} (x : A) (l : list A) :
  ~ In x l -> List.NoDup l -> List.NoDup (l ++ [x])%list.
Proof.
  intros Hx Hl. induction Hl as [|y l Hy Hl IH]; cbn.
  - constructor; [intros []|constructor].
  - constructor.
    + intros Hin. apply in_app_or in Hin. destruct Hin as [Hin|[->|[]]].
      * apply Hy. exact Hin.
      * apply Hx. left. reflexivity.
    + apply IH. intros Hin. apply Hx. right. exact Hin.
Qed.

(** X8. No wallet ever gets a second user record: if wallet addresses
    are pairwise distinct in the users table, they still are after
    get-or-create and after a whole submission. *)
Theorem wallets_stay_unique j task_id request wallet_address username db :
  List.NoDup (List.map u_wallet_address (users db)) ->
  List.NoDup (List.map u_wallet_address
           (users (snd (get_or_create_user wallet_address username db)))) /\
  List.NoDup (List.map u_wallet_address
           (users (snd (main.submit_inference j task_id request db)))).
Proof.
  intros Hnd.
  assert (Hg : forall w name,
    List.NoDup (List.map u_wallet_address (users (snd (get_or_create_user w name db))))).
  { intros w name. destruct (get_or_create_user_wallets w name db) as [->|[Hnew ->]].
    - exact Hnd.
    - apply NoDup_snoc; assumption. }
  split; [apply Hg|].
  destruct (submit_inference_users u_wallet_address j task_id request db) as [->| ->].
  - reflexivity.
  - exact Hnd.
  - apply Hg.
Qed.

(** X9. A created task starts active with no submission, goes last in
    the tasks table and, its identifier being new, is the one the
    look-up by that identifier returns. *)
Theorem created_task_is_found request db :
  (forall t, In t (tasks db) -> t_id t <> uuid4 (uuids_drawn db)) ->
  exists task db1,
    main_endpoints.create_task request db = (inr task, db1) /\
    tasks db1 = (tasks db ++ [task])%list /\
    t_id task = uuid4 (uuids_drawn db) /\
    t_status task = "active" /\
    t_current_submissions task = 0 /\
    t_reward_per_submission task = main_endpoints.reward_per_submission request /\
    main_endpoints.get_task (t_id task) db1 = (inr task, db1).
Proof.
  intros Hfresh.
  unfold main_endpoints.create_task, services_tasks.create_task, draw_uuid, read_clock.
  run. cbn. eexists. eexists. split; [reflexivity|]. cbn.
  repeat (split; [reflexivity|]).
  unfold main_endpoints.get_task, get_task. run. cbn.
  rewrite filter_app_single. cbn. rewrite String.eqb_refl.
  rewrite (filter_none _ (tasks db)); [reflexivity|].
  intros x Hx. apply String.eqb_neq. apply Hfresh. exact Hx.
Qed.


(** X11. An event for a user the table does not hold is recorded all
    the same, and changes no user. *)
Theorem event_for_unknown_user_is_recorded user_id event_type reason delta db :
  (forall u, In u (users db) -> u_id u <> user_id) ->
  let db' := snd (create_reputation_event user_id event_type reason delta db) in
  users db' = users db /\
  exists event,
    reputation_events db' = (reputation_events db ++ [event])%list /\
    e_user_id event = user_id /\ e_delta event = delta.
Proof.
  intros Hnone db'. subst db'.
  destruct (create_reputation_event_frame user_id event_type reason delta db)
    as (_ & _ & Hev).
  rewrite create_reputation_event_users, update_user_reputation_absent.
  - split; [reflexivity|]. eexists. split; [exact Hev|]. cbn. auto.
  - apply filter_none. intros x Hx. apply String.eqb_neq. apply Hnone. exact Hx.
Qed.

(** X12. For a score within 0..100, the change a delta makes has the
    sign of the delta and never exceeds it: a gain moves the score up
    by at most the delta, a penalty down by at most the delta, and a
    score at a bound stays there. *)
Theorem effective_delta_is_bounded user_id delta db row rest u' :
  List.filter (fun u => String.eqb (u_id u) user_id) (users db) = row :: rest ->
  0 <= u_reputation_score row <= 100 ->
  In u' (users (snd (update_user_reputation user_id delta db))) ->
  u_id u' = user_id ->
  let old_score := u_reputation_score row in
  let new_score := u_reputation_score u' in
  (0 <= delta -> old_score <= new_score <= old_score + delta) /\
  (delta <= 0 -> old_score + delta <= new_score <= old_score) /\
  (old_score = 100 -> 0 <= delta -> new_score = 100) /\
  (old_score = 0 -> delta <= 0 -> new_score = 0).
Proof.
  intros Hrow Hold Hu' Hid old_score new_score. subst old_score new_score.
  rewrite (update_user_reputation_users _ _ _ _ _ Hrow) in Hu'.
  apply update_where_In in Hu'. destruct Hu' as (x & Hx & ->).
  destruct (String.eqb (u_id x) user_id) eqn:E.
  - cbn. unfold Spec.clamp.
    destruct (Z.ltb_spec (u_reputation_score row + delta) 0);
      [lia|destruct (Z.ltb_spec 100 (u_reputation_score row + delta)); lia].
  - apply String.eqb_neq in E. contradiction.
Qed.

Lemma update_where_filter_same {A : Type} (p : A -> bool) (f : A -> A)
    (rows : list A) :
  (forall x, p (f x) = p x) ->
  List.filter p (update_where p f rows) = List.map f (List.filter p rows).
Proof.
  intros Hp. induction rows as [|x rows IH]; [reflexivity|].
  unfold update_where in *. cbn. destruct (p x) eqn:E.
  - rewrite Hp, E. cbn. rewrite IH. reflexivity.
  - rewrite E. exact IH.
Qed.

Lemma counted_once task_id db task :
  fst (get_task task_id db) = Some task ->
  fst (get_task task_id (snd (update_task_submission_count task_id db)))
    = Some (set_current_submissions (t_current_submissions task + 1) task).
Proof.
  rewrite !get_task_reads. cbn [fst]. intros H.
  destruct (update_task_submission_count_frame task_id db) as (_ & _ & _ & Ht).
  rewrite Ht.
  destruct (List.filter (fun t => String.eqb (t_id t) task_id) (tasks db))
    as [|row more] eqn:Hf; [discriminate|].
  cbn in H. injection H as ->.
  rewrite update_where_filter_same by reflexivity.
  rewrite Hf. reflexivity.
Qed.

(** X13. Counting is additive: n increments of a task's submission
    count raise it by n, and change nothing else of the task. *)
Theorem repeated_counts_add_up task_id db task (n : nat) :
  fst (get_task task_id db) = Some task ->
  fst (get_task task_id
         (Nat.iter n (fun d => snd (update_task_submission_count task_id d)) db))
    = Some (set_current_submissions (t_current_submissions task + Z.of_nat n) task).
Proof.
  intros Htask. induction n as [|n IH].
  - change (Nat.iter 0 _ db) with db. rewrite Htask.
    destruct task. cbn. rewrite Z.add_0_r. reflexivity.
  - change (Nat.iter (S n) ?f db) with (f (Nat.iter n f db)). cbv beta.
    rewrite (counted_once _ _ _ IH), Nat2Z.inj_succ. destruct task.
    unfold set_current_submissions. cbn -[Z.add Z.of_nat Z.succ]. f_equal; f_equal; lia.
Qed.

End services_more.

(** ** More on the submission handler of [main.py] *)

Section handler_more.
Context {rt : Runtime}.
Import claude_verification services main.

(** The state the handler leaves, path by path. *)
Lemma submit_inference_paths j task_id request db :
  (fst (get_task task_id db) = None /\
   submit_inference j task_id request db =
     (inl {| status_code := 404; detail := "Task not found" |}, db)) \/
  (exists task user submission db2,
     fst (get_task task_id db) = Some task /\
     enter_pending task_id request db = (user, submission, db2) /\
     ((exists e,
         verify j task submission task_id = inl e /\
         submit_inference j task_id request db =
           (inl {| status_code := 500; detail := "Verification failed: " +:+ str e |},
            snd (create_reputation_event (u_id user) "submission_rejected"
                   (VStr "Verification failed") (-1)
                   (snd (update_submission_verification (s_id submission) 0
                           (VBool false)
                           (VStr ("Verification error: " +:+ str e)) 0 db2))))) \/
      (exists vr,
         verify j task submission task_id = inr vr /\
         submit_inference j task_id request db =
           (inr {| r_status := "success";
                   r_submission_id := s_id submission;
                   r_verification := vr;
                   r_reward_earned := (t_reward_per_submission task * ai_score vr)%float |},
            snd (update_task_submission_count task_id
              (snd (create_reputation_event (u_id user)
                      (if truthy (is_valid vr) then "submission_accepted"
                       else "submission_rejected")
                      (feedback vr)
                      (if truthy (is_valid vr) then 5 else -2)
                 (snd (update_submission_verification (s_id submission)
                         (ai_score vr) (is_valid vr) (feedback vr)
                         (t_reward_per_submission task * ai_score vr)%float
                         db2))))))))).
Proof.
  destruct (fst (get_task task_id db)) as [task|] eqn:Htask.
  - right.
    destruct (enter_pending task_id request db) as [[user submission] db2]
      eqn:Hpending.
    exists task, user, submission, db2. split; [reflexivity|]. split; [reflexivity|].
    destruct (verify j task submission task_id) as [e|vr] eqn:Hverify.
    + left. exists e. split; [reflexivity|].
      exact (submit_inference_failed _ _ _ _ _ _ _ _ _ Htask Hpending Hverify).
    + right. exists vr. split; [reflexivity|].
      exact (submit_inference_completed _ _ _ _ _ _ _ _ _ Htask Hpending Hverify).
  - left. split; [reflexivity|]. exact (submit_inference_unknown_task _ _ _ _ Htask).
Qed.

Lemma enter_pending_users task_id request db user submission db2 :
  enter_pending task_id request db = (user, submission, db2) ->
  users db2 = users (snd (get_or_create_user (miner_wallet request) None db)) /\
  user = fst (get_or_create_user (miner_wallet request) None db) /\
  s_task_id submission = task_id /\ s_user_id submission = u_id user /\
  s_submission_data submission = submission_data request.
Proof.
  unfold enter_pending, create_submission, draw_uuid, read_clock. run.
  destruct (get_or_create_user (miner_wallet request) None db) as [u d1].
  cbn. intros H. injection H as <- <- <-. cbn. auto.
Qed.

Lemma update_where_filter_other {A : Type} (p : A -> bool) (f : A -> A)
    (rows : list A) :
  (forall x, p (f x) = p x) ->
  List.filter (fun x => negb (p x)) (update_where p f rows) =
    List.filter (fun x => negb (p x)) rows.
Proof.
  intros Hp. unfold update_where. induction rows as [|x rows IH]; [reflexivity|].
  cbn. destruct (p x) eqn:E.
  - rewrite Hp, E. cbn. exact IH.
  - rewrite E. cbn. rewrite IH. reflexivity.
Qed.

Lemma submit_inference_tasks j task_id request db :
  tasks (snd (submit_inference j task_id request db)) = tasks db \/
  exists n,
    tasks (snd (submit_inference j task_id request db)) =
      update_where (fun t => String.eqb (t_id t) task_id)
        (set_current_submissions n) (tasks db).
Proof.
  destruct (submit_inference_paths j task_id request db)
    as [[_ ->]|(task & user & submission & db2 & Htask & Hpending &
                [(e & _ & ->)|(vr & _ & ->)])].
  - left. reflexivity.
  - left. cbn [snd].
    destruct (enter_pending_frame _ _ _ _ _ _ Hpending) as (Htasks & _).
    match goal with
    | |- context [create_reputation_event ?u ?t ?r ?d ?d0] =>
        destruct (create_reputation_event_frame u t r d d0) as (-> & _ & _)
    end.
    cbn [tasks update_submission_verification modify snd with_submissions].
    exact Htasks.
  - cbn [snd].
    destruct (enter_pending_frame _ _ _ _ _ _ Hpending) as (Htasks & _).
    match goal with
    | |- context [update_task_submission_count ?t ?d0] =>
        destruct (update_task_submission_count_frame t d0) as (_ & _ & _ & ->)
    end.
    match goal with
    | |- context [create_reputation_event ?u ?t ?r ?d ?d0] =>
        destruct (create_reputation_event_frame u t r d d0) as (-> & _ & _)
    end.
    cbn [tasks update_submission_verification modify snd with_submissions].
    rewrite Htasks.
    destruct (List.filter (fun t => String.eqb (t_id t) task_id) (tasks db));
      [left; reflexivity|right; eexists; reflexivity].
Qed.

(** X14. A submission changes nothing of the tasks table but
    submission counts of the task submitted to: no task is added or
    removed and the order is kept, every task with another identifier
    is as it was, and so is every field but the count. *)
Theorem other_tasks_are_untouched j task_id request db :
  let db' := snd (submit_inference j task_id request db) in
  List.map t_id (tasks db') = List.map t_id (tasks db) /\
  List.filter (fun t => negb (String.eqb (t_id t) task_id)) (tasks db') =
    List.filter (fun t => negb (String.eqb (t_id t) task_id)) (tasks db) /\
  List.map (set_current_submissions 0) (tasks db') =
    List.map (set_current_submissions 0) (tasks db).
Proof.
  intros db'. subst db'.
  destruct (submit_inference_tasks j task_id request db) as [->|[n ->]]; [auto|].
  split; [|split].
  - apply update_where_map. reflexivity.
  - apply (update_where_filter_other (fun t => String.eqb (t_id t) task_id)).
    reflexivity.
  - apply update_where_map. reflexivity.
Qed.

(** X15. The handler answers 404 exactly when the task is unknown,
    and then it has stored nothing: no user, no submission, no event,
    no identifier drawn. *)
Theorem unknown_task_stores_nothing j task_id request db :
  (fst (get_task task_id db) = None <->
   exists detail,
     fst (submit_inference j task_id request db) =
       inl {| status_code := 404; detail := detail |}) /\
  (fst (get_task task_id db) = None ->
   submit_inference j task_id request db =
     (inl {| status_code := 404; detail := "Task not found" |}, db)).
Proof.
  split; [split|].
  - intros H. rewrite (submit_inference_unknown_task _ _ _ _ H). eauto.
  - intros [detail H].
    destruct (submit_inference_paths j task_id request db)
      as [[Hnone _]|(task & user & submission & db2 & _ & _ &
                     [(e & _ & Heq)|(vr & _ & Heq)])];
      [exact Hnone| |]; rewrite Heq in H; discriminate.
  - apply submit_inference_unknown_task.
Qed.

Lemma get_or_create_user_range wallet_address username db :
  (forall u, In u (users db) -> 0 <= u_reputation_score u <= 100) ->
  forall u, In u (users (snd (get_or_create_user wallet_address username db))) ->
            0 <= u_reputation_score u <= 100.
Proof.
  intros Hinv u. unfold get_or_create_user, draw_uuid, read_clock. run.
  destruct (List.filter (fun u => String.eqb (u_wallet_address u) wallet_address)
              (users db)) as [|row rest].
  - cbn. intros Hu. apply in_app_or in Hu. destruct Hu as [Hu|[<-|[]]].
    + auto.
    + cbn. lia.
  - cbn. auto.
Qed.

Lemma submit_inference_range j task_id request db :
  (forall u, In u (users db) -> 0 <= u_reputation_score u <= 100) ->
  forall u, In u (users (snd (submit_inference j task_id request db))) ->
            0 <= u_reputation_score u <= 100.
Proof.
  intros Hinv.
  destruct (submit_inference_paths j task_id request db)
    as [[_ ->]|(task & user & submission & db2 & Htask & Hpending &
                [(e & _ & ->)|(vr & _ & ->)])].
  - exact Hinv.
  - cbn [snd]. destruct (enter_pending_users _ _ _ _ _ _ Hpending) as (Hu2 & _).
    apply create_reputation_event_range.
    cbn [users update_submission_verification modify snd with_submissions].
    rewrite Hu2. apply get_or_create_user_range. exact Hinv.
  - cbn [snd]. destruct (enter_pending_users _ _ _ _ _ _ Hpending) as (Hu2 & _).
    match goal with
    | |- context [update_task_submission_count ?t ?d0] =>
        destruct (update_task_submission_count_frame t d0) as (_ & -> & _ & _)
    end.
    apply create_reputation_event_range.
    cbn [users update_submission_verification modify snd with_submissions].
    rewrite Hu2. apply get_or_create_user_range. exact Hinv.
Qed.

(** X16. Reputation scores within 0..100 stay within 0..100 through
    any sequence of submissions, whatever the tasks, the miners and
    the judge's replies. *)
Theorem reputations_stay_in_range
    (calls : list (Judge * string * SubmitInferenceRequest)) db :
  (forall u, In u (users db) -> 0 <= u_reputation_score u <= 100) ->
  let db' :=
    List.fold_left
      (fun d call => snd (submit_inference (fst (fst call)) (snd (fst call))
                            (snd call) d))
      calls db in
  forall u, In u (users db') -> 0 <= u_reputation_score u <= 100.
Proof.
  cbv zeta. revert db. induction calls as [|[[j task_id] request] calls IH];
    intros db Hinv.
  - exact Hinv.
  - cbn [List.fold_left fst snd]. apply IH.
    apply submit_inference_range. exact Hinv.
Qed.

Lemma update_where_fresh {A : Type} (p : A -> bool) (f : A -> A)
    (rows : list A) (x : A) :
  (forall y, In y rows -> p y = false) -> p x = true ->
  update_where p f (rows ++ [x])%list = (rows ++ [f x])%list.
Proof.
  intros Hrows Hx. unfold update_where. rewrite List.map_app. cbn. rewrite Hx.
  f_equal. rewrite <- (List.map_id rows) at 2. apply List.map_ext_in.
  intros y Hy. rewrite (Hrows y Hy). reflexivity.
Qed.

(** X17. A submission to a known task adds exactly one row to the
    submissions table, after the rows already there, which it leaves
    as they were; the new row carries the task, the user and the data
    submitted and, on every path, a score.  Its validity is [False]
    when verification raised, and otherwise the verdict's [is_valid]
    as the judge gave it: the row still has no validity, as a pending
    row has none, exactly when verification completed on a verdict
    whose [is_valid] is null. *)
Theorem one_scored_row_is_added j task_id request db task user submission db2 :
  fst (get_task task_id db) = Some task ->
  enter_pending task_id request db = (user, submission, db2) ->
  (forall s, In s (submissions db) -> s_id s <> s_id submission) ->
  let db' := snd (submit_inference j task_id request db) in
  exists row,
    submissions db' = (submissions db ++ [row])%list /\
    s_id row = s_id submission /\ s_task_id row = task_id /\
    s_user_id row = u_id user /\ s_submission_data row = submission_data request /\
    match verify j task submission task_id with
    | inr verification_result =>
        s_ai_score row = Some (ai_score verification_result) /\
        (is_valid verification_result = VNone -> s_is_valid row = None) /\
        (is_valid verification_result <> VNone ->
         s_is_valid row = Some (is_valid verification_result))
    | inl _ =>
        s_ai_score row = Some 0%float /\ s_is_valid row = Some (VBool false)
    end.
Proof.
  intros Htask Hpending Hfresh db'. subst db'.
  destruct (enter_pending_frame _ _ _ _ _ _ Hpending) as (_ & _ & Hsubs & _).
  destruct (enter_pending_users _ _ _ _ _ _ Hpending) as (_ & _ & Ht & Hu & Hd).
  assert (Hstore : forall a v f r,
    update_where (fun s => String.eqb (s_id s) (s_id submission))
      (set_verification a v f r) (submissions db2) =
    (submissions db ++ [set_verification a v f r submission])%list).
  { intros a v f r. rewrite Hsubs. apply update_where_fresh.
    - intros y Hy. apply String.eqb_neq. apply Hfresh. exact Hy.
    - apply String.eqb_refl. }
  destruct (verify j task submission task_id) as [e|vr] eqn:Hverify.
  - rewrite (submit_inference_failed _ _ _ _ _ _ _ _ _ Htask Hpending Hverify).
    cbn [snd].
    match goal with
    | |- context [create_reputation_event ?u ?t ?r ?d ?d0] =>
        destruct (create_reputation_event_frame u t r d d0) as (_ & -> & _)
    end.
    cbn [submissions update_submission_verification modify snd with_submissions].
    rewrite Hstore. eexists. split; [reflexivity|]. cbn. auto 10.
  - rewrite (submit_inference_completed _ _ _ _ _ _ _ _ _ Htask Hpending Hverify).
    cbn [snd].
    match goal with
    | |- context [update_task_submission_count ?t ?d0] =>
        destruct (update_task_submission_count_frame t d0) as (-> & _ & _ & _)
    end.
    match goal with
    | |- context [create_reputation_event ?u ?t ?r ?d ?d0] =>
        destruct (create_reputation_event_frame u t r d d0) as (_ & -> & _)
    end.
    cbn [submissions update_submission_verification modify snd with_submissions].
    rewrite Hstore. eexists. split; [reflexivity|].
    cbn [set_verification s_id s_task_id s_user_id s_submission_data s_ai_score
         s_is_valid].
    split; [reflexivity|]. split; [exact Ht|]. split; [exact Hu|].
    split; [exact Hd|]. split; [reflexivity|]. split.
    + intros Hv. rewrite Hv. reflexivity.
    + intros Hv. destruct (is_valid vr); try reflexivity. contradiction.
Qed.

End handler_more.

(** ** A miner's reputation, end to end *)

Section miner.
Context {rt : Runtime}.
Import claude_verification services main.

Lemma update_where_filter_commute {A : Type} (p q : A -> bool) (f : A -> A)
    (rows : list A) :
  (forall x, q (f x) = q x) ->
  List.filter q (update_where p f rows) = update_where p f (List.filter q rows).
Proof.
  intros Hq. unfold update_where. induction rows as [|x rows IH]; [reflexivity|].
  cbn. destruct (p x) eqn:E.
  - rewrite Hq. destruct (q x); cbn; rewrite ?E, IH; reflexivity.
  - destruct (q x); cbn; rewrite ?E, IH; reflexivity.
Qed.

Lemma submit_inference_reputation j task_id request db task user submission db2 rest :
  fst (get_task task_id db) = Some task ->
  enter_pending task_id request db = (user, submission, db2) ->
  List.filter (fun u => String.eqb (u_wallet_address u) (miner_wallet request))
    (users db2) = user :: rest ->
  (forall u, In u (users db2) -> u_id u = u_id user -> u = user) ->
  let delta :=
    match verify j task submission task_id with
    | inr verification_result =>
        if truthy (is_valid verification_result) then 5 else -2
    | inl _ => -1
    end in
  fst (get_user_by_wallet (miner_wallet request)
         (snd (submit_inference j task_id request db))) =
    Some (set_reputation_score
            (Z.max 0 (Z.min 100 (u_reputation_score user + delta))) user).
Proof.
  intros Htask Hpending Hwallet Hids delta.
  assert (Hin : In user (users db2)).
  { destruct (filter_head_In _ _ _ _ Hwallet) as [H _]. exact H. }
  assert (Hrow : exists more,
    List.filter (fun u => String.eqb (u_id u) (u_id user)) (users db2)
      = user :: more).
  { destruct (List.filter (fun u => String.eqb (u_id u) (u_id user)) (users db2))
      as [|row more] eqn:Hf.
    - exfalso.
      assert (Hx : In user (List.filter
                    (fun u => String.eqb (u_id u) (u_id user)) (users db2))).
      { apply filter_In. split; [exact Hin|apply String.eqb_refl]. }
      rewrite Hf in Hx. destruct Hx.
    - destruct (filter_head_In _ _ _ _ Hf) as [Hr Hid].
      apply String.eqb_eq in Hid. rewrite (Hids row Hr Hid). eauto. }
  destruct Hrow as [more Hrow].
  assert (Hfinal : forall event_type reason d db3,
    users db3 = users db2 ->
    List.head (List.filter
      (fun u => String.eqb (u_wallet_address u) (miner_wallet request))
      (users (snd (create_reputation_event (u_id user) event_type reason d db3))))
    = Some (set_reputation_score
              (Z.max 0 (Z.min 100 (u_reputation_score user + d))) user)).
  { intros event_type reason d db3 H3.
    rewrite create_reputation_event_users.
    rewrite <- H3 in Hrow.
    rewrite (update_user_reputation_users _ _ _ _ _ Hrow), H3.
    rewrite update_where_filter_commute by reflexivity.
    rewrite Hwallet. unfold update_where. cbn. rewrite String.eqb_refl.
    rewrite clamp_max_min. reflexivity. }
  unfold get_user_by_wallet. run. cbn [fst]. subst delta.
  destruct (verify j task submission task_id) as [e|vr] eqn:Hverify.
  - rewrite (submit_inference_failed _ _ _ _ _ _ _ _ _ Htask Hpending Hverify).
    cbn [snd]. apply Hfinal. reflexivity.
  - rewrite (submit_inference_completed _ _ _ _ _ _ _ _ _ Htask Hpending Hverify).
    cbn [snd].
    match goal with
    | |- context [update_task_submission_count ?t ?d0] =>
        destruct (update_task_submission_count_frame t d0) as (_ & -> & _ & _)
    end.
    destruct (truthy (is_valid vr)); apply Hfinal; reflexivity.
Qed.

Lemma get_miner_reputation_reads wallet_address db :
  fst (main_endpoints.get_miner_reputation wallet_address db) =
    match fst (get_user_by_wallet wallet_address db) with
    | None => inl {| status_code := 404; detail := "User not found" |}
    | Some user =>
        inr {| main_endpoints.wallet := wallet_address;
               main_endpoints.reputation_score := u_reputation_score user;
               main_endpoints.total_tasks_completed := u_total_tasks_completed user;
               main_endpoints.total_rewards_earned := u_total_rewards_earned user |}
    end.
Proof.
  unfold main_endpoints.get_miner_reputation, get_user_by_wallet. run. cbn [fst].
  destruct (List.head _); reflexivity.
Qed.

(** X18. A miner seen for the first time starts at 50 and, after the
    first submission, stands at 55 when the verdict accepted it, at 48
    when the verdict rejected it and at 49 when verification failed;
    the two counters of the account are 0 and the handler does not
    move them. *)
Theorem first_submission_reputation j task_id request db task user submission db2 :
  fst (get_task task_id db) = Some task ->
  enter_pending task_id request db = (user, submission, db2) ->
  (forall u, In u (users db) -> u_wallet_address u <> miner_wallet request) ->
  (forall u, In u (users db) -> u_id u <> uuid4 (uuids_drawn db)) ->
  fst (main_endpoints.get_miner_reputation (miner_wallet request)
         (snd (submit_inference j task_id request db))) =
    inr {| main_endpoints.wallet := miner_wallet request;
           main_endpoints.reputation_score :=
             match verify j task submission task_id with
             | inr verification_result =>
                 if truthy (is_valid verification_result) then 55 else 48
             | inl _ => 49
             end;
           main_endpoints.total_tasks_completed := 0;
           main_endpoints.total_rewards_earned := 0 |}.
Proof.
  intros Htask Hpending Hnew Hid.
  destruct (enter_pending_users _ _ _ _ _ _ Hpending) as (Hu2 & Huser & _).
  assert (Hf : List.filter
                 (fun u => String.eqb (u_wallet_address u) (miner_wallet request))
                 (users db) = []).
  { apply filter_none. intros x Hx. apply String.eqb_neq. apply Hnew. exact Hx. }
  unfold get_or_create_user, draw_uuid, read_clock, bind, gets, modify, ret
    in Hu2, Huser.
  cbn beta iota in Hu2, Huser. rewrite Hf in Hu2, Huser. cbn in Hu2, Huser.
  assert (Hwallet :
    List.filter (fun u => String.eqb (u_wallet_address u) (miner_wallet request))
      (users db2) = [user]).
  { rewrite Hu2, filter_app_single, Hf, <- Huser. cbn.
    rewrite Huser at 1. cbn. rewrite String.eqb_refl. reflexivity. }
  assert (Hids : forall u, In u (users db2) -> u_id u = u_id user -> u = user).
  { intros u Hu Hsame. rewrite Hu2 in Hu. apply in_app_or in Hu.
    destruct Hu as [Hu|[<-|[]]].
    - exfalso. apply (Hid u Hu). rewrite Hsame, Huser. reflexivity.
    - symmetry. exact Huser. }
  pose proof (submit_inference_reputation j _ _ _ _ _ _ _ _ Htask Hpending
                Hwallet Hids) as H.
  cbv zeta in H. rewrite get_miner_reputation_reads, H.
  rewrite Huser. cbn.
  destruct (verify j task submission task_id) as [e|vr];
    [|destruct (truthy (is_valid vr))]; reflexivity.
Qed.

(** X19. For a miner already registered, whose identifier no other
    user shares, the reputation read back after a submission is the
    old score moved by +5, -2 or -1 and clamped to 0..100; the two
    counters of the account are as before. *)
Theorem returning_miner_reputation j task_id request db task user submission db2 rest :
  fst (get_task task_id db) = Some task ->
  enter_pending task_id request db = (user, submission, db2) ->
  List.filter (fun u => String.eqb (u_wallet_address u) (miner_wallet request))
    (users db) = user :: rest ->
  (forall u, In u (users db) -> u_id u = u_id user -> u = user) ->
  let delta :=
    match verify j task submission task_id with
    | inr verification_result =>
        if truthy (is_valid verification_result) then 5 else -2
    | inl _ => -1
    end in
  fst (main_endpoints.get_miner_reputation (miner_wallet request)
         (snd (submit_inference j task_id request db))) =
    inr {| main_endpoints.wallet := miner_wallet request;
           main_endpoints.reputation_score :=
             Z.max 0 (Z.min 100 (u_reputation_score user + delta));
           main_endpoints.total_tasks_completed := u_total_tasks_completed user;
           main_endpoints.total_rewards_earned := u_total_rewards_earned user |}.
Proof.
  intros Htask Hpending Hwallet Hids delta.
  destruct (enter_pending_users _ _ _ _ _ _ Hpending) as (Hu2 & _).
  unfold get_or_create_user, bind, gets, modify, ret in Hu2.
  cbn beta iota in Hu2. rewrite Hwallet in Hu2. cbn in Hu2.
  rewrite <- Hu2 in Hwallet, Hids.
  pose proof (submit_inference_reputation j _ _ _ _ _ _ _ _ Htask Hpending
                Hwallet Hids) as H.
  cbv zeta in H. rewrite get_miner_reputation_reads, H. reflexivity.
Qed.

(** X20. A task whose type is none of the six known names can never
    be completed: every submission to it fails with status 500,
    names the type in the detail, and is answered without looking at
    the judge, so that the state left is the same whatever the judge
    would have said. *)
Theorem unknown_task_type_never_completes j j' task_id request db task :
  fst (get_task task_id db) = Some task ->
  (forall t, TaskType_value t <> t_task_type task) ->
  fst (submit_inference j task_id request db) =
    inl {| status_code := 500;
           detail := "Verification failed: " +:+ repr_str (t_task_type task)
                       +:+ " is not a valid TaskType" |} /\
  submit_inference j task_id request db = submit_inference j' task_id request db.
Proof.
  intros Htask Hnone.
  assert (Hof : TaskType_of (t_task_type task) =
                inl (Exn ValueError
                       (repr_str (t_task_type task) +:+ " is not a valid TaskType")
                       None)).
  { unfold TaskType_of.
    destruct (List.find (fun t => String.eqb (TaskType_value t) (t_task_type task))
                TaskType_members) as [t|] eqn:Hfind; [|reflexivity].
    apply List.find_some in Hfind. destruct Hfind as [_ Heq].
    apply String.eqb_eq in Heq. destruct (Hnone t Heq). }
  destruct (enter_pending task_id request db) as [[user submission] db2] eqn:Hpending.
  assert (Hv : forall jj, verify jj task submission task_id =
                 inl (Exn ValueError
                       (repr_str (t_task_type task) +:+ " is not a valid TaskType")
                       None)).
  { intros jj. unfold verify. rewrite Hof. reflexivity. }
  rewrite (submit_inference_failed _ _ _ _ _ _ _ _ _ Htask Hpending (Hv j)).
  rewrite (submit_inference_failed _ _ _ _ _ _ _ _ _ Htask Hpending (Hv j')).
  split; reflexivity.
Qed.

End miner.

(** ** More on the in-memory handlers *)

Section app_more.
Context {rt : Runtime}.
Import claude_verification app.

Lemma iter_increment (n : nat) (task : Task) :
  Nat.iter n increment_submissions (increment_submissions task) =
    increment_submissions (Nat.iter n increment_submissions task) /\
  current_submissions (Nat.iter n increment_submissions task) =
    current_submissions task + Z.of_nat n.
Proof.
  induction n as [|n [IH1 IH2]].
  - split; [reflexivity|]. change (Nat.iter 0 _ task) with task. lia.
  - change (Nat.iter (S n) ?f ?x) with (f (Nat.iter n f x)).
    split; [rewrite IH1; reflexivity|].
    rewrite Nat2Z.inj_succ. unfold increment_submissions at 1.
    cbn [current_submissions]. rewrite IH2. lia.
Qed.

Lemma submit_inference_state CLAUDE_AVAILABLE j task_id data st task :
  tasks_db st !! task_id = Some task ->
  tasks_db (snd (submit_inference CLAUDE_AVAILABLE j task_id data st)) =
    alter increment_submissions task_id (tasks_db st) /\
  uuids_drawn (snd (submit_inference CLAUDE_AVAILABLE j task_id data st)) =
    S (uuids_drawn st) /\
  exists response,
    fst (submit_inference CLAUDE_AVAILABLE j task_id data st) = inr response.
Proof.
  intros Htask.
  pose proof (submit_inference_known CLAUDE_AVAILABLE j task_id data st task Htask)
    as Hk.
  cbv zeta in Hk. rewrite Hk. cbn [fst snd tasks_db uuids_drawn]. eauto.
Qed.

(** X21. The in-memory handler counts every submission to a known
    task, whatever the verifier did: after any sequence of
    submissions to the task, its count has grown by their number,
    nothing else of the task has changed and no other task has. *)
Theorem every_submission_is_counted (calls : list (bool * Judge * value))
    task_id st task :
  tasks_db st !! task_id = Some task ->
  let st' :=
    List.fold_left
      (fun s call => snd (submit_inference (fst (fst call)) (snd (fst call))
                            task_id (snd call) s))
      calls st in
  let task' := Nat.iter (length calls) increment_submissions task in
  tasks_db st' = <[task_id := task']> (tasks_db st) /\
  current_submissions task' = current_submissions task + Z.of_nat (length calls).
Proof.
  intros Htask. cbv zeta. split; [|apply iter_increment].
  revert st task Htask.
  induction calls as [|[[available j] data] calls IH]; intros st task Htask.
  - cbn. symmetry. apply insert_id. exact Htask.
  - cbn [List.fold_left fst snd length].
    destruct (submit_inference_state available j task_id data st task Htask)
      as (Htasks & _ & _).
    rewrite (IH _ (increment_submissions task)).
    + rewrite Htasks.
      change (Nat.iter (S (length calls)) ?f ?x)
        with (f (Nat.iter (length calls) f x)).
      rewrite (proj1 (iter_increment _ _)).
      apply map_eq. intros k. destruct (decide (task_id = k)) as [<-|Hne].
      * rewrite !lookup_insert_eq. reflexivity.
      * rewrite !lookup_insert_ne by assumption.
        rewrite lookup_alter_ne by assumption. reflexivity.
    + rewrite Htasks, lookup_alter_eq, Htask. reflexivity.
Qed.

(** The task the endpoint stores. *)
Lemma create_task_state task_data st :
  let task_id := uuid4 (uuids_drawn st) in
  app_endpoints.create_task task_data st =
    (inr {| app_endpoints.c_task_id := task_id;
            app_endpoints.c_message := "Task created successfully";
            app_endpoints.c_data := task_data |},
     {| tasks_db :=
          <[task_id :=
              {| id := task_id;
                 title := app_endpoints.q_title task_data;
                 description := app_endpoints.q_description task_data;
                 task_type := app_endpoints.q_task_type task_data;
                 difficulty_level := app_endpoints.q_difficulty_level task_data;
                 reward_per_submission :=
                   app_endpoints.q_reward_per_submission task_data;
                 total_budget := app_endpoints.q_total_budget task_data;
                 max_submissions := app_endpoints.q_max_submissions task_data;
                 verification_criteria :=
                   app_endpoints.q_verification_criteria task_data;
                 instructions := app_endpoints.q_instructions task_data;
                 created_at := utcnow (clock_reads st);
                 status := "active";
                 current_submissions := 0 |}]> (tasks_db st);
        submissions_db := submissions_db st;
        uuids_drawn := S (uuids_drawn st);
        clock_reads := S (clock_reads st) |}).
Proof. reflexivity. Qed.

(** X22. A task created through the endpoint is stored under the
    identifier answered, active and with no submission, with the
    reward and the type asked for; it can be fetched, every
    submission to it is answered with success, and no other task
    is touched. *)
Theorem created_task_accepts_submissions task_data st :
  exists created st1 task,
    app_endpoints.create_task task_data st = (inr created, st1) /\
    app_endpoints.c_task_id created = uuid4 (uuids_drawn st) /\
    app_endpoints.get_task (app_endpoints.c_task_id created) st1 = (inr task, st1) /\
    status task = "active" /\ current_submissions task = 0 /\
    reward_per_submission task = app_endpoints.q_reward_per_submission task_data /\
    task_type task = app_endpoints.q_task_type task_data /\
    (forall CLAUDE_AVAILABLE j data,
       exists response,
         fst (submit_inference CLAUDE_AVAILABLE j (app_endpoints.c_task_id created)
                data st1) = inr response) /\
    (forall k, k <> app_endpoints.c_task_id created ->
               tasks_db st1 !! k = tasks_db st !! k).
Proof.
  pose proof (create_task_state task_data st) as Hc. cbv zeta in Hc.
  match type of Hc with
  | _ = (inr ?c, ?s1) =>
      match s1 with
      | context [<[_ := ?t]> _] =>
          assert (Hlook : tasks_db s1 !! uuid4 (uuids_drawn st) = Some t)
            by apply lookup_insert_eq;
          exists c, s1, t
      end
  end.
  split; [exact Hc|]. cbn [app_endpoints.c_task_id].
  split; [reflexivity|]. split.
  { unfold app_endpoints.get_task. run. rewrite Hlook. reflexivity. }
  cbn [status current_submissions reward_per_submission task_type].
  repeat (split; [reflexivity|]). split.
  - intros available j data.
    destruct (submit_inference_state available j _ data _ _ Hlook) as (_ & _ & Hr).
    exact Hr.
  - intros k Hk. cbn [tasks_db]. apply lookup_insert_ne.
    intros Heq. apply Hk. symmetry. exact Heq.
Qed.

(** X23. What a submission stored can be read back: the status
    endpoint returns the submission completed, for the task and with
    the data submitted, with the score, validity, reward and kind of
    verification of the answer; the task identifier in the path plays
    no part. *)
Theorem stored_submission_is_read_back CLAUDE_AVAILABLE j task_id data st task :
  tasks_db st !! task_id = Some task ->
  exists response st1,
    submit_inference CLAUDE_AVAILABLE j task_id data st = (inr response, st1) /\
    forall any_task_id,
    exists submission verified,
      app_endpoints.get_submission_status any_task_id (r_submission_id response) st1
        = (inr submission, st1) /\
      sub_status submission = "completed" /\
      sub_task_id submission = task_id /\
      sub_submission_data submission = data /\
      sub_verified submission = Some verified /\
      v_ai_score verified = a_ai_score (r_verification response) /\
      v_is_valid verified = a_is_valid (r_verification response) /\
      v_reward_earned verified = r_reward_earned response /\
      v_verification_type verified = a_verification_type (r_verification response).
Proof.
  intros Htask.
  pose proof (submit_inference_known CLAUDE_AVAILABLE j task_id data st task Htask)
    as Hk.
  cbv zeta in Hk. rewrite Hk. eexists. eexists. split; [reflexivity|].
  intros any_task_id. unfold app_endpoints.get_submission_status. run.
  cbn [submissions_db r_submission_id]. rewrite lookup_insert_eq.
  eexists. eexists. split; [reflexivity|]. cbn. auto 10.
Qed.

End app_more.

Section production.
Context {rt : Runtime}.
Import claude_verification production_main.

Lemma alter_insert_same {A : Type} (f : A -> A) (k : string) (x : A)
    (m : gmap string A) :
  alter f k (<[k := x]> m) = <[k := f x]> m.
Proof.
  apply map_eq. intros i. destruct (decide (k = i)) as [<-|Hne].
  - rewrite lookup_alter_eq, !lookup_insert_eq. reflexivity.
  - rewrite lookup_alter_ne, !lookup_insert_ne by assumption. reflexivity.
Qed.

(** The handler on a known task, path by path. *)
Lemma production_submit_inference_known j task_id data st task :
  tasks_db st !! task_id = Some task ->
  let submission_id := uuid4 (uuids_drawn st) in
  let stored status outcome :=
    {| sub_id := submission_id; sub_task_id := task_id;
       sub_submission_data := data;
       sub_created_at := utcnow (clock_reads st);
       sub_status := status; sub_outcome := Some outcome |} in
  submit_inference j task_id data st =
    match verify j task submission_id task_id with
    | inr vr =>
        let reward_earned := (app.reward_per_submission task * ai_score vr)%float in
        (inr {| r_submission_id := submission_id;
                r_verification :=
                  {| a_is_valid := is_valid vr; a_ai_score := ai_score vr;
                     a_feedback := feedback vr; a_model_used := model_used vr;
                     a_verification_time_ms := execution_time_ms vr |};
                r_reward_earned := reward_earned;
                r_message := "Submission verified successfully with Claude AI" |},
         {| tasks_db := alter app.increment_submissions task_id (tasks_db st);
            submissions_db :=
              <[submission_id :=
                  stored "completed"
                    {| o_ai_score := ai_score vr; o_is_valid := is_valid vr;
                       o_feedback := feedback vr; o_reward_earned := reward_earned;
                       o_verified_at := utcnow (S (clock_reads st));
                       o_model_used := Some (model_used vr);
                       o_verification_time_ms := Some (execution_time_ms vr) |}]>
                (submissions_db st);
            uuids_drawn := S (uuids_drawn st);
            clock_reads := S (S (clock_reads st)) |})
    | inl e =>
        (inl {| status_code := 500; detail := failure_detail e |},
         {| tasks_db := tasks_db st;
            submissions_db :=
              <[submission_id :=
                  stored "failed"
                    {| o_ai_score := 0; o_is_valid := VBool false;
                       o_feedback := VStr (failure_feedback e);
                       o_reward_earned := 0;
                       o_verified_at := utcnow (S (clock_reads st));
                       o_model_used := None;
                       o_verification_time_ms := None |}]>
                (submissions_db st);
            uuids_drawn := S (uuids_drawn st);
            clock_reads := S (S (clock_reads st)) |})
    end.
Proof.
  intros Htask. cbv zeta.
  unfold submit_inference, draw_uuid, read_clock. run. rewrite Htask. cbn.
  destruct (verify j task (uuid4 (uuids_drawn st)) task_id) as [e|vr]; cbn;
    unfold with_tasks_db, with_submissions_db; cbn;
    rewrite alter_insert_same; reflexivity.
Qed.

(** X24. The handler without a mock never leaves a submission
    pending: on a known task the submission is stored completed, with
    the verdict's score and the reward, and the task's count grows
    by one; or it is stored failed, with score 0.0, validity false
    and reward 0.0, no task is touched and the answer is a 500. *)
Theorem submission_ends_completed_or_failed j task_id data st task :
  tasks_db st !! task_id = Some task ->
  let submission_id := uuid4 (uuids_drawn st) in
  let st' := snd (submit_inference j task_id data st) in
  exists submission outcome,
    submissions_db st' !! submission_id = Some submission /\
    sub_outcome submission = Some outcome /\
    sub_task_id submission = task_id /\ sub_submission_data submission = data /\
    match verify j task submission_id task_id with
    | inr vr =>
        sub_status submission = "completed" /\
        o_ai_score outcome = ai_score vr /\ o_is_valid outcome = is_valid vr /\
        o_reward_earned outcome =
          (app.reward_per_submission task * ai_score vr)%float /\
        tasks_db st' = alter app.increment_submissions task_id (tasks_db st) /\
        exists response,
          fst (submit_inference j task_id data st) = inr response /\
          r_submission_id response = submission_id /\
          r_reward_earned response = o_reward_earned outcome
    | inl e =>
        sub_status submission = "failed" /\
        o_ai_score outcome = 0%float /\ o_is_valid outcome = VBool false /\
        o_reward_earned outcome = 0%float /\ o_model_used outcome = None /\
        tasks_db st' = tasks_db st /\
        exists detail,
          fst (submit_inference j task_id data st) =
            inl {| status_code := 500; detail := detail |}
    end.
Proof.
  intros Htask. cbv zeta.
  pose proof (production_submit_inference_known j task_id data st task Htask) as Hk.
  cbv zeta in Hk. rewrite Hk.
  destruct (verify j task (uuid4 (uuids_drawn st)) task_id) as [e|vr];
    cbn [fst snd submissions_db tasks_db]; rewrite lookup_insert_eq;
    eexists; eexists; (split; [reflexivity|]); cbn; eauto 12.
Qed.

(** X25. What the handler without a mock answers when verification
    fails, by cause.  A task type that is none of the known names, and
    a missing API key, are system errors; every failure of the call
    itself, which the client has wrapped, is a verification failure,
    and the words [Verification failed:] then stand twice in the
    detail: once from the handler and once from the client. *)
Theorem failures_by_cause j task_id data st task :
  tasks_db st !! task_id = Some task ->
  let submission_id := uuid4 (uuids_drawn st) in
  let answer := fst (submit_inference j task_id data st) in
  match TaskType_of (app.task_type task) with
  | inl e =>
      answer = inl {| status_code := 500;
                      detail := "System error during verification: " +:+ str e |}
  | inr _ =>
      match ClaudeVerificationClient j None with
      | inl e =>
          answer = inl {| status_code := 500;
                          detail := "System error during verification: " +:+ str e |}
      | inr _ =>
          match verify_attempt j submission_id task_id 30 with
          | inl e =>
              answer =
                inl {| status_code := 500;
                       detail := "Verification failed: Verification failed: "
                                   +:+ str e |}
          | inr result =>
              exists response,
                answer = inr response /\
                a_ai_score (r_verification response) = ai_score result
          end
      end
  end.
Proof.
  intros Htask. cbv zeta.
  pose proof (production_submit_inference_known j task_id data st task Htask) as Hk.
  cbv zeta in Hk. rewrite Hk. unfold verify, verify_submission.
  destruct (TaskType_of (app.task_type task)) as [e|t] eqn:Htype.
  - cbn [fst]. unfold failure_detail.
    unfold TaskType_of in Htype.
    destruct (List.find _ TaskType_members); [discriminate|].
    injection Htype as <-. reflexivity.
  - destruct (ClaudeVerificationClient j None) as [e|c] eqn:Hclient.
    + cbn [fst]. unfold failure_detail.
      unfold ClaudeVerificationClient in Hclient.
      repeat match type of Hclient with
             | context [match ?x with _ => _ end] => destruct x
             end; try discriminate; injection Hclient as <-; reflexivity.
    + unfold client_verify_submission.
      destruct (verify_attempt j (uuid4 (uuids_drawn st)) task_id 30) as [e|result].
      * cbn [fst]. unfold failure_detail. cbn [exn_cls str]. reflexivity.
      * cbn [fst]. eexists. split; reflexivity.
Qed.

End production.

(** ** Tokens and wallet addresses *)

Section tokens.
Import claude_verification auth.

Lemma first_on_chain_some chain_name creds address :
  first_on_chain chain_name creds = inr (Some address) ->
  truthy address = true /\
  exists cred, In cred creds /\ get cred "address" (VStr "") = inr address.
Proof.
  induction creds as [|cred rest IH]; [discriminate|]. cbn [first_on_chain].
  destruct (get cred "chain" (VStr "")) as [e|chain]; [discriminate|].
  destruct (get cred "address" (VStr "")) as [e|a] eqn:Ha; [discriminate|].
  destruct (equals_str chain chain_name && truthy a) eqn:Hc.
  - intros H. injection H as <-. apply andb_true_iff in Hc. destruct Hc as [_ Ht].
    split; [exact Ht|]. exists cred. split; [left; reflexivity|exact Ha].
  - intros H. destruct (IH H) as (Ht & c & Hin & Hc'). split; [exact Ht|].
    exists c. split; [right; exact Hin|exact Hc'].
Qed.

Lemma first_on_chain_passes chain_name pre rest :
  List.forallb (passed_over chain_name) pre = true ->
  first_on_chain chain_name (pre ++ rest)%list = first_on_chain chain_name rest.
Proof.
  induction pre as [|cred pre IH]; intros Hpre; [reflexivity|].
  cbn [List.forallb] in Hpre. apply andb_true_iff in Hpre.
  destruct Hpre as [Hcred Hpre].
  destruct cred; try discriminate. cbn [passed_over] in Hcred.
  apply negb_true_iff in Hcred.
  cbn [app first_on_chain get]. rewrite Hcred. apply IH. exact Hpre.
Qed.

Lemma first_on_chain_none chain_name creds :
  List.forallb (passed_over chain_name) creds = true ->
  first_on_chain chain_name creds = inr None.
Proof.
  intros H. rewrite <- (List.app_nil_r creds).
  rewrite first_on_chain_passes by exact H. reflexivity.
Qed.

(** X26. An address extracted from a token is never empty, and it is
    the address of one of the token's credentials. *)
Theorem extracted_address_is_not_empty payload address :
  extract_wallet_address payload = inr address ->
  truthy address = true /\
  exists credentials creds cred,
    get payload "verified_credentials" (VList []) = inr credentials /\
    items credentials = inr creds /\ In cred creds /\
    get cred "address" (VStr "") = inr address.
Proof.
  unfold extract_wallet_address.
  destruct (get payload "verified_credentials" (VList [])) as [e|credentials]
    eqn:Hget; [discriminate|].
  destruct (negb (truthy credentials)); [discriminate|].
  destruct (items credentials) as [e|creds] eqn:Hitems; [discriminate|].
  destruct (first_on_chain "eip155" creds) as [e|[a|]] eqn:Hevm; [discriminate| |].
  - intros H. injection H as <-.
    destruct (first_on_chain_some _ _ _ Hevm) as (Ht & cred & Hin & Ha).
    split; [exact Ht|]. exists credentials, creds, cred. auto.
  - destruct (first_on_chain "solana" creds) as [e|[a|]] eqn:Hsol; [discriminate| |].
    + intros H. injection H as <-.
      destruct (first_on_chain_some _ _ _ Hsol) as (Ht & cred & Hin & Ha).
      split; [exact Ht|]. exists credentials, creds, cred. auto.
    + destruct creds as [|first rest]; [discriminate|].
      destruct (get first "address" (VStr "")) as [e|a] eqn:Ha; [discriminate|].
      destruct (truthy a) eqn:Ht; [|discriminate].
      intros H. injection H as <-. split; [exact Ht|].
      exists credentials, (first :: rest), first.
      split; [reflexivity|]. split; [exact Hitems|].
      split; [left; reflexivity|exact Ha].
Qed.

(** X27. An EVM address wins wherever it stands: when the credentials
    before it are dicts none of which is an EVM credential with an
    address, the address extracted is that of the first EVM credential
    that has one, whatever comes before on other chains and whatever
    comes after. *)
Theorem evm_address_is_preferred payload pre d post :
  get payload "verified_credentials" (VList []) = inr (VList (pre ++ VDict d :: post)) ->
  List.forallb (passed_over "eip155") pre = true ->
  equals_str (dict_get d "chain" (VStr "")) "eip155" = true ->
  truthy (dict_get d "address" (VStr "")) = true ->
  extract_wallet_address payload = inr (dict_get d "address" (VStr "")).
Proof.
  intros Hget Hpre Hchain Haddress. unfold extract_wallet_address. rewrite Hget.
  assert (Htruthy : truthy (VList (pre ++ VDict d :: post)) = true)
    by (destruct pre; reflexivity).
  rewrite Htruthy. cbn [negb items].
  rewrite first_on_chain_passes by exact Hpre.
  cbn [first_on_chain get]. rewrite Hchain, Haddress. reflexivity.
Qed.

(** X28. With no EVM and no Solana credential that has an address,
    only the first credential counts: its address is extracted when
    it is not empty, and otherwise the token is refused with 401,
    even when a later credential has an address. *)
Theorem fallback_takes_the_first_credential payload d rest :
  get payload "verified_credentials" (VList []) = inr (VList (VDict d :: rest)) ->
  List.forallb (passed_over "eip155") (VDict d :: rest) = true ->
  List.forallb (passed_over "solana") (VDict d :: rest) = true ->
  extract_wallet_address payload =
    if truthy (dict_get d "address" (VStr ""))
    then inr (dict_get d "address" (VStr ""))
    else inl (unauthorized "Could not extract wallet address from token." []).
Proof.
  intros Hget Hevm Hsolana. unfold extract_wallet_address. rewrite Hget.
  cbn [truthy negb items].
  rewrite (first_on_chain_none "eip155") by exact Hevm.
  rewrite (first_on_chain_none "solana") by exact Hsolana.
  reflexivity.
Qed.

(** X29. The key set is fetched once: after a call that returned a
    key set other than null, every later call returns that key set
    from the cache and makes no request, whatever the outside has
    become. *)
Theorem key_set_is_fetched_once o o' st jwks st1 :
  get_jwks o st = (inr jwks, st1) ->
  jwks <> VNone ->
  get_jwks o' st1 = (inr jwks, st1) /\
  (requests_made st1 <= S (requests_made st))%nat.
Proof.
  unfold get_jwks. destruct (_jwks_cache st) as [cache|] eqn:Hcache.
  - intros H Hjwks. injection H as <- <-. rewrite Hcache. split; [reflexivity|lia].
  - destruct (DYNAMIC_ENVIRONMENT_ID o) as [[|c s]|]; try discriminate.
    destruct (fetch o (requests_made st)) as [body|msg|e]; try discriminate.
    intros H Hjwks. injection H as <- <-. cbn.
    destruct body; try (split; [reflexivity|lia]). contradiction.
Qed.

Lemma get_jwks_requests o st :
  (requests_made st <= requests_made (snd (get_jwks o st)) <= S (requests_made st))%nat.
Proof.
  unfold get_jwks. destruct (_jwks_cache st); [cbn; lia|].
  destruct (DYNAMIC_ENVIRONMENT_ID o) as [[|c s]|]; try (cbn; lia).
  destruct (fetch o (requests_made st)); cbn; lia.
Qed.

Lemma get_jwks_source o st jwks st1 :
  get_jwks o st = (inr jwks, st1) ->
  _jwks_cache st = Some jwks \/ fetch o (requests_made st) = Fetched jwks.
Proof.
  unfold get_jwks. destruct (_jwks_cache st) as [cache|].
  - intros H. injection H as <- _. left. reflexivity.
  - destruct (DYNAMIC_ENVIRONMENT_ID o) as [[|c s]|]; try discriminate.
    destruct (fetch o (requests_made st)) as [body|msg|e]; try discriminate.
    intros H. injection H as <- _. right. reflexivity.
Qed.

(** X30. A token is accepted only when the decoder accepted it, under
    the key set of the cache or under one just fetched; and verifying
    one token costs at most two requests for the key set: the one
    that fills the cache and the one retry after a signature error. *)
Theorem accepted_token_was_decoded o token st :
  let outcome := verify_dynamic_token o token st in
  (requests_made st <= requests_made (snd outcome) <= 2 + requests_made st)%nat /\
  forall payload,
    fst outcome = inr payload ->
    exists jwks,
      jwt_decode o token jwks = Decoded payload /\
      (_jwks_cache st = Some jwks \/ exists n, fetch o n = Fetched jwks).
Proof.
  cbv zeta. unfold verify_dynamic_token, clear_jwks_cache. run.
  pose proof (get_jwks_requests o st) as H1.
  pose proof (get_jwks_source o st) as S1.
  destruct (get_jwks o st) as [[r|jwks] st1]; cbn [snd] in H1.
  - cbn. split; [lia|discriminate].
  - specialize (S1 jwks st1 eq_refl).
    assert (Hsrc : _jwks_cache st = Some jwks \/ exists n, fetch o n = Fetched jwks)
      by (destruct S1; eauto).
    destruct (jwt_decode o token jwks) as [payload|error_msg|e] eqn:Hdecode.
    + cbn. split; [lia|]. intros p H. injection H as <-. eauto.
    + destruct (occurs_in "signature" (Builtins.lowercase error_msg)).
      * cbn beta iota.
        match goal with
        | |- context [get_jwks o ?s] =>
            pose proof (get_jwks_requests o s) as H2;
            pose proof (get_jwks_source o s) as S2;
            destruct (get_jwks o s) as [[r|fresh_jwks] st2]
        end; cbn [snd requests_made] in H2.
        -- cbn. split; [lia|discriminate].
        -- specialize (S2 fresh_jwks st2 eq_refl). cbn [_jwks_cache] in S2.
           destruct S2 as [S2|S2]; [discriminate|].
           destruct (jwt_decode o token fresh_jwks) as [payload|msg|e] eqn:Hretry;
             cbn; (split; [lia|]); try discriminate.
           intros p H. injection H as <-. eauto.
      * cbn. split; [lia|discriminate].
    + cbn. split; [lia|discriminate].
Qed.

End tokens.

(** * The pipeline on the sample data

    From here on the runtime is the reference runtime. *)

#[local] Existing Instance reference_runtime.

Section samples.
Import claude_verification.

(** C2 at the sample miner: from 98, a delta of +5 is stored as 100. *)
Lemma reputation_update_clamps_witness :
  List.filter (fun u => String.eqb (services.u_id u) "user-1") (services.users Sample.db)
    = [Sample.user] /\
  forall u',
    In u' (services.users
             (snd (services.update_user_reputation "user-1" 5 Sample.db))) ->
    services.u_id u' = "user-1" ->
    services.u_reputation_score u' = 100 /\
    0 <= services.u_reputation_score u' <= 100.
Proof.
  split; [reflexivity|].
  exact (proj1 (proj2 (reputation_update_clamps
                         "user-1" 5 Sample.db Sample.user [] eq_refl))).
Defined.

(** From 98, +5 gives 100 and not 103; from 1, -2 gives 0 and not -1. *)
Example reputation_clamp_examples :
  services.users (snd (services.update_user_reputation "user-1" 5 Sample.db))
    = [services.set_reputation_score 100 Sample.user] /\
  services.users
    (snd (services.update_user_reputation "user-1" (-2)
            (services.with_users (fun _ => [services.set_reputation_score 1 Sample.user])
               Sample.db)))
    = [services.set_reputation_score 0 Sample.user] /\
  Spec.clamp (98 + 5) 0 100 = 100 /\ Spec.clamp (1 + -2) 0 100 = 0.
Proof. repeat split; reflexivity. Qed.

(** C10 at a wallet the sample table does not hold. *)
Lemma get_or_create_user_witness :
  (forall u, In u (services.users Sample.db) -> services.u_wallet_address u <> "0xNEW") /\
  exists user,
    services.get_or_create_user "0xNEW" None Sample.db =
      (user, services.with_users (fun rows => (rows ++ [user])%list)
               (snd (services.read_clock (snd (services.draw_uuid Sample.db))))) /\
    services.u_reputation_score user = 50 /\
    services.u_total_tasks_completed user = 0 /\
    services.u_total_rewards_earned user = 0 /\
    services.u_wallet_address user = "0xNEW" /\
    services.u_id user = uuid4 0.
Proof.
  assert (H : forall u, In u (services.users Sample.db) ->
                        services.u_wallet_address u <> "0xNEW").
  { intros u [<-|[]]. discriminate. }
  split; [exact H|].
  exact (proj1 (get_or_create_user_spec "0xNEW" None Sample.db) H).
Defined.

(** The sample miner is returned as stored; a new wallet gets a
    fresh record. *)
Example get_or_create_user_examples :
  services.get_or_create_user Sample.wallet None Sample.db
    = (Sample.user, Sample.db) /\
  fst (services.get_or_create_user "0xNEW" None Sample.db)
    = {| services.u_id := "uuid-0";
         services.u_wallet_address := "0xNEW";
         services.u_username := "miner_0xNEW";
         services.u_reputation_score := 50;
         services.u_total_tasks_completed := 0;
         services.u_total_rewards_earned := 0;
         services.u_created_at := "t0" |}.
Proof. split; reflexivity. Qed.

(** C3, as amended, at the reply of the specification: the verdict
    wrapped in prose is found and read as (false, 0.1, bad). *)
Lemma parse_fallback_first_to_last_witness :
  Builtins.contains "{" "Sure! " = false /\
  Builtins.contains "}" " thanks" = false /\
  json_loads Sample.wrapped_verdict = inl (Exn JSONDecodeError rejected None) /\
  _parse_claude_response (Sample.answers Sample.wrapped_verdict 1200)
      Sample.wrapped_verdict "sub-1" "task-1" =
    inr {| submission_id := "sub-1";
           task_id := "task-1";
           is_valid := VBool false;
           ai_score := 0.1;
           feedback := VStr "bad";
           model_used := "claude-3-5-sonnet-20241022";
           verification_timestamp := Some 1700000000%float;
           execution_time_ms := 0 |}.
Proof.
  split; [reflexivity|]. split; [reflexivity|]. split; [reflexivity|].
  exact (eq_trans
           (parse_fallback_first_to_last
              (Sample.answers Sample.wrapped_verdict 1200) "Sure! "
              (dq "'is_valid': false, 'score': 0.1, 'feedback': 'bad'") " thanks"
              (Exn JSONDecodeError rejected None) "sub-1" "task-1"
              eq_refl eq_refl eq_refl eq_refl)
           eq_refl).
Defined.

(** C3 as stated fails: on a reply that holds a verdict followed by a
    second pair of braces, the first balanced substring is the verdict
    and parses, while the parser takes the text up to the last closing
    brace and raises the decoding error of that text. *)
Lemma fallback_is_not_first_balanced :
  json_loads Sample.two_braces = inl (Exn JSONDecodeError rejected None) /\
  Spec.first_balanced Sample.two_braces
    = Some (dq "{'is_valid': true, 'score': 0.9, 'feedback': 'ok'}") /\
  re_search_braces Sample.two_braces = Some Sample.two_braces /\
  (exists result,
     Spec.parse_verdict (Sample.answers Sample.two_braces 1200) Sample.two_braces
       "sub-1" "task-1" = inr result /\
     is_valid result = VBool true /\ ai_score result = 0.9%float /\
     feedback result = VStr "ok") /\
  (exists e,
     _parse_claude_response (Sample.answers Sample.two_braces 1200) Sample.two_braces
       "sub-1" "task-1" = inl e /\
     exn_cls e = JSONDecodeError) /\
  _parse_claude_response (Sample.answers Sample.two_braces 1200) Sample.two_braces
    "sub-1" "task-1"
  <> Spec.parse_verdict (Sample.answers Sample.two_braces 1200) Sample.two_braces
       "sub-1" "task-1".
Proof.
  split; [reflexivity|]. split; [reflexivity|]. split; [reflexivity|].
  split; [eexists; split; [reflexivity|]; repeat split; reflexivity|].
  split; [eexists; split; reflexivity|].
  discriminate.
Qed.

(** C4 as stated fails: a reply that is a single JSON object whose
    score is null yields no verdict; the parser raises the [TypeError]
    of [float(None)]. *)
Lemma null_score_yields_no_verdict :
  json_loads Cases.null_score
    = inr (VDict [("is_valid", VBool true); ("score", VNone);
                  ("feedback", VStr "ok")]) /\
  _parse_claude_response (Sample.answers Cases.null_score 1200)
      Cases.null_score "sub-1" "task-1" =
    inl (Exn TypeError
           "float() argument must be a string or a real number, not 'NoneType'"
           None) /\
  (forall result,
     _parse_claude_response (Sample.answers Cases.null_score 1200)
       Cases.null_score "sub-1" "task-1" <> inr result).
Proof.
  split; [reflexivity|]. split; [reflexivity|]. intros result H. discriminate H.
Qed.

(** C4 at the reply of the specification, (true, 0.72, ok), at an
    integer score, which comes back as the float 1.0, and at a score
    given as a string, beside a validity that is a string and stays
    one. *)
Lemma parse_object_fields_witness :
  json_loads Sample.plain_verdict
    = inr (VDict [("is_valid", VBool true); ("score", VFloat 0.72);
                  ("feedback", VStr "ok")]) /\
  _parse_claude_response (Sample.answers Sample.plain_verdict 1200)
      Sample.plain_verdict "sub-1" "task-1" =
    inr {| submission_id := "sub-1";
           task_id := "task-1";
           is_valid := VBool true;
           ai_score := 0.72;
           feedback := VStr "ok";
           model_used := "claude-3-5-sonnet-20241022";
           verification_timestamp := Some 1700000000%float;
           execution_time_ms := 0 |} /\
  json_loads Cases.integer_score
    = inr (VDict [("is_valid", VBool true); ("score", VInt 1);
                  ("feedback", VStr "ok")]) /\
  _parse_claude_response (Sample.answers Cases.integer_score 1200)
      Cases.integer_score "sub-1" "task-1" =
    inr {| submission_id := "sub-1";
           task_id := "task-1";
           is_valid := VBool true;
           ai_score := 1;
           feedback := VStr "ok";
           model_used := "claude-3-5-sonnet-20241022";
           verification_timestamp := Some 1700000000%float;
           execution_time_ms := 0 |} /\
  json_loads Cases.string_score
    = inr (VDict [("is_valid", VStr "yes"); ("score", VStr "0.5");
                  ("feedback", VStr "ok")]) /\
  _parse_claude_response (Sample.answers Cases.string_score 1200)
      Cases.string_score "sub-1" "task-1" =
    inr {| submission_id := "sub-1";
           task_id := "task-1";
           is_valid := VStr "yes";
           ai_score := 0.5;
           feedback := VStr "ok";
           model_used := "claude-3-5-sonnet-20241022";
           verification_timestamp := Some 1700000000%float;
           execution_time_ms := 0 |}.
Proof.
  split; [reflexivity|]. split.
  { exact (proj1 (parse_object_fields (Sample.answers Sample.plain_verdict 1200)
                    Sample.plain_verdict
                    [("is_valid", VBool true); ("score", VFloat 0.72);
                     ("feedback", VStr "ok")]
                    "sub-1" "task-1" eq_refl)). }
  split; [reflexivity|]. split.
  { exact (proj1 (parse_object_fields (Sample.answers Cases.integer_score 1200)
                    Cases.integer_score
                    [("is_valid", VBool true); ("score", VInt 1);
                     ("feedback", VStr "ok")]
                    "sub-1" "task-1" eq_refl)). }
  split; [reflexivity|].
  exact (proj1 (parse_object_fields (Sample.answers Cases.string_score 1200)
                  Cases.string_score
                  [("is_valid", VStr "yes"); ("score", VStr "0.5");
                   ("feedback", VStr "ok")]
                  "sub-1" "task-1" eq_refl)).
Defined.

(** A boolean score is converted; an array and a string that is no
    number are refused. *)
Example score_coercion_examples :
  _parse_claude_response (Sample.answers "" 1200) (dq "{'score': true}")
      "sub-1" "task-1" =
    inr {| submission_id := "sub-1";
           task_id := "task-1";
           is_valid := VBool false;
           ai_score := 1;
           feedback := VStr "No feedback provided";
           model_used := "claude-3-5-sonnet-20241022";
           verification_timestamp := Some 1700000000%float;
           execution_time_ms := 0 |} /\
  _parse_claude_response (Sample.answers "" 1200) (dq "{'score': [1]}")
      "sub-1" "task-1" =
    inl (Exn TypeError
           "float() argument must be a string or a real number, not 'list'" None) /\
  _parse_claude_response (Sample.answers "" 1200) (dq "{'score': 'high'}")
      "sub-1" "task-1" =
    inl (Exn ValueError "could not convert string to float: 'high'" None).
Proof. repeat split; reflexivity. Qed.

(** An empty object yields the three defaults. *)
Example parse_defaults_example :
  _parse_claude_response (Sample.answers "{}" 1200) "{}" "sub-1" "task-1" =
    inr {| submission_id := "sub-1";
           task_id := "task-1";
           is_valid := VBool false;
           ai_score := 0;
           feedback := VStr "No feedback provided";
           model_used := "claude-3-5-sonnet-20241022";
           verification_timestamp := Some 1700000000%float;
           execution_time_ms := 0 |}.
Proof. reflexivity. Qed.

(** C5 at a well-formed verdict measured at 30001 ms against the
    default budget of 30 s. *)
Lemma timeout_checked_after_the_call_witness :
  reply (Sample.answers Sample.plain_verdict 30001) = inr Sample.plain_verdict /\
  (exists parsed,
     _parse_claude_response (Sample.answers Sample.plain_verdict 30001)
       Sample.plain_verdict "sub-1" "task-1" = inr parsed) /\
  30 * 1000 < elapsed_ms (Sample.answers Sample.plain_verdict 30001) /\
  client_verify_submission (Sample.answers Sample.plain_verdict 30001)
      "sub-1" "task-1" 30 =
    inl (Exn VerificationError
           "Verification failed: Verification took 30001ms, exceeded 30s limit"
           (Some (Exn TimeoutError
                    "Verification took 30001ms, exceeded 30s limit" None))).
Proof.
  split; [reflexivity|]. split; [eexists; reflexivity|]. split; [reflexivity|].
  exact (proj1 (timeout_checked_after_the_call
                  (Sample.answers Sample.plain_verdict 30001) "sub-1" "task-1" 30)
           Sample.plain_verdict _ eq_refl eq_refl eq_refl).
Defined.

(** Through the module-level function, whose budget is the default
    30 s: at exactly 30000 ms the result is returned, one millisecond
    later the call fails. *)
Example default_budget_example :
  (exists result,
     verify_submission (Sample.answers Sample.plain_verdict 30000) "sub-1" "task-1" None
       = inr result /\
     execution_time_ms result = 30000 /\ ai_score result = 0.72%float) /\
  verify_submission (Sample.answers Sample.plain_verdict 30001) "sub-1" "task-1" None
    = inl (Exn VerificationError
             "Verification failed: Verification took 30001ms, exceeded 30s limit"
             (Some (Exn TimeoutError
                      "Verification took 30001ms, exceeded 30s limit" None))).
Proof.
  split; [|reflexivity].
  eexists. split; [vm_compute; reflexivity|]. split; reflexivity.
Qed.



(** The orchestrator wraps the parser's error and the judge's error
    alike, keeping the message and the cause. *)
Example orchestrator_failures_example :
  client_verify_submission (Sample.answers Sample.refusal 1200) "sub-1" "task-1" 30 =
    inl (Exn VerificationError
           "Verification failed: Could not parse Claude response: I cannot comply"
           (Some (Exn VerificationError
                    "Could not parse Claude response: I cannot comply" None))) /\
  client_verify_submission Sample.unreachable "sub-1" "task-1" 30 =
    inl (Exn VerificationError "Verification failed: rate limited"
           (Some (Exn JudgeError "rate limited" None))).
Proof. split; reflexivity. Qed.

(** C7 at an accepted submission of the sample miner. *)
Lemma one_reputation_event_per_outcome_witness :
  fst (services.get_task "task-1" Sample.db) = Some Sample.task /\
  fst (fst (main.enter_pending "task-1" Sample.request Sample.db)) = Sample.user /\
  exists event,
    services.reputation_events
      (snd (main.submit_inference (Sample.answers Sample.plain_verdict 1200)
              "task-1" Sample.request Sample.db))
      = (services.reputation_events Sample.db ++ [event])%list /\
    services.e_user_id event = "user-1" /\
    services.e_reason event = VStr "ok" /\
    services.e_delta event = 5 /\
    services.e_event_type event = "submission_accepted".
Proof.
  split; [reflexivity|]. split; [reflexivity|].
  exact (one_reputation_event_per_outcome
           (Sample.answers Sample.plain_verdict 1200) "task-1" Sample.request Sample.db
           Sample.task
           (fst (fst (main.enter_pending "task-1" Sample.request Sample.db)))
           (snd (fst (main.enter_pending "task-1" Sample.request Sample.db)))
           (snd (main.enter_pending "task-1" Sample.request Sample.db))
           eq_refl eq_refl).
Defined.

(** The event records +5 although the score moved from 98 to 100. *)
Example requested_delta_is_recorded :
  let db' := snd (main.submit_inference (Sample.answers Sample.plain_verdict 1200)
                    "task-1" Sample.request Sample.db) in
  List.map services.e_delta (services.reputation_events db') = [5] /\
  List.map services.u_reputation_score (services.users Sample.db) = [98] /\
  List.map services.u_reputation_score (services.users db') = [100].
Proof. repeat split; reflexivity. Qed.

(** A rejected verdict, an unreadable reply and an unreachable judge. *)
Example reputation_events_examples :
  List.map (fun e => (services.e_delta e, services.e_event_type e, services.e_reason e))
    (services.reputation_events
       (snd (main.submit_inference (Sample.answers Sample.wrapped_verdict 1200)
               "task-1" Sample.request Sample.db)))
    = [(-2, "submission_rejected", VStr "bad")] /\
  List.map (fun e => (services.e_delta e, services.e_event_type e, services.e_reason e))
    (services.reputation_events
       (snd (main.submit_inference (Sample.answers Sample.refusal 1200)
               "task-1" Sample.request Sample.db)))
    = [(-1, "submission_rejected", VStr "Verification failed")] /\
  List.map (fun e => (services.e_delta e, services.e_event_type e, services.e_reason e))
    (services.reputation_events
       (snd (main.submit_inference Sample.unreachable
               "task-1" Sample.request Sample.db)))
    = [(-1, "submission_rejected", VStr "Verification failed")].
Proof. repeat split; reflexivity. Qed.

(** C8 at a reply the parser cannot read. *)
Lemma count_moves_only_on_completion_witness :
  fst (services.get_task "task-1" Sample.db) = Some Sample.task /\
  let db' := snd (main.submit_inference (Sample.answers Sample.refusal 1200)
                    "task-1" Sample.request Sample.db) in
  services.tasks db' = services.tasks Sample.db /\
  fst (services.get_task "task-1" db') = Some Sample.task /\
  (exists row, In row (services.submissions db') /\ services.s_id row = "uuid-0") /\
  (forall row,
     In row (services.submissions db') -> services.s_id row = "uuid-0" ->
     services.s_ai_score row = Some 0%float /\
     services.s_is_valid row = Some (VBool false) /\
     services.s_feedback row =
       Some (VStr "Verification error: Verification failed: Could not parse Claude response: I cannot comply") /\
     services.s_reward_earned row = 0%float).
Proof.
  split; [reflexivity|].
  exact (count_moves_only_on_completion
           (Sample.answers Sample.refusal 1200) "task-1" Sample.request Sample.db
           Sample.task
           (fst (fst (main.enter_pending "task-1" Sample.request Sample.db)))
           (snd (fst (main.enter_pending "task-1" Sample.request Sample.db)))
           (snd (main.enter_pending "task-1" Sample.request Sample.db))
           eq_refl eq_refl).
Defined.

(** The count goes from 3 to 4 on a verdict, valid or not, and stays
    at 3 on a timeout or an unreachable judge. *)
Example submission_count_examples :
  List.map services.t_current_submissions (services.tasks Sample.db) = [3] /\
  List.map services.t_current_submissions
    (services.tasks
       (snd (main.submit_inference (Sample.answers Sample.plain_verdict 1200)
               "task-1" Sample.request Sample.db))) = [4] /\
  List.map services.t_current_submissions
    (services.tasks
       (snd (main.submit_inference (Sample.answers Sample.wrapped_verdict 1200)
               "task-1" Sample.request Sample.db))) = [4] /\
  List.map services.t_current_submissions
    (services.tasks
       (snd (main.submit_inference (Sample.answers Sample.plain_verdict 30001)
               "task-1" Sample.request Sample.db))) = [3] /\
  List.map services.t_current_submissions
    (services.tasks
       (snd (main.submit_inference Sample.unreachable
               "task-1" Sample.request Sample.db))) = [3].
Proof. repeat split; reflexivity. Qed.

(** C1 at a rate of 10.0 and a score of 0.85: the reward is 8.5. *)
Lemma reward_is_rate_times_score_witness :
  fst (services.get_task "task-1" Sample.db) = Some Sample.task /\
  (exists verification_result,
     main.verify (Sample.answers Sample.mock_scored 1200) Sample.task
       (snd (fst (main.enter_pending "task-1" Sample.request Sample.db))) "task-1"
       = inr verification_result /\
     ai_score verification_result = 0.85%float) /\
  exists response,
    fst (main.submit_inference (Sample.answers Sample.mock_scored 1200)
           "task-1" Sample.request Sample.db) = inr response /\
    main.r_reward_earned response = 8.5%float.
Proof.
  split; [reflexivity|]. split; [eexists; split; reflexivity|].
  destruct (proj1 (proj1 (reward_is_rate_times_score (rt := reference_runtime))
             (Sample.answers Sample.mock_scored 1200) "task-1" Sample.request Sample.db
             Sample.task
             (fst (fst (main.enter_pending "task-1" Sample.request Sample.db)))
             (snd (fst (main.enter_pending "task-1" Sample.request Sample.db)))
             (snd (main.enter_pending "task-1" Sample.request Sample.db))
             {| submission_id := "uuid-0";
                task_id := "task-1";
                is_valid := VBool true;
                ai_score := 0.85;
                feedback := VStr "fine";
                model_used := "claude-3-5-sonnet-20241022";
                verification_timestamp := Some 1700000000%float;
                execution_time_ms := 1200 |}
             eq_refl eq_refl eq_refl))
    as (response & Hanswer & _ & _ & Hreward).
  exists response. split; [exact Hanswer | exact Hreward].
Defined.

(** 10.0 * 0.85 = 8.5 and 20.0 * 0.9 = 18.0 in binary64; a score of
    5 is not clamped and pays 50.0; the mock verdict pays 8.5. *)
Example reward_examples :
  (10.0 * 0.85 = 8.5)%float /\ (20.0 * 0.9 = 18.0)%float /\
  (exists response st',
     main.submit_inference (Sample.answers Sample.overscored 1200)
       "task-1" Sample.request Sample.db = (inr response, st') /\
     ai_score (main.r_verification response) = 5%float /\
     main.r_reward_earned response = 50%float /\
     List.map services.s_reward_earned (services.submissions st') = [50%float]) /\
  (exists response st',
     app.submit_inference false Sample.unreachable "task-1" (VDict []) Sample.app_state
       = (inr response, st') /\
     app.a_ai_score (app.r_verification response) = 0.85%float /\
     app.r_reward_earned response = 8.5%float).
Proof.
  split; [reflexivity|]. split; [reflexivity|].
  split; eexists; eexists; (split; [vm_compute; reflexivity|]);
    repeat split; reflexivity.
Qed.

(** C9 as stated fails: in live mode, with a judge whose call raises,
    the in-memory handler answers with success and the mock verdict. *)
Lemma live_failure_falls_back_to_mock :
  (exists e,
     app.live Sample.unreachable Sample.app_task "uuid-0" "task-1" = inl e /\
     exn_cls e = VerificationError) /\
  exists response st',
    app.submit_inference true Sample.unreachable "task-1" (VDict []) Sample.app_state
      = (inr response, st') /\
    app.r_status response = "success" /\
    app.a_verification_type (app.r_verification response) = "mock_fallback" /\
    app.a_model_used (app.r_verification response) = "mock-verifier" /\
    app.a_is_valid (app.r_verification response) = VBool true /\
    app.a_ai_score (app.r_verification response) = 0.85%float /\
    app.r_reward_earned response = 8.5%float /\
    (app.sub_status <$> app.submissions_db st' !! "uuid-0") = Some "completed".
Proof.
  split; [eexists; split; [vm_compute; reflexivity | reflexivity]|].
  eexists. eexists. split; [vm_compute; reflexivity|]. repeat split; reflexivity.
Qed.

(** C9, as amended, at a live call that succeeds. *)
Lemma mock_replaces_failed_calls_witness :
  app.tasks_db Sample.app_state !! "task-1" = Some Sample.app_task /\
  exists response st',
    app.submit_inference true (Sample.answers Sample.plain_verdict 1200) "task-1"
      (VDict []) Sample.app_state = (inr response, st') /\
    app.a_verification_type (app.r_verification response) = "claude_ai" /\
    app.a_ai_score (app.r_verification response) = 0.72%float.
Proof.
  split; [reflexivity|].
  destruct (proj2 (mock_replaces_failed_calls true
                     (Sample.answers Sample.plain_verdict 1200) "task-1" (VDict [])
                     Sample.app_state Sample.app_task eq_refl))
    as (response & st' & Hanswer & _ & _ & _ & Hused).
  exists response, st'. split; [exact Hanswer|].
  split; [exact (proj1 Hused) | exact (proj1 (proj2 (proj2 Hused)))].
Defined.

End samples.

(** ** The further properties on sample data *)

Section more_samples.
Import claude_verification.

(** X2 at a reply that is a JSON array. *)
Lemma non_object_reply_is_refused_witness :
  client_verify_submission (Sample.answers "[1, 2]" 5) "sub-1" "task-1" 30 =
    inl (Exn VerificationError
           "Verification failed: 'list' object has no attribute 'get'"
           (Some (Exn AttributeError "'list' object has no attribute 'get'" None))).
Proof.
  refine (proj2 (non_object_reply_is_refused (rt := reference_runtime)
                   (Sample.answers "[1, 2]" 5) "[1, 2]" (VList [VInt 1; VInt 2])
                   "sub-1" "task-1" 30 eq_refl eq_refl _)).
  intros d H. discriminate H.
Defined.

(** X3 at a reply whose braces hold no JSON. *)
Lemma unparsable_substring_surfaces_decoder_error_witness :
  re_search_braces "Here: {oops} bye" = Some "{oops}" /\
  client_verify_submission (Sample.answers "Here: {oops} bye" 5) "sub-1" "task-1" 30 =
    inl (Exn VerificationError "Verification failed: invalid JSON document"
           (Some (Exn JSONDecodeError rejected None))).
Proof.
  split; [reflexivity|].
  exact (proj2 (unparsable_substring_surfaces_decoder_error (rt := reference_runtime)
                  (Sample.answers "Here: {oops} bye" 5) "Here: {oops} bye" "{oops}"
                  (Exn JSONDecodeError rejected None)
                  (Exn JSONDecodeError rejected None)
                  "sub-1" "task-1" 30 eq_refl eq_refl eq_refl eq_refl eq_refl)).
Defined.

(** X4 at a judge whose environment holds no key. *)
Lemma missing_api_key_is_a_value_error_witness :
  verify_submission Cases.keyless "sub-1" "task-1" None =
    inl (Exn ValueError
           "CLAUDE_API_KEY not set in environment or passed as argument" None).
Proof.
  exact (proj1 (missing_api_key_is_a_value_error (rt := reference_runtime)
                  Cases.keyless "sub-1" "task-1")
           (or_introl eq_refl)).
Defined.

(** X5 at a reply that took 45 seconds, under budgets of 50 and 60. *)
Lemma larger_budget_keeps_result_witness :
  exists result,
    client_verify_submission (Sample.answers Sample.plain_verdict 45000)
      "sub-1" "task-1" 50 = inr result /\
    client_verify_submission (Sample.answers Sample.plain_verdict 45000)
      "sub-1" "task-1" 60 = inr result.
Proof.
  eexists. split; [vm_compute; reflexivity|].
  refine (proj1 (larger_budget_keeps_result (rt := reference_runtime)
                   (Sample.answers Sample.plain_verdict 45000) "sub-1" "task-1"
                   50 60 _) _ _); [lia|vm_compute; reflexivity].
Defined.

(** X6 at the plain verdict. *)
Lemma result_echoes_the_call_witness :
  exists result,
    verify_submission (Sample.answers Sample.plain_verdict 1200) "sub-1" "task-1" None
      = inr result /\
    claude_verification.submission_id result = "sub-1" /\
    claude_verification.task_id result = "task-1" /\
    model_used result = "claude-3-5-sonnet-20241022" /\
    execution_time_ms result = 1200.
Proof.
  eexists. split; [vm_compute; reflexivity|].
  match goal with
  | |- context [claude_verification.submission_id ?r] =>
      pose proof (result_echoes_the_call (rt := reference_runtime)
                    (Sample.answers Sample.plain_verdict 1200) "sub-1" "task-1" None r
                    eq_refl) as H
  end.
  destruct H as (H1 & H2 & H3 & H4 & _). repeat split; assumption.
Defined.

(** X7 at a wallet the table does not hold: the second call, under
    another name, returns the user the first call created. *)
Lemma get_or_create_user_is_idempotent_witness :
  let first_call := services.get_or_create_user Cases.new_wallet None Cases.db in
  services.get_or_create_user Cases.new_wallet (Some "alice") (snd first_call) = first_call /\
  services.get_user_by_wallet Cases.new_wallet (snd first_call)
    = (Some (fst first_call), snd first_call) /\
  services.u_wallet_address (fst first_call) = Cases.new_wallet.
Proof.
  exact (get_or_create_user_is_idempotent (rt := reference_runtime)
           Cases.new_wallet None (Some "alice") Cases.db
           (fst (services.get_or_create_user Cases.new_wallet None Cases.db))
           (snd (services.get_or_create_user Cases.new_wallet None Cases.db))
           eq_refl).
Defined.

(** X8 at the two miners of the table and a newcomer's submission. *)
Lemma wallets_stay_unique_witness :
  List.NoDup
    (List.map services.u_wallet_address
       (services.users
          (snd (main.submit_inference (Sample.answers Sample.plain_verdict 1200)
                  "task-1" Cases.newcomer Cases.db)))).
Proof.
  refine (proj2 (wallets_stay_unique (rt := reference_runtime)
                   (Sample.answers Sample.plain_verdict 1200) "task-1" Cases.newcomer
                   Cases.new_wallet None Cases.db _)).
  repeat constructor; cbn; intuition discriminate.
Defined.

(** X9 at the sample table, which holds no task named by the next
    identifier. *)
Lemma created_task_is_found_witness :
  exists task db1,
    main_endpoints.create_task Cases.create_request Cases.db = (inr task, db1) /\
    services.tasks db1 = (services.tasks Cases.db ++ [task])%list /\
    services.t_id task = "uuid-0" /\
    services.t_status task = "active" /\
    services.t_current_submissions task = 0 /\
    services.t_reward_per_submission task = 2.5%float /\
    main_endpoints.get_task (services.t_id task) db1 = (inr task, db1).
Proof.
  refine (created_task_is_found (rt := reference_runtime)
            Cases.create_request Cases.db _).
  intros t [<-|[<-|[]]]; discriminate.
Defined.


(** X11 at a user identifier the table does not hold. *)
Lemma event_for_unknown_user_is_recorded_witness :
  let db' := snd (services.create_reputation_event "ghost" "submission_rejected"
                    (VStr "Verification failed") (-1) Cases.db) in
  services.users db' = services.users Cases.db /\
  exists event,
    services.reputation_events db' = (services.reputation_events Cases.db ++ [event])%list /\
    services.e_user_id event = "ghost" /\ services.e_delta event = -1.
Proof.
  refine (event_for_unknown_user_is_recorded (rt := reference_runtime)
            "ghost" "submission_rejected" (VStr "Verification failed") (-1)
            Cases.db _).
  intros u [<-|[<-|[]]]; discriminate.
Defined.

(** X12 at the sample miner: from 98, a gain of 5 moves the score up
    by no more than 5. *)
Lemma effective_delta_is_bounded_witness :
  services.u_reputation_score Sample.user = 98 /\
  forall u',
    In u' (services.users (snd (services.update_user_reputation "user-1" 5 Cases.db))) ->
    services.u_id u' = "user-1" ->
    98 <= services.u_reputation_score u' <= 98 + 5.
Proof.
  split; [reflexivity|]. intros u' Hin Hid.
  refine (proj1 (effective_delta_is_bounded "user-1" 5 Cases.db Sample.user []
                   u' eq_refl _ Hin Hid) _); cbn; lia.
Defined.

(** X13 at the sample task: three increments take the count from 3
    to 6. *)
Lemma repeated_counts_add_up_witness :
  fst (services.get_task "task-1"
         (Nat.iter 3
            (fun d => snd (services.update_task_submission_count "task-1" d))
            Cases.db))
    = Some (services.set_current_submissions (3 + Z.of_nat 3) Sample.task).
Proof.
  exact (repeated_counts_add_up "task-1" Cases.db Sample.task 3 eq_refl).
Defined.

(** X16 at three submissions: a rejected one by the second miner,
    whose score is 1, an accepted one by the sample miner, whose score
    is 98, and a failed one by a newcomer. *)
Lemma reputations_stay_in_range_witness :
  List.map services.u_reputation_score (services.users Cases.db) = [98; 1] /\
  let db' :=
    List.fold_left
      (fun d call => snd (main.submit_inference (fst (fst call)) (snd (fst call))
                            (snd call) d))
      [(Sample.answers Sample.wrapped_verdict 1200, "task-1", Cases.second_request);
       (Sample.answers Sample.plain_verdict 1200, "task-1", Sample.request);
       (Sample.unreachable, "task-1", Cases.newcomer)]
      Cases.db in
  forall u, In u (services.users db') -> 0 <= services.u_reputation_score u <= 100.
Proof.
  split; [reflexivity|].
  refine (reputations_stay_in_range (rt := reference_runtime) _ Cases.db _).
  intros u [<-|[<-|[]]]; cbn; lia.
Defined.

(** The three scores after these submissions. *)
Example reputations_after_three_submissions :
  List.map services.u_reputation_score
    (services.users
       (List.fold_left
          (fun d call => snd (main.submit_inference (fst (fst call)) (snd (fst call))
                                (snd call) d))
          [(Sample.answers Sample.wrapped_verdict 1200, "task-1", Cases.second_request);
           (Sample.answers Sample.plain_verdict 1200, "task-1", Sample.request);
           (Sample.unreachable, "task-1", Cases.newcomer)]
          Cases.db)) = [100; 0; 49].
Proof. reflexivity. Qed.

(** X17 at a verdict whose validity is null: the earlier row is kept
    and the row that follows it has a score and no validity. *)
Lemma one_scored_row_is_added_witness :
  exists row,
    services.submissions
      (snd (main.submit_inference (Sample.answers Cases.null_validity 1200)
              "task-1" Sample.request Cases.db)) = [Cases.earlier; row] /\
    services.s_id row = "uuid-0" /\ services.s_task_id row = "task-1" /\
    services.s_user_id row = "user-1" /\
    services.s_submission_data row = VDict [("answer", VStr "dogs")] /\
    services.s_ai_score row = Some 0.5%float /\
    services.s_is_valid row = None.
Proof.
  assert (Hfresh : forall s, In s (services.submissions Cases.db) ->
                     services.s_id s <> "uuid-0")
    by (intros s [<-|[]]; discriminate).
  destruct (one_scored_row_is_added (rt := reference_runtime)
              (Sample.answers Cases.null_validity 1200) "task-1" Sample.request
              Cases.db Sample.task
              (fst (fst (main.enter_pending "task-1" Sample.request Cases.db)))
              (snd (fst (main.enter_pending "task-1" Sample.request Cases.db)))
              (snd (main.enter_pending "task-1" Sample.request Cases.db))
              eq_refl eq_refl Hfresh)
    as (row & Hrows & Hid & Htask & Huser & Hdata & Hscore & Hnull & _).
  exists row. split; [exact Hrows|]. split; [exact Hid|]. split; [exact Htask|].
  split; [exact Huser|]. split; [exact Hdata|]. split; [exact Hscore|].
  exact (Hnull eq_refl).
Defined.

(** The same verdict on a submission of the second miner: rejected for
    the reputation (null is not truthy) and paid half the reward. *)
Example null_validity_is_scored_and_paid :
  let db' := snd (main.submit_inference (Sample.answers Cases.null_validity 1200)
                    "task-1" Cases.second_request Cases.db) in
  List.map (fun s => (services.s_is_valid s, services.s_ai_score s,
                      services.s_reward_earned s))
    (services.submissions db')
    = [(Some (VBool false), Some 0.2%float, 2%float); (None, Some 0.5%float, 5%float)] /\
  List.map services.e_delta (services.reputation_events db') = [-2].
Proof. split; reflexivity. Qed.

(** X18 at a newcomer whose first submission is accepted. *)
Lemma first_submission_reputation_witness :
  fst (main_endpoints.get_miner_reputation Cases.new_wallet
         (snd (main.submit_inference (Sample.answers Sample.plain_verdict 1200)
                 "task-1" Cases.newcomer Cases.db))) =
    inr {| main_endpoints.wallet := Cases.new_wallet;
           main_endpoints.reputation_score := 55;
           main_endpoints.total_tasks_completed := 0;
           main_endpoints.total_rewards_earned := 0 |}.
Proof.
  refine (first_submission_reputation (rt := reference_runtime)
            (Sample.answers Sample.plain_verdict 1200) "task-1" Cases.newcomer
            Cases.db Sample.task
            (fst (fst (main.enter_pending "task-1" Cases.newcomer Cases.db)))
            (snd (fst (main.enter_pending "task-1" Cases.newcomer Cases.db)))
            (snd (main.enter_pending "task-1" Cases.newcomer Cases.db))
            eq_refl eq_refl _ _);
    intros u [<-|[<-|[]]]; discriminate.
Defined.

(** X19 at the second miner, whose score is 1 and whose submission is
    rejected: the score read back is 0, not -1. *)
Lemma returning_miner_reputation_witness :
  fst (main_endpoints.get_miner_reputation Cases.second_wallet
         (snd (main.submit_inference (Sample.answers Sample.wrapped_verdict 1200)
                 "task-1" Cases.second_request Cases.db))) =
    inr {| main_endpoints.wallet := Cases.second_wallet;
           main_endpoints.reputation_score := 0;
           main_endpoints.total_tasks_completed := 0;
           main_endpoints.total_rewards_earned := 0 |}.
Proof.
  refine (returning_miner_reputation (rt := reference_runtime)
            (Sample.answers Sample.wrapped_verdict 1200) "task-1" Cases.second_request
            Cases.db Sample.task Cases.second_miner
            (snd (fst (main.enter_pending "task-1" Cases.second_request Cases.db)))
            (snd (main.enter_pending "task-1" Cases.second_request Cases.db))
            [] eq_refl eq_refl eq_refl _).
  intros u [<-|[<-|[]]]; [discriminate|reflexivity].
Defined.

(** X20 at the task of type [poetry]: the same refusal from a judge
    that would accept and from one that cannot be reached. *)
Lemma unknown_task_type_never_completes_witness :
  fst (main.submit_inference (Sample.answers Sample.plain_verdict 1200)
         "task-2" Sample.request Cases.db) =
    inl {| status_code := 500;
           detail := "Verification failed: 'poetry' is not a valid TaskType" |} /\
  main.submit_inference (Sample.answers Sample.plain_verdict 1200)
    "task-2" Sample.request Cases.db =
  main.submit_inference Sample.unreachable "task-2" Sample.request Cases.db.
Proof.
  refine (unknown_task_type_never_completes (rt := reference_runtime)
            (Sample.answers Sample.plain_verdict 1200) Sample.unreachable
            "task-2" Sample.request Cases.db Cases.odd_task eq_refl _).
  intros []; discriminate.
Defined.

(** X21 at three submissions to the in-memory handler: one with the
    verifier not loaded, one verified, one whose call fails. *)
Lemma every_submission_is_counted_witness :
  let st' :=
    List.fold_left
      (fun s call => snd (app.submit_inference (fst (fst call)) (snd (fst call))
                            "task-1" (snd call) s))
      [(false, Sample.unreachable, VStr "a");
       (true, Sample.answers Sample.plain_verdict 1200, VStr "b");
       (true, Sample.unreachable, VStr "c")]
      Sample.app_state in
  let task' := Nat.iter 3 app.increment_submissions Sample.app_task in
  app.tasks_db st' = <[ "task-1" := task' ]> (app.tasks_db Sample.app_state) /\
  app.current_submissions task' = 0 + Z.of_nat 3.
Proof.
  exact (every_submission_is_counted (rt := reference_runtime)
           [(false, Sample.unreachable, VStr "a");
            (true, Sample.answers Sample.plain_verdict 1200, VStr "b");
            (true, Sample.unreachable, VStr "c")]
           "task-1" Sample.app_state Sample.app_task eq_refl).
Defined.

(** X23 at a verified submission, read back under another task's
    identifier. *)
Lemma stored_submission_is_read_back_witness :
  exists response st1,
    app.submit_inference true (Sample.answers Sample.plain_verdict 1200) "task-1"
      (VStr "dogs") Sample.app_state = (inr response, st1) /\
    exists submission verified,
      app_endpoints.get_submission_status "task-9" (app.r_submission_id response) st1
        = (inr submission, st1) /\
      app.sub_status submission = "completed" /\
      app.sub_task_id submission = "task-1" /\
      app.sub_submission_data submission = VStr "dogs" /\
      app.sub_verified submission = Some verified /\
      app.v_ai_score verified = app.a_ai_score (app.r_verification response) /\
      app.v_is_valid verified = app.a_is_valid (app.r_verification response) /\
      app.v_reward_earned verified = app.r_reward_earned response /\
      app.v_verification_type verified =
        app.a_verification_type (app.r_verification response).
Proof.
  destruct (stored_submission_is_read_back (rt := reference_runtime) true
              (Sample.answers Sample.plain_verdict 1200) "task-1" (VStr "dogs")
              Sample.app_state Sample.app_task eq_refl)
    as (response & st1 & Hsubmit & Hread).
  exists response, st1. split; [exact Hsubmit|]. exact (Hread "task-9").
Defined.

(** X24 at a judge that cannot be reached: the submission is stored
    failed and the task is not counted. *)
Lemma submission_ends_completed_or_failed_witness :
  let st' := snd (production_main.submit_inference Sample.unreachable "task-1"
                    (VStr "dogs") Cases.production_state) in
  exists submission outcome,
    production_main.submissions_db st' !! "uuid-0" = Some submission /\
    production_main.sub_outcome submission = Some outcome /\
    production_main.sub_task_id submission = "task-1" /\
    production_main.sub_submission_data submission = VStr "dogs" /\
    production_main.sub_status submission = "failed" /\
    production_main.o_ai_score outcome = 0%float /\
    production_main.o_is_valid outcome = VBool false /\
    production_main.o_reward_earned outcome = 0%float /\
    production_main.o_model_used outcome = None /\
    production_main.tasks_db st' = production_main.tasks_db Cases.production_state /\
    exists detail,
      fst (production_main.submit_inference Sample.unreachable "task-1"
             (VStr "dogs") Cases.production_state) =
        inl {| status_code := 500; detail := detail |}.
Proof.
  exact (submission_ends_completed_or_failed (rt := reference_runtime)
           Sample.unreachable "task-1" (VStr "dogs") Cases.production_state
           Sample.app_task eq_refl).
Defined.

(** X25 at a judge that cannot be reached, and at one without a key. *)
Lemma failures_by_cause_witness :
  fst (production_main.submit_inference Sample.unreachable "task-1" (VStr "dogs")
         Cases.production_state) =
    inl {| status_code := 500;
           detail := "Verification failed: Verification failed: rate limited" |} /\
  fst (production_main.submit_inference Cases.keyless "task-1" (VStr "dogs")
         Cases.production_state) =
    inl {| status_code := 500;
           detail := "System error during verification: CLAUDE_API_KEY not set in environment or passed as argument" |}.
Proof.
  split.
  - exact (failures_by_cause (rt := reference_runtime) Sample.unreachable "task-1"
             (VStr "dogs") Cases.production_state Sample.app_task eq_refl).
  - exact (failures_by_cause (rt := reference_runtime) Cases.keyless "task-1"
             (VStr "dogs") Cases.production_state Sample.app_task eq_refl).
Defined.

(** X26 and X27 at the mixed credentials: the EVM address is taken,
    although a Solana wallet stands first and the last entry is no
    dict. *)
Lemma extracted_address_is_not_empty_witness :
  auth.extract_wallet_address Cases.mixed_payload = inr (VStr "0xE") /\
  truthy (VStr "0xE") = true.
Proof.
  split; [reflexivity|].
  exact (proj1 (extracted_address_is_not_empty Cases.mixed_payload (VStr "0xE")
                  eq_refl)).
Defined.

Lemma evm_address_is_preferred_witness :
  auth.extract_wallet_address Cases.mixed_payload = inr (VStr "0xE").
Proof.
  exact (evm_address_is_preferred Cases.mixed_payload
           [Cases.credential "solana" "So1ana"; Cases.credential "eip155" ""]
           [("address", VStr "0xE"); ("chain", VStr "eip155")]
           [VInt 7] eq_refl eq_refl eq_refl eq_refl).
Defined.

(** X28 at credentials on other chains: the first has no address, so
    the token is refused although the second has one. *)
Lemma fallback_takes_the_first_credential_witness :
  auth.extract_wallet_address Cases.other_chains_payload =
    inl (auth.unauthorized "Could not extract wallet address from token." []).
Proof.
  exact (fallback_takes_the_first_credential Cases.other_chains_payload
           [("address", VStr ""); ("chain", VStr "cosmos")]
           [Cases.credential "bitcoin" "bc1"] eq_refl eq_refl eq_refl).
Defined.

(** X29 at a cold cache: the second call makes no request, also when
    the environment identifier has gone. *)
Lemma key_set_is_fetched_once_witness :
  let warm := snd (auth.get_jwks Cases.outside Cases.cold) in
  auth.requests_made warm = 1%nat /\
  auth.get_jwks
    {| auth.DYNAMIC_ENVIRONMENT_ID := None;
       auth.fetch := fun _ => auth.HTTPError "down";
       auth.jwt_decode := auth.jwt_decode Cases.outside |} warm
    = (inr (Cases.key_set 0), warm).
Proof.
  split; [reflexivity|].
  refine (proj1 (key_set_is_fetched_once Cases.outside _ Cases.cold (Cases.key_set 0)
                   (snd (auth.get_jwks Cases.outside Cases.cold)) eq_refl _)).
  discriminate.
Defined.

(** A token signed with a rotated key: the first key set is refused
    with a signature error, the cache is cleared, and the token is
    accepted under the second key set; two requests were made. *)
Example token_accepted_after_key_rotation :
  auth.verify_dynamic_token Cases.outside "token" Cases.cold =
    (inr Cases.mixed_payload,
     {| auth._jwks_cache := Some (Cases.key_set 1); auth.requests_made := 2 |}).
Proof. reflexivity. Qed.

End more_samples.
